(** * The update subsystem of the AlarmDecoder webapp ([ad2web/updater/models.py])

    A shallow embedding of the five updater classes ([Updater],
    [WebappUpdater], [SourceUpdater], [DBUpdater], [RequirementsUpdater])
    and the properties of their behaviour.

    The classes are thin wrappers around external tools (git through [sh],
    alembic, pip, [pkg_resources], the file system).  Every such tool is a
    field of an environment record [Env]: it answers a call either with a
    value or with a Python exception, and the answer may depend on every call
    made before it.  Each call is appended to a trace, so that "is invoked",
    "is not re-run" and "no install is performed" are statements about the
    trace.  Object attributes are record fields; a method is a computation
    in a monad of state, trace and exceptions over the record of its class.

    Calls to [current_app.logger] neither change an attribute nor alter the
    control flow; they are left out of the embedding, and so is the
    [version] property of [WebappUpdater], which no method reads. *)

From Stdlib Require Import String Ascii List ZArith Bool Lia.
From Stdlib Require Import DecimalString.
Import ListNotations.
Local Open Scope string_scope.
Local Open Scope list_scope.

Set Implicit Arguments.

(** ** The operations of Python's [str] used by the updater *)

Module Py.

Definition tab : ascii := Ascii.ascii_of_nat 9.
Definition newline : ascii := Ascii.ascii_of_nat 10.

(** The characters [str.strip()] removes: space, [\t], [\n], [\x0b],
    [\x0c], [\r]. *)
Definition isspace (c : ascii) : bool :=
  let n := Ascii.nat_of_ascii c in
  (Nat.eqb n 32 || (Nat.leb 9 n && Nat.leb n 13))%bool.

Fixpoint lstrip (s : string) : string :=
  match s with
  | EmptyString => EmptyString
  | String c r => if isspace c then lstrip r else s
  end.

Fixpoint rstrip (s : string) : string :=
  match s with
  | EmptyString => EmptyString
  | String c r =>
      match rstrip r with
      | EmptyString => if isspace c then EmptyString else String c EmptyString
      | r' => String c r'
      end
  end.

(** [s.strip()] *)
Definition strip (s : string) : string := rstrip (lstrip s).

(** [s.split(sep)] for a separator of one character; like Python it
    returns a list of at least one field. *)
Fixpoint split (sep : ascii) (s : string) : list string :=
  match s with
  | EmptyString => [EmptyString]
  | String c r =>
      if Ascii.eqb c sep then EmptyString :: split sep r
      else match split sep r with
           | h :: t => String c h :: t
           | [] => [String c EmptyString]
           end
  end.

(** [s.count(c)] for a pattern of one character. *)
Fixpoint count (c : ascii) (s : string) : nat :=
  match s with
  | EmptyString => 0
  | String d r => (if Ascii.eqb d c then 1 else 0) + count c r
  end.

(** [sub in s] *)
Fixpoint contains (sub s : string) : bool :=
  (String.prefix sub s ||
   match s with
   | EmptyString => false
   | String _ r => contains sub r
   end)%bool.

(** [s.replace(old, new)] for a non-empty [old]: occurrences are replaced
    from the left and do not overlap.  [skip] counts the characters of a
    match that are still to be dropped. *)
Fixpoint replace_from (skip : nat) (old new s : string) : string :=
  match s with
  | EmptyString => EmptyString
  | String c r =>
      match skip with
      | S k => replace_from k old new r
      | O =>
          if String.prefix old s
          then new ++ replace_from (String.length old - 1) old new r
          else String c (replace_from 0 old new r)
      end
  end.

Definition replace (old new s : string) : string := replace_from 0 old new s.

(** [sep.join(l)] *)
Definition join (sep : string) (l : list string) : string := String.concat sep l.

(** ['{0}'.format(n)] for an [int]. *)
Definition str_of_int (n : Z) : string := NilZero.string_of_int (Z.to_int n).

(** [bool(l)] for a list. *)
Definition bool_of_list {A} (l : list A) : bool :=
  match l with [] => false | _ :: _ => true end.

End Py.

(** ** Exceptions, external calls and the environment *)

(** The exception classes the code names, and one constructor for every
    other subclass of [Exception]. *)
Inductive exn : Type :=
| ErrorReturnCode (code : Z)       (* sh.ErrorReturnCode_<code> *)
| OperationalError (msg : string)  (* sqlalchemy.exc.OperationalError, str(err) = msg *)
| IOError
| ValueError
| VersionConflict
| PreviousBuildDirError
| TypeError
| KeyError
| AttributeError
| OtherException (name : string).

(** A revision of the source or of the schema: a string, or Python's [None]. *)
Definition revision : Type := option string.

(** The calls that leave the process. *)
Inductive command : Type :=
| GitRemote                          (* git.remote(v=True) *)
| GitFetch                           (* git.fetch('origin', _iter_noblock=True, _timeout=30) *)
| GitSymbolicRef                     (* git('symbolic-ref', 'HEAD', q=True) *)
| GitRevParseHead                    (* git('rev-parse', 'HEAD') *)
| GitRevParseUpstream                (* git('rev-parse', '--verify', '--quiet', '@{upstream}') *)
| GitRevList                         (* git('rev-list', '@{upstream}...HEAD', left_right=True) *)
| GitMerge (ref : string)            (* git.merge(ref) *)
| GitReset (rev : revision)          (* git('reset', '--hard', rev) *)
| DbConnect                          (* engine.connect(); MigrationContext.configure *)
| DbClose                            (* connection.close() *)
| GetCurrentRevision                 (* context.get_current_revision() *)
| GetCurrentHead                     (* script.get_current_head() *)
| WalkRevisions (base head : revision) (* script_directory.walk_revisions(base, head) *)
| AlembicUpgrade (rev : string)      (* command.upgrade(config, rev) *)
| AlembicDowngrade (rev : revision)  (* command.downgrade(config, rev) *)
| AlembicStamp (rev : string)        (* command.stamp(config, rev) *)
| ReadLines (path : string)          (* open(path).readlines() *)
| WorkingSetFind (req : string)      (* working_set.find(Requirement.parse(req)) *)
| PipFromLine (req : string)         (* InstallRequirement.from_line; RequirementSet.add_requirement *)
| PipPrepareFiles (req : string)     (* requirement_set.prepare_files(finder, ...) *)
| Rmtree (req : string)              (* shutil.rmtree(requirement.build_location(...)) *)
| PipInstall (req : string) (options : list string) (* requirement_set.install(local_options, []) *)
| WorkingSetRequire (req : string).  (* working_set.require(requirement.name) *)

Definition trace : Type := list command.

Inductive outcome (A : Type) : Type :=
| Ret (a : A)
| Raise (e : exn).
Arguments Ret {A} a.
Arguments Raise {A} e.

(** The world outside the process.  A field that takes a [trace] is given the
    calls made so far. *)
Record Env : Type := {
  git_installed : bool;              (* false: sh.git raises CommandNotFound *)
  has_real_prefix : bool;            (* hasattr(sys, 'real_prefix') *)
  geteuid : Z;                       (* os.geteuid() *)
  git_remote : trace -> outcome string;
  git_fetch : trace -> outcome unit;
  git_symbolic_ref : trace -> outcome string;
  git_rev_parse_head : trace -> outcome string;
  git_rev_parse_upstream : trace -> outcome string;
  git_rev_list : trace -> outcome string;
  git_merge : trace -> string -> outcome unit;
  git_reset : trace -> revision -> outcome unit;
  db_connect : trace -> outcome unit;
  db_close : trace -> outcome unit;
  get_current_revision : trace -> outcome revision;
  get_current_head : trace -> outcome revision;
  walk_revisions : trace -> revision -> revision -> outcome (list string);
  alembic_upgrade : trace -> string -> outcome unit;
  alembic_downgrade : trace -> revision -> outcome unit;
  alembic_stamp : trace -> string -> outcome unit;
  readlines : trace -> string -> outcome (list string);
  working_set_find : trace -> string -> outcome (option string);
  pip_from_line : trace -> string -> outcome unit;
  pip_prepare_files : trace -> string -> outcome unit;
  rmtree : trace -> string -> outcome unit;
  pip_install : trace -> string -> list string -> outcome unit;
  working_set_require : trace -> string -> outcome unit
}.

(** ** Methods as computations *)

(** A method of an object of class [S]: from the environment, the calls made
    so far and the object it gives a result or an exception, the calls made
    and the object as the method left it.  An exception does not undo an
    assignment made before it. *)
Definition M (S A : Type) : Type := Env -> trace -> S -> outcome A * trace * S.

Definition run {S A} (m : M S A) (env : Env) (tr : trace) (s : S)
  : outcome A * trace * S := m env tr s.

Definition ret {S A} (a : A) : M S A := fun _ tr s => (Ret a, tr, s).

Definition raise {S A} (e : exn) : M S A := fun _ tr s => (Raise e, tr, s).

Definition bind {S A B} (m : M S A) (k : A -> M S B) : M S B :=
  fun env tr s =>
    match m env tr s with
    | (Ret a, tr', s') => k a env tr' s'
    | (Raise e, tr', s') => (Raise e, tr', s')
    end.

(** [try: m  except <handler>: ...]; a handler answers [None] for an
    exception its [except] clause does not match. *)
Definition try_except {S A} (m : M S A) (handler : exn -> option (M S A)) : M S A :=
  fun env tr s =>
    match m env tr s with
    | (Ret a, tr', s') => (Ret a, tr', s')
    | (Raise e, tr', s') =>
        match handler e with
        | Some h => h env tr' s'
        | None => (Raise e, tr', s')
        end
    end.

Definition get {S} : M S S := fun _ tr s => (Ret s, tr, s).

Definition modify {S} (f : S -> S) : M S unit := fun _ tr s => (Ret tt, tr, f s).

Definition ask {S} : M S Env := fun env tr s => (Ret env, tr, s).

(** An external call: the environment answers from the calls made so far,
    and the call joins them. *)
Definition call {S A} (c : command) (answer : Env -> trace -> outcome A) : M S A :=
  fun env tr s => (answer env tr, tr ++ [c], s).

(** A method of an attribute [T] of the object. *)
Definition zoom {S T A} (proj : S -> T) (upd : T -> S -> S) (m : M T A) : M S A :=
  fun env tr s =>
    match m env tr (proj s) with
    | (o, tr', t') => (o, tr', upd t' s)
    end.

Declare Scope py_scope.
Delimit Scope py_scope with py.
Notation "x <- m ;; k" := (bind m (fun x => k))
  (at level 100, m at next level, right associativity) : py_scope.
Notation "m ;; k" := (bind m (fun _ => k))
  (at level 100, right associativity) : py_scope.
Local Open Scope py_scope.

(** [for x in l: body x] *)
Fixpoint for_each {S A} (l : list A) (body : A -> M S unit) : M S unit :=
  match l with
  | [] => ret tt
  | x :: l' => body x ;; for_each l' body
  end.

(** The [except] clauses of the source. *)
Definition is_ErrorReturnCode (e : exn) : bool :=
  match e with ErrorReturnCode _ => true | _ => false end.

Definition is_ErrorReturnCode_128 (e : exn) : bool :=
  match e with ErrorReturnCode c => Z.eqb c 128 | _ => false end.

Definition is_OperationalError (e : exn) : bool :=
  match e with OperationalError _ => true | _ => false end.

(** [str(err)] *)
Definition str_of_exn (e : exn) : string :=
  match e with
  | ErrorReturnCode c => "ErrorReturnCode_" ++ Py.str_of_int c
  | OperationalError msg => msg
  | IOError => "IOError"
  | ValueError => "ValueError"
  | VersionConflict => "VersionConflict"
  | PreviousBuildDirError => "PreviousBuildDirError"
  | TypeError => "TypeError"
  | KeyError => "KeyError"
  | AttributeError => "AttributeError"
  | OtherException name => name
  end.

(** Reading an attribute that no assignment has set yet. *)
Definition getattr {S A} (attr : S -> option A) : M S A :=
  s <- get ;;
  match attr s with
  | Some a => ret a
  | None => raise AttributeError
  end.

(** A fresh object [init], and a part of its constructor run on it. *)
Definition construct {S T A} (init : T) (m : M T A) : M S (A * T) :=
  fun env tr s =>
    match m env tr init with
    | (Ret a, tr', obj) => (Ret (a, obj), tr', s)
    | (Raise e, tr', _) => (Raise e, tr', s)
    end.

(** [a == b] on values that are a string or [None]. *)
Definition revision_eqb (a b : option string) : bool :=
  match a, b with
  | Some x, Some y => String.eqb x y
  | None, None => true
  | _, _ => false
  end.

(** [for x in l: body], where the body assigns to a local variable [acc]. *)
Fixpoint for_fold {S A B} (l : list A) (acc : B) (body : B -> A -> M S B) : M S B :=
  match l with
  | [] => ret acc
  | x :: l' => acc' <- body acc x ;; for_fold l' acc' body
  end.

(** [f()] where [f] is a [bool]: "'bool' object is not callable". *)
Definition call_bool {S A} (f : bool) : M S A := raise TypeError.

(** [d[k] = v] on a dict kept as an association list; a key is a string or
    [None]. *)
Fixpoint dict_set {V} (k : option string) (v : V) (d : list (option string * V))
  : list (option string * V) :=
  match d with
  | [] => [(k, v)]
  | (k0, v0) :: d' =>
      if revision_eqb k0 k then (k, v) :: d' else (k0, v0) :: dict_set k v d'
  end.

(** ** [class RequirementsUpdater] *)

Module RequirementsUpdater.

Record t : Type := {
  path : string;
  local_options : list string;
  requirement_list : list string;
  requirements_needed : list string
}.

Definition set_local_options (v : list string) (s : t) : t :=
  {| path := path s; local_options := v;
     requirement_list := requirement_list s;
     requirements_needed := requirements_needed s |}.

Definition set_requirement_list (v : list string) (s : t) : t :=
  {| path := path s; local_options := local_options s;
     requirement_list := v;
     requirements_needed := requirements_needed s |}.

Definition set_requirements_needed (v : list string) (s : t) : t :=
  {| path := path s; local_options := local_options s;
     requirement_list := requirement_list s;
     requirements_needed := v |}.

(** Install into the user directory unless in a virtualenv or root. *)
Definition _get_local_options (env : Env) : list string :=
  if (negb (has_real_prefix env) && negb (Z.eqb (geteuid env) 0))%bool
  then ["--user"] else [].

(** The package finder is built from constants and is only handed back
    to pip; it is not an attribute of the model. *)
Definition __init__ (env : Env) (path : string) : t :=
  {| path := path;
     local_options := _get_local_options env;
     requirement_list := [];
     requirements_needed := [] |}.

(** The installed distribution that satisfies the requirement, or [None]
    when there is none, the installed one conflicts, or the line does not
    parse. *)
Definition _check_requirement (requirement : string) : M t (option string) :=
  try_except
    (call (WorkingSetFind requirement)
          (fun env tr => working_set_find env tr requirement))
    (fun e =>
       match e with
       | ValueError | VersionConflict => Some (ret None)
       | _ => None
       end).

Definition _check_requirements : M t bool :=
  failed <-
    try_except
      (s <- get ;;
       lines <- call (ReadLines (path s)) (fun env tr => readlines env tr (path s)) ;;
       modify (set_requirement_list (map Py.strip lines)) ;;
       modify (set_requirements_needed []) ;;
       s <- get ;;
       for_each (requirement_list s)
         (fun r =>
            dist <- _check_requirement r ;;
            match dist with
            | Some _ =>
                modify (fun s => set_requirements_needed (requirements_needed s ++ [r]) s)
            | None => ret tt
            end) ;;
       ret false)
      (fun e =>
         match e with
         | IOError =>
             Some (modify (set_requirement_list []) ;;
                   modify (set_requirements_needed []) ;;
                   ret true)
         | _ => None
         end) ;;
  if failed : bool then ret false
  else s <- get ;; ret (Py.bool_of_list (requirements_needed s)).

Definition refresh : M t bool := _check_requirements.

Definition needs_update (s : t) : bool := Py.bool_of_list (requirements_needed s).

(** Returns the pair [(results, message)]. *)
Definition _install_requirement (requirement : string) : M t (bool * option exn) :=
  modify (fun s => match local_options s with
                   | [] => set_local_options [] s
                   | _ :: _ => s
                   end) ;;
  dist <- _check_requirement requirement ;;
  match dist with
  | Some _ => ret (true, None)
  | None =>
      failure <-
        try_except
          (call (PipFromLine requirement)
                (fun env tr => pip_from_line env tr requirement) ;;
           try_except
             (call (PipPrepareFiles requirement)
                   (fun env tr => pip_prepare_files env tr requirement))
             (fun e =>
                match e with
                | PreviousBuildDirError =>
                    Some (call (Rmtree requirement)
                               (fun env tr => rmtree env tr requirement) ;;
                          call (PipPrepareFiles requirement)
                               (fun env tr => pip_prepare_files env tr requirement))
                | _ => None
                end) ;;
           s <- get ;;
           call (PipInstall requirement (local_options s))
                (fun env tr => pip_install env tr requirement (local_options s)) ;;
           ret None)
          (fun e => Some (ret (Some e))) ;;
      match failure with
      | Some err => ret (false, Some err)
      | None =>
          call (WorkingSetRequire requirement)
               (fun env tr => working_set_require env tr requirement) ;;
          ret (true, None)
      end
  end.

(** The loop of [update], which returns at the first failure. *)
Fixpoint update_from (needed : list string) : M t bool :=
  match needed with
  | [] => ret true
  | r :: rest =>
      res <- _install_requirement r ;;
      if fst res then update_from rest else ret false
  end.

Definition update : M t bool :=
  s <- get ;; update_from (requirements_needed s).

End RequirementsUpdater.

(** ** [class DBUpdater] *)

Module DBUpdater.

(** [__init__] assigns neither revision: they are unset until the first
    [refresh].  [_connection] tells whether a connection is held. *)
Record t : Type := {
  _current_revision : option revision;
  _newest_revision : option revision;
  _connection : bool
}.

Definition set_current_revision (v : revision) (s : t) : t :=
  {| _current_revision := Some v; _newest_revision := _newest_revision s;
     _connection := _connection s |}.

Definition set_newest_revision (v : revision) (s : t) : t :=
  {| _current_revision := _current_revision s; _newest_revision := Some v;
     _connection := _connection s |}.

Definition set_connection (v : bool) (s : t) : t :=
  {| _current_revision := _current_revision s;
     _newest_revision := _newest_revision s; _connection := v |}.

Definition __init__ : t :=
  {| _current_revision := None; _newest_revision := None; _connection := false |}.

Definition current_revision : M t revision := getattr _current_revision.

Definition newest_revision : M t revision := getattr _newest_revision.

Definition needs_update : M t bool :=
  cur <- current_revision ;;
  newest <- newest_revision ;;
  ret (negb (revision_eqb cur newest)).

Definition status : string := "".

Definition _open : M t unit :=
  call DbConnect db_connect ;; modify (set_connection true).

Definition _close : M t unit :=
  call DbClose db_close ;; modify (set_connection false).

Definition refresh : M t bool :=
  _open ;;
  cur <- call GetCurrentRevision get_current_revision ;;
  modify (set_current_revision cur) ;;
  newest <- call GetCurrentHead get_current_head ;;
  modify (set_newest_revision newest) ;;
  _close ;;
  ret true.

Definition _stamp_database (rev : string) : M t unit :=
  try_except
    (call (AlembicStamp rev) (fun env tr => alembic_stamp env tr rev))
    (fun e => if is_OperationalError e then Some (raise e) else None).

(** The body of [for rev in reversed(revision_list)]. *)
Definition apply_revision (rev : string) : M t unit :=
  try_except
    (call (AlembicUpgrade rev) (fun env tr => alembic_upgrade env tr rev))
    (fun e =>
       if is_OperationalError e
       then Some (if Py.contains "already exists" (str_of_exn e)
                  then _stamp_database rev
                  else ret tt)
       else None).

(** [walk_revisions] yields the scripts from the newest down to the
    current one; the current one is dropped and the rest applied oldest
    first. *)
Definition update : M t bool :=
  cur <- getattr _current_revision ;;
  newest <- getattr _newest_revision ;;
  if negb (revision_eqb cur newest) then
    try_except
      (scripts <- call (WalkRevisions cur newest)
                       (fun env tr => walk_revisions env tr cur newest) ;;
       let revision_list :=
         filter (fun r => negb (revision_eqb (Some r) cur)) scripts in
       for_each (rev revision_list) apply_revision ;;
       ret true)
      (fun e => if is_OperationalError e then Some (ret false) else None)
  else ret true.

Definition downgrade (rev : revision) : M t unit :=
  try_except
    (call (AlembicDowngrade rev) (fun env tr => alembic_downgrade env tr rev))
    (fun e => if is_OperationalError e then Some (raise e) else None).

End DBUpdater.

(** ** [class SourceUpdater] *)

Module SourceUpdater.

(** [_git] is false when [sh.git] was not found and the attribute holds
    [None]. *)
Record t : Type := {
  _git : bool;
  name : string;
  _branch : string;
  _local_revision : revision;
  _remote_revision : revision;
  _commits_ahead : option Z;
  _commits_behind : option Z;
  _enabled : bool;
  _status : string;
  _requirements_updater : RequirementsUpdater.t
}.

Definition set_branch (v : string) (s : t) : t :=
  {| _git := _git s; name := name s; _branch := v;
     _local_revision := _local_revision s;
     _remote_revision := _remote_revision s;
     _commits_ahead := _commits_ahead s; _commits_behind := _commits_behind s;
     _enabled := _enabled s; _status := _status s;
     _requirements_updater := _requirements_updater s |}.

Definition set_local_revision (v : revision) (s : t) : t :=
  {| _git := _git s; name := name s; _branch := _branch s;
     _local_revision := v;
     _remote_revision := _remote_revision s;
     _commits_ahead := _commits_ahead s; _commits_behind := _commits_behind s;
     _enabled := _enabled s; _status := _status s;
     _requirements_updater := _requirements_updater s |}.

Definition set_remote_revision (v : revision) (s : t) : t :=
  {| _git := _git s; name := name s; _branch := _branch s;
     _local_revision := _local_revision s;
     _remote_revision := v;
     _commits_ahead := _commits_ahead s; _commits_behind := _commits_behind s;
     _enabled := _enabled s; _status := _status s;
     _requirements_updater := _requirements_updater s |}.

(** [self._commits_behind, self._commits_ahead = behind, ahead] *)
Definition set_commit_count (behind ahead : option Z) (s : t) : t :=
  {| _git := _git s; name := name s; _branch := _branch s;
     _local_revision := _local_revision s;
     _remote_revision := _remote_revision s;
     _commits_ahead := ahead; _commits_behind := behind;
     _enabled := _enabled s; _status := _status s;
     _requirements_updater := _requirements_updater s |}.

Definition set_enabled (v : bool) (s : t) : t :=
  {| _git := _git s; name := name s; _branch := _branch s;
     _local_revision := _local_revision s;
     _remote_revision := _remote_revision s;
     _commits_ahead := _commits_ahead s; _commits_behind := _commits_behind s;
     _enabled := v; _status := _status s;
     _requirements_updater := _requirements_updater s |}.

Definition set_status (v : string) (s : t) : t :=
  {| _git := _git s; name := name s; _branch := _branch s;
     _local_revision := _local_revision s;
     _remote_revision := _remote_revision s;
     _commits_ahead := _commits_ahead s; _commits_behind := _commits_behind s;
     _enabled := _enabled s; _status := v;
     _requirements_updater := _requirements_updater s |}.

Definition set_requirements_updater (v : RequirementsUpdater.t) (s : t) : t :=
  {| _git := _git s; name := name s; _branch := _branch s;
     _local_revision := _local_revision s;
     _remote_revision := _remote_revision s;
     _commits_ahead := _commits_ahead s; _commits_behind := _commits_behind s;
     _enabled := _enabled s; _status := _status s;
     _requirements_updater := v |}.

(** [self._git.<cmd>(...)]: an attribute of [None] when git is missing. *)
Definition git_attr {A} (c : command) (answer : Env -> trace -> outcome A) : M t A :=
  s <- get ;;
  if _git s then call c answer else raise AttributeError.

(** [self._git(...)]: a call of [None] when git is missing. *)
Definition git_call {A} (c : command) (answer : Env -> trace -> outcome A) : M t A :=
  s <- get ;;
  if _git s then call c answer else raise TypeError.

Definition branch (s : t) : string := _branch s.
Definition local_revision (s : t) : revision := _local_revision s.
Definition remote_revision (s : t) : revision := _remote_revision s.
Definition commit_count (s : t) : option Z * option Z :=
  (_commits_behind s, _commits_ahead s).
Definition status (s : t) : string := _status s.

(** [behind is not None and behind > 0] *)
Definition known_positive (n : option Z) : bool :=
  match n with
  | Some k => Z.ltb 0 k
  | None => false
  end.

Definition needs_update (s : t) : bool :=
  if _enabled s then
    let '(behind, ahead) := commit_count s in
    if known_positive behind then true else false
  else false.

(** The loop of [_check_remotes] over the lines of [git remote -v];
    [name, path = r.split("\t")] needs exactly two fields. *)
Fixpoint scan_remotes (lines : list string) : M t bool :=
  match lines with
  | [] => ret true
  | r :: rest =>
      match Py.split Py.tab r with
      | [name; path] =>
          if (String.eqb name "origin" && Py.contains "@" path)%bool
          then ret false
          else scan_remotes rest
      | _ => raise ValueError
      end
  end.

Definition _check_remotes : M t bool :=
  s <- get ;;
  if negb (_git s) then ret true
  else
    try_except
      (remotes <- git_attr GitRemote git_remote ;;
       scan_remotes (Py.split Py.newline (Py.strip remotes)))
      (fun e => if is_ErrorReturnCode_128 e then Some (ret false) else None).

Definition _check_enabled : M t (bool * string) :=
  s <- get ;;
  let git_available := _git s in
  remote_okay <- _check_remotes ;;
  let status := "" in
  let status := if negb git_available then "Disabled (Git is unavailable)" else status in
  let status := if negb remote_okay then "Disabled (SSH origin)" else status in
  ret ((git_available && remote_okay)%bool, status).

(** ['{0} commit{1} <side>'.format(n, '' if n == 1 else 's')] *)
Definition commits_clause (n : Z) (side : string) : string :=
  Py.str_of_int n ++ " commit" ++ (if Z.eqb n 1 then "" else "s") ++ " " ++ side.

Definition _update_status (status : string) : M t unit :=
  modify (set_status status) ;;
  chk <- _check_enabled ;;
  let '(enabled, enabled_status) := chk in
  if negb enabled then modify (set_status enabled_status)
  else
    s <- get ;;
    let temp_status := [] in
    let temp_status :=
      match _commits_behind s with
      | Some n => if Z.ltb 0 n then temp_status ++ [commits_clause n "behind"]
                  else temp_status
      | None => temp_status
      end in
    let temp_status :=
      match _commits_ahead s with
      | Some n => if Z.ltb 0 n then temp_status ++ [commits_clause n "ahead"]
                  else temp_status
      | None => temp_status
      end in
    if Nat.eqb (List.length temp_status) 0
    then modify (set_status "Up to date!")
    else modify (fun s => set_status (_status s ++ Py.join ", " temp_status) s).

(** The attributes that are assigned after [_check_enabled] has run hold
    a placeholder while it runs; it reads none of them. *)
Definition __init__ {S} (name : string) : M S t :=
  env <- ask ;;
  r <- construct
         {| _git := git_installed env; name := name; _branch := "";
            _local_revision := None; _remote_revision := None;
            _commits_ahead := Some 0%Z; _commits_behind := Some 0%Z;
            _enabled := false; _status := "";
            _requirements_updater :=
              RequirementsUpdater.__init__ env "requirements.txt" |}
         _check_enabled ;;
  let '((enabled, status), self) := r in
  ret (set_status status (set_enabled enabled self)).

Definition _fetch : M t unit :=
  try_except
    (git_attr GitFetch git_fetch)
    (fun e => if is_ErrorReturnCode e then Some (ret tt) else None).

Definition _retrieve_branch : M t unit :=
  try_except
    (out <- git_call GitSymbolicRef git_symbolic_ref ;;
     let results := Py.strip out in
     modify (set_branch (Py.replace "refs/heads/" "" results)))
    (fun e => if is_ErrorReturnCode e then Some (modify (set_branch "")) else None).

Definition _retrieve_local_revision : M t unit :=
  try_except
    (out <- git_call GitRevParseHead git_rev_parse_head ;;
     modify (set_local_revision (Some (Py.strip out))))
    (fun e =>
       if is_ErrorReturnCode e then Some (modify (set_local_revision None)) else None).

Definition _retrieve_remote_revision : M t unit :=
  results <-
    try_except
      (out <- git_call GitRevParseUpstream git_rev_parse_upstream ;;
       let results := Py.strip out in
       ret (if String.eqb results "" then None else Some results))
      (fun e => if is_ErrorReturnCode e then Some (ret None) else None) ;;
  modify (set_remote_revision results).

Definition _retrieve_commit_count : M t unit :=
  try_except
    (out <- git_call GitRevList git_rev_list ;;
     let results := Py.strip out in
     modify (set_commit_count
               (Some (Z.of_nat (Py.count "<" results)))
               (Some (Z.of_nat (Py.count ">" results)))) ;;
     _update_status "")
    (fun e =>
       if is_ErrorReturnCode e
       then Some (modify (set_commit_count (Some 0%Z) (Some 0%Z)))
       else None).

Definition refresh : M t unit :=
  _update_status "" ;;
  s <- get ;;
  if negb (_enabled s) then ret tt
  else
    _fetch ;;
    _retrieve_branch ;;
    _retrieve_local_revision ;;
    _retrieve_remote_revision ;;
    _retrieve_commit_count ;;
    zoom _requirements_updater set_requirements_updater
         RequirementsUpdater.refresh ;;
    ret tt.

(** The handler leaves [(git_succeeded, requirements_succeeded)] at
    [(False, False)]: an exception inside the [try] is raised before
    [requirements_succeeded] is assigned. *)
Definition update : M t bool :=
  s <- get ;;
  if negb (_enabled s) then ret false
  else
    flags <-
      try_except
        (git_attr (GitMerge ("origin/" ++ branch s))
                  (fun env tr => git_merge env tr ("origin/" ++ branch s)) ;;
         requirements_succeeded <-
           zoom _requirements_updater set_requirements_updater
                RequirementsUpdater.update ;;
         ret (true, requirements_succeeded))
        (fun e => if is_ErrorReturnCode e then Some (ret (false, false)) else None) ;;
    let '(git_succeeded, requirements_succeeded) := flags in
    if (negb git_succeeded || negb requirements_succeeded)%bool
    then ret false
    else ret true.

Definition reset (revision : revision) : M t unit :=
  try_except
    (git_call (GitReset revision) (fun env tr => git_reset env tr revision))
    (fun e => if is_ErrorReturnCode e then Some (ret tt) else None).

End SourceUpdater.

(** ** [class WebappUpdater] *)

(** The record [update] returns: [{'status': ..., 'restart_required': ...}]. *)
Module Result.
Record t : Type := {
  status : string;
  restart_required : bool
}.
End Result.


Module WebappUpdater.

Record t : Type := {
  name : string;
  _enabled : bool;
  _source_updater : SourceUpdater.t;
  _db_updater : DBUpdater.t
}.

Definition set_source_updater (v : SourceUpdater.t) (s : t) : t :=
  {| name := name s; _enabled := _enabled s;
     _source_updater := v; _db_updater := _db_updater s |}.

Definition set_db_updater (v : DBUpdater.t) (s : t) : t :=
  {| name := name s; _enabled := _enabled s;
     _source_updater := _source_updater s; _db_updater := v |}.

Definition source {A} (m : M SourceUpdater.t A) : M t A :=
  zoom _source_updater set_source_updater m.

Definition db {A} (m : M DBUpdater.t A) : M t A :=
  zoom _db_updater set_db_updater m.

Definition __init__ {S} (name : string) : M S t :=
  src <- SourceUpdater.__init__ "webapp" ;;
  ret {| name := name; _enabled := true;
         _source_updater := src; _db_updater := DBUpdater.__init__ |}.

Definition branch (s : t) : string := SourceUpdater.branch (_source_updater s).
Definition local_revision (s : t) : revision :=
  SourceUpdater.local_revision (_source_updater s).
Definition remote_revision (s : t) : revision :=
  SourceUpdater.remote_revision (_source_updater s).
Definition status (s : t) : string := SourceUpdater.status (_source_updater s).

(** [commit_count] reads [commits_behind] of the source updater, which has
    no attribute of that name (its counts are [_commits_behind] and
    [_commits_ahead]). *)
Definition commit_count : M t (option Z * option Z) := raise AttributeError.

(** A property, like those above: reading it gives a [bool]. *)
Definition needs_update (s : t) : bool :=
  if _enabled s then
    let '(behind, ahead) := SourceUpdater.commit_count (_source_updater s) in
    if SourceUpdater.known_positive behind then true else false
  else false.

Definition refresh : M t unit :=
  s <- get ;;
  if negb (_enabled s) then ret tt
  else
    source SourceUpdater.refresh ;;
    db DBUpdater.refresh ;;
    ret tt.

(** The [try] yields [(git_succeeded, db_succeeded)].  Its handler sets
    [git_succeeded = False]; [db_succeeded] is still [False] then, as
    its assignment is the last statement of the [try]. *)
Definition update : M t Result.t :=
  let ret_ := {| Result.status := "FAIL"; Result.restart_required := false |} in
  s <- get ;;
  if negb (_enabled s) then ret ret_
  else
    let git_revision := SourceUpdater.local_revision (_source_updater s) in
    db_revision <- db DBUpdater.current_revision ;;
    flags <-
      try_except
        (git_succeeded <- source SourceUpdater.update ;;
         if git_succeeded : bool then
           db DBUpdater.refresh ;;
           db_succeeded <- db DBUpdater.update ;;
           ret (git_succeeded, db_succeeded)
         else ret (git_succeeded, false))
        (fun e => if is_ErrorReturnCode e then Some (ret (false, false)) else None) ;;
    let '(git_succeeded, db_succeeded) := flags in
    if (negb git_succeeded || negb db_succeeded)%bool then
      (if negb db_succeeded
       then db (DBUpdater.downgrade db_revision)
       else ret tt) ;;
      (if (negb git_succeeded || negb db_succeeded)%bool
       then source (SourceUpdater.reset git_revision)
       else ret tt) ;;
      ret ret_
    else
      ret {| Result.status := "PASS"; Result.restart_required := true |}.

End WebappUpdater.

(** ** [class Updater] *)

Module Updater.

(** [_components] is a dict from names to components; it is kept in the
    order [iteritems] visits it. *)
Record t : Type := {
  _components : list (string * WebappUpdater.t)
}.

Fixpoint lookup (name : string) (cs : list (string * WebappUpdater.t))
  : option WebappUpdater.t :=
  match cs with
  | [] => None
  | (n, c) :: cs' => if String.eqb n name then Some c else lookup name cs'
  end.

Fixpoint store (name : string) (c : WebappUpdater.t)
         (cs : list (string * WebappUpdater.t)) : list (string * WebappUpdater.t) :=
  match cs with
  | [] => []
  | (n, c0) :: cs' =>
      if String.eqb n name then (n, c) :: cs' else (n, c0) :: store name c cs'
  end.

(** A method of [self._components[name]]; [KeyError] without such a key.
    The component is an object: what the method does to it is seen by the
    dict. *)
Definition component {A} (name : string) (m : M WebappUpdater.t A) : M t A :=
  fun env tr s =>
    match lookup name (_components s) with
    | None => (Raise KeyError, tr, s)
    | Some c =>
        match m env tr c with
        | (o, tr', c') => (o, tr', {| _components := store name c' (_components s) |})
        end
    end.

Definition __init__ {S} : M S t :=
  webapp <- WebappUpdater.__init__ "webapp" ;;
  ret {| _components := [("webapp", webapp)] |}.

(** One entry of the dict [check_updates] returns. *)
Definition component_status (c : WebappUpdater.t)
  : bool * string * revision * revision * string :=
  (WebappUpdater.needs_update c, WebappUpdater.branch c,
   WebappUpdater.local_revision c, WebappUpdater.remote_revision c,
   WebappUpdater.status c).

Definition check_updates
  : M t (list (option string * (bool * string * revision * revision * string))) :=
  s <- get ;;
  for_fold (map fst (_components s)) []
    (fun status name =>
       component name WebappUpdater.refresh ;;
       c <- component name get ;;
       ret (dict_set (Some name) (component_status c) status)).

(** In the loop of the second branch [needs_update] is read, which gives
    a [bool], and the [bool] is called; the result would be stored under
    [component_name], which is [None] there. *)
Definition update (component_name : option string)
  : M t (list (option string * Result.t)) :=
  let ret_ := [] in
  match component_name with
  | Some name =>
      r <- component name WebappUpdater.update ;;
      ret (dict_set component_name r ret_)
  | None =>
      s <- get ;;
      for_fold (map fst (_components s)) ret_
        (fun ret_ name =>
           c <- component name get ;;
           needed <- call_bool (WebappUpdater.needs_update c) ;;
           if needed : bool then
             r <- component name WebappUpdater.update ;;
             ret (dict_set component_name r ret_)
           else ret ret_)
  end.

End Updater.

(** ** [app.py]: the hook that keeps requests inside the setup wizard *)

Module App.

(** What [before_request] reads of the request: [request.blueprint] and
    [request.endpoint], each a string or [None]. *)
Record request : Type := {
  blueprint : option string;
  endpoint : option string
}.

(** The constants of [setup/constants.py], which the hook imports: the stage
    that ends the setup and the two dicts between stages and endpoints.  A
    dict answers [None] for a key it does not have. *)
Record constants : Type := {
  SETUP_COMPLETE : Z;
  SETUP_STAGE_ENDPOINT : Z -> option string;
  SETUP_ENDPOINT_STAGE : option string -> option Z
}.

(** [redirect(url_for(endpoint))] *)
Inductive response : Type :=
| Redirect (endpoint : string).

Definition safe_blueprints : list (option string) := [Some "setup"; Some "sock"; None].

(** [SETUP_STAGE_ENDPOINT[setup_stage]], then the redirect to it. *)
Definition redirect_to_stage (k : constants) (setup_stage : Z)
  : outcome (option response) :=
  match SETUP_STAGE_ENDPOINT k setup_stage with
  | Some stage_page => Ret (Some (Redirect stage_page))
  | None => Raise KeyError
  end.

(** [setup_stage] is what [Setting.get_by_name('setup_stage').value] gives
    when it is read, a stage or [None], or what the query raises.  The hook
    returns a redirect, or [None] after it has stored the decoder in [g]. *)
Definition before_request (k : constants) (setup_stage : outcome (option Z))
           (request : request) : outcome (option response) :=
  if revision_eqb (blueprint request) (Some "setup") then
    match setup_stage with
    | Raise e => Raise e
    | Ret None =>
        if (negb (revision_eqb (endpoint request) (Some "setup.index"))
            && negb (revision_eqb (endpoint request) (Some "setup.type")))%bool
        then Ret (Some (Redirect "setup.index"))
        else Ret None
    | Ret (Some stage) =>
        match SETUP_ENDPOINT_STAGE k (endpoint request) with
        | None => Raise KeyError
        | Some endpoint_stage =>
            if Z.ltb stage endpoint_stage then redirect_to_stage k stage
            else Ret None
        end
    end
  else if negb (existsb (revision_eqb (blueprint request)) safe_blueprints) then
    match setup_stage with
    | Raise e => Raise e
    | Ret None => Ret (Some (Redirect "setup.index"))
    | Ret (Some stage) =>
        if negb (Z.eqb stage (SETUP_COMPLETE k)) then redirect_to_stage k stage
        else Ret None
    end
  else Ret None.

End App.

(** * Vocabulary of the statements *)

(** ** A family of environments to run the code in

    The tools answer the same at every point of the history: [git remote -v]
    and [git rev-list] print [remote] and [rev_list], the requirements file
    reads as [lines], [installed] tells the distribution that satisfies a
    requirement, the database is at [current] and the newest script is [head],
    [walk_revisions] yields [scripts], and [upgrade], [stamp] and
    [downgrade] are what alembic answers. *)
Definition world (remote rev_list : outcome string)
           (lines : outcome (list string))
           (installed : string -> outcome (option string))
           (current head : revision) (scripts : list string)
           (upgrade : string -> outcome unit)
           (stamp downgrade : outcome unit) : Env :=
  {| git_installed := true;
     has_real_prefix := false;
     geteuid := 1000;
     git_remote := fun _ => remote;
     git_fetch := fun _ => Ret tt;
     git_symbolic_ref := fun _ => Ret "refs/heads/master";
     git_rev_parse_head := fun _ => Ret "5f2c1d7";
     git_rev_parse_upstream := fun _ => Ret "9a0b3e4";
     git_rev_list := fun _ => rev_list;
     git_merge := fun _ _ => Ret tt;
     git_reset := fun _ _ => Ret tt;
     db_connect := fun _ => Ret tt;
     db_close := fun _ => Ret tt;
     get_current_revision := fun _ => Ret current;
     get_current_head := fun _ => Ret head;
     walk_revisions := fun _ _ _ => Ret scripts;
     alembic_upgrade := fun _ rev => upgrade rev;
     alembic_downgrade := fun _ _ => downgrade;
     alembic_stamp := fun _ _ => stamp;
     readlines := fun _ _ => lines;
     working_set_find := fun _ req => installed req;
     pip_from_line := fun _ _ => Ret tt;
     pip_prepare_files := fun _ _ => Ret tt;
     rmtree := fun _ _ => Ret tt;
     pip_install := fun _ _ _ => Ret tt;
     working_set_require := fun _ _ => Ret tt |}.

(** The listing of a checkout cloned over https, and of one cloned over ssh. *)
Definition https_listing : string :=
  String.concat ""
    ["origin"; String Py.tab "https://github.com/nutechsoftware/alarmdecoder-webapp.git (fetch)";
     String Py.newline "origin";
     String Py.tab "https://github.com/nutechsoftware/alarmdecoder-webapp.git (push)";
     String Py.newline ""].

(** Two commits behind the upstream and one ahead of it. *)
Definition two_behind_one_ahead : string :=
  String.concat (String Py.newline "") ["<1f0e3da"; "<7c2a9b4"; ">5f2c1d7"; ""].

(** Nothing is installed. *)
Definition nothing_installed (req : string) : outcome (option string) := Ret None.

(** Every requirement is satisfied by a distribution of its name. *)
Definition everything_installed (req : string) : outcome (option string) :=
  Ret (Some req).

(** A healthy checkout and database: one migration [b2] is pending after
    [a1], and every tool does what it is asked. *)
Definition healthy : Env :=
  world (Ret https_listing) (Ret two_behind_one_ahead) (Ret []) nothing_installed
        (Some "a1") (Some "b2") ["b2"; "a1"]
        (fun _ => Ret tt) (Ret tt) (Ret tt).

(** The database is locked after the tables of [b2] were created by hand:
    the upgrade finds them, the stamp fails, and the downgrade is what
    [downgrade] says. *)
Definition locked (downgrade : outcome unit) : Env :=
  world (Ret https_listing) (Ret two_behind_one_ahead) (Ret []) nothing_installed
        (Some "a1") (Some "b2") ["b2"; "a1"]
        (fun _ => Raise (OperationalError "table zones already exists"))
        (Raise (OperationalError "database is locked")) downgrade.

(** The merge is refused. *)
Definition conflicting (downgrade : outcome unit) : Env :=
  {| git_installed := true;
     has_real_prefix := false;
     geteuid := 1000;
     git_remote := git_remote healthy;
     git_fetch := git_fetch healthy;
     git_symbolic_ref := git_symbolic_ref healthy;
     git_rev_parse_head := git_rev_parse_head healthy;
     git_rev_parse_upstream := git_rev_parse_upstream healthy;
     git_rev_list := git_rev_list healthy;
     git_merge := fun _ _ => Raise (ErrorReturnCode 1);
     git_reset := git_reset healthy;
     db_connect := db_connect healthy;
     db_close := db_close healthy;
     get_current_revision := get_current_revision healthy;
     get_current_head := get_current_head healthy;
     walk_revisions := walk_revisions healthy;
     alembic_upgrade := alembic_upgrade healthy;
     alembic_downgrade := fun _ _ => downgrade;
     alembic_stamp := alembic_stamp healthy;
     readlines := readlines healthy;
     working_set_find := working_set_find healthy;
     pip_from_line := pip_from_line healthy;
     pip_prepare_files := pip_prepare_files healthy;
     rmtree := rmtree healthy;
     pip_install := pip_install healthy;
     working_set_require := working_set_require healthy |}.

(** The objects as [refresh] leaves them in [healthy]. *)
Definition requirements0 : RequirementsUpdater.t :=
  {| RequirementsUpdater.path := "requirements.txt";
     RequirementsUpdater.local_options := ["--user"];
     RequirementsUpdater.requirement_list := [];
     RequirementsUpdater.requirements_needed := [] |}.

Definition source0 : SourceUpdater.t :=
  {| SourceUpdater._git := true;
     SourceUpdater.name := "webapp";
     SourceUpdater._branch := "master";
     SourceUpdater._local_revision := Some "5f2c1d7";
     SourceUpdater._remote_revision := Some "9a0b3e4";
     SourceUpdater._commits_ahead := Some 1%Z;
     SourceUpdater._commits_behind := Some 2%Z;
     SourceUpdater._enabled := true;
     SourceUpdater._status := "2 commits behind, 1 commit ahead";
     SourceUpdater._requirements_updater := requirements0 |}.

Definition database0 : DBUpdater.t :=
  {| DBUpdater._current_revision := Some (Some "a1");
     DBUpdater._newest_revision := Some (Some "b2");
     DBUpdater._connection := false |}.

Definition webapp0 : WebappUpdater.t :=
  {| WebappUpdater.name := "webapp";
     WebappUpdater._enabled := true;
     WebappUpdater._source_updater := source0;
     WebappUpdater._db_updater := database0 |}.

Definition updater0 : Updater.t := {| Updater._components := [("webapp", webapp0)] |}.

Definition PASS : Result.t :=
  {| Result.status := "PASS"; Result.restart_required := true |}.

Definition FAIL : Result.t :=
  {| Result.status := "FAIL"; Result.restart_required := false |}.

(** ** What [git remote -v] prints

    One line for each remote and direction: the name, a tab, the URL and
    the direction in brackets. *)
Record remote : Type := {
  remote_name : string;
  remote_url : string;
  remote_kind : string
}.

Definition remote_line (r : remote) : string :=
  remote_name r ++ String Py.tab (remote_url r ++ " (" ++ remote_kind r ++ ")").

Fixpoint remote_listing (rs : list remote) : string :=
  match rs with
  | [] => ""
  | r :: rs' => remote_line r ++ String Py.newline (remote_listing rs')
  end.

(** [c] does not occur in [s]. *)
Fixpoint free_of (c : ascii) (s : string) : bool :=
  match s with
  | EmptyString => true
  | String d r => (negb (Ascii.eqb d c) && free_of c r)%bool
  end.

Fixpoint no_space (s : string) : bool :=
  match s with
  | EmptyString => true
  | String d r => (negb (Py.isspace d) && no_space r)%bool
  end.

(** A name is not empty and has no white space; a URL and a direction
    have neither a tab nor a newline. *)
Definition well_formed (r : remote) : bool :=
  (negb (String.eqb (remote_name r) "") && no_space (remote_name r)
   && free_of Py.tab (remote_url r) && free_of Py.newline (remote_url r)
   && free_of Py.tab (remote_kind r) && free_of Py.newline (remote_kind r))%bool.

(** The remote is [origin] and its URL has an [@]. *)
Definition ssh_origin (r : remote) : bool :=
  (String.eqb (remote_name r) "origin" && Py.contains "@" (remote_url r))%bool.

Definition ssh_remotes : list remote :=
  [{| remote_name := "origin";
      remote_url := "git@github.com:nutechsoftware/alarmdecoder-webapp.git";
      remote_kind := "fetch" |};
   {| remote_name := "origin";
      remote_url := "git@github.com:nutechsoftware/alarmdecoder-webapp.git";
      remote_kind := "push" |}].

(** A checkout cloned over ssh, otherwise as [healthy]. *)
Definition over_ssh : Env :=
  world (Ret (remote_listing ssh_remotes)) (Ret two_behind_one_ahead) (Ret [])
        nothing_installed (Some "a1") (Some "b2") ["b2"; "a1"]
        (fun _ => Ret tt) (Ret tt) (Ret tt).

(** The requirements file is not there. *)
Definition without_requirements_file : Env :=
  world (Ret https_listing) (Ret two_behind_one_ahead) (Raise IOError)
        nothing_installed (Some "a1") (Some "b2") ["b2"; "a1"]
        (fun _ => Ret tt) (Ret tt) (Ret tt).

(** Two requirements, both installed. *)
Definition requirements_lines : list string :=
  [String.concat (String Py.newline EmptyString) ["Flask==0.10.1"; EmptyString];
   String.concat (String Py.newline EmptyString) ["sh"; EmptyString]].

Definition all_installed : Env :=
  world (Ret https_listing) (Ret two_behind_one_ahead) (Ret requirements_lines)
        everything_installed (Some "a1") (Some "b2") ["b2"; "a1"]
        (fun _ => Ret tt) (Ret tt) (Ret tt).

(** Two migrations are pending, and each fails on a table that is missing. *)
Definition broken_migrations : Env :=
  world (Ret https_listing) (Ret two_behind_one_ahead) (Ret []) nothing_installed
        (Some "a1") (Some "c3") ["c3"; "b2"; "a1"]
        (fun _ => Raise (OperationalError "no such table: zones"))
        (Ret tt) (Ret tt).

Definition database_behind : DBUpdater.t :=
  {| DBUpdater._current_revision := Some (Some "a1");
     DBUpdater._newest_revision := Some (Some "c3");
     DBUpdater._connection := false |}.

Definition database_at_head : DBUpdater.t :=
  {| DBUpdater._current_revision := Some (Some "b2");
     DBUpdater._newest_revision := Some (Some "b2");
     DBUpdater._connection := false |}.

(** ** Predicates and pieces of the statements *)

(** An answer of [command.upgrade] that the walk survives: it returns, or
    it fails with an [OperationalError] that does not say "already exists". *)
Definition returns_or_other_failure (o : outcome unit) : Prop :=
  match o with
  | Ret _ => True
  | Raise (OperationalError msg) => Py.contains "already exists" msg = false
  | Raise _ => False
  end.

(** Every requirement of the list is satisfied by an installed
    distribution, whenever it is looked up. *)
Definition all_satisfied (env : Env) (reqs : list string) : Prop :=
  forall h r, In r reqs -> exists dist, working_set_find env h r = Ret (Some dist).

(** The wording of the spec for one clause: the count, "commit" in the
    singular for one and in the plural otherwise, and the side. *)
Definition clause_of_spec (n : Z) (side : string) : string :=
  if Z.eqb n 1 then "1 commit " ++ side
  else Py.str_of_int n ++ " commits " ++ side.

(** The attributes [refresh] assigns in [_retrieve_commit_count] alone, or
    not at all. *)
Definition core (s : SourceUpdater.t) : bool * bool * option Z * option Z :=
  (SourceUpdater._git s, SourceUpdater._enabled s,
   SourceUpdater._commits_behind s, SourceUpdater._commits_ahead s).

(** The [try] of [update]. *)
Definition stages : M WebappUpdater.t (bool * bool) :=
  try_except
    (git_succeeded <- WebappUpdater.source SourceUpdater.update ;;
     if git_succeeded : bool then
       WebappUpdater.db DBUpdater.refresh ;;
       db_succeeded <- WebappUpdater.db DBUpdater.update ;;
       ret (git_succeeded, db_succeeded)
     else ret (git_succeeded, false))
    (fun e => if is_ErrorReturnCode e then Some (ret (false, false)) else None).

(** The compensation and the result, from the flags of the [try]. *)
Definition conclude (git_revision db_revision : revision) (flags : bool * bool)
  : M WebappUpdater.t Result.t :=
  let '(git_succeeded, db_succeeded) := flags in
  if (negb git_succeeded || negb db_succeeded)%bool then
    (if negb db_succeeded
     then WebappUpdater.db (DBUpdater.downgrade db_revision)
     else ret tt) ;;
    (if (negb git_succeeded || negb db_succeeded)%bool
     then WebappUpdater.source (SourceUpdater.reset git_revision)
     else ret tt) ;;
    ret FAIL
  else ret PASS.

(** The sentence on the failure of the database stage, as the spec has it:
    whenever the source update succeeds and the database update fails,
    [update] returns the FAIL record after a downgrade to [db_rev] and a
    reset to the source revision it started from. *)
Definition rolls_back_whenever_database_stage_fails : Prop :=
  forall (env : Env) (tr : trace) (s : WebappUpdater.t) (db_rev : revision)
         tr1 s1 (r : bool) tr2 s2 tr3 s3,
    WebappUpdater._enabled s = true ->
    DBUpdater._current_revision (WebappUpdater._db_updater s) = Some db_rev ->
    run (WebappUpdater.source SourceUpdater.update) env tr s = (Ret true, tr1, s1) ->
    run (WebappUpdater.db DBUpdater.refresh) env tr1 s1 = (Ret r, tr2, s2) ->
    run (WebappUpdater.db DBUpdater.update) env tr2 s2 = (Ret false, tr3, s3) ->
    exists tr' s',
      run WebappUpdater.update env tr s = (Ret FAIL, tr', s') /\
      In (AlembicDowngrade db_rev) tr' /\
      In (GitReset (WebappUpdater.local_revision s)) tr'.

(** The lines of the listing, joined by newlines. *)
Fixpoint joined_lines (rs : list remote) : string :=
  match rs with
  | [] => ""
  | [r] => remote_line r
  | r :: rs' => remote_line r ++ String Py.newline (joined_lines rs')
  end.

(** The status [_check_enabled] gives over an ssh origin, on an object whose
    [_git] is [g]. *)
Definition disabled_status (g : bool) : string :=
  if g then "Disabled (SSH origin)" else "Disabled (Git is unavailable)".

(** The calls that reach the database or its migrations. *)
Definition is_database_command (c : command) : bool :=
  match c with
  | DbConnect | DbClose | GetCurrentRevision | GetCurrentHead
  | WalkRevisions _ _ | AlembicUpgrade _ | AlembicDowngrade _ | AlembicStamp _ => true
  | _ => false
  end.

(** A call that leaves the database alone. *)
Definition quiet (c : command) : Prop := is_database_command c = false.

(** Whatever [m] does, the calls it makes all satisfy [P], and it forgets
    none of the calls made before. *)
Definition emits {S A} (P : command -> Prop) (m : M S A) : Prop :=
  forall env tr s o tr' s',
    run m env tr s = (o, tr', s') -> exists d, tr' = tr ++ d /\ Forall P d.

(** ** Further environments and predicates *)

(** A line of the listing that does not make [_check_remotes] answer
    [False]: it is not of [origin], or it has no [@]. *)
Definition plain_remote (r : remote) : bool :=
  (negb (String.eqb (remote_name r) "origin")
   || (free_of "@"%char (remote_url r) && free_of "@"%char (remote_kind r)))%bool.

Definition https_remotes : list remote :=
  [{| remote_name := "origin";
      remote_url := "https://github.com/nutechsoftware/alarmdecoder-webapp.git";
      remote_kind := "fetch" |};
   {| remote_name := "origin";
      remote_url := "https://github.com/nutechsoftware/alarmdecoder-webapp.git";
      remote_kind := "push" |}].

(** [env] on a machine without git. *)
Definition without_git (env : Env) : Env :=
  {| git_installed := false;
     has_real_prefix := has_real_prefix env;
     geteuid := geteuid env;
     git_remote := git_remote env;
     git_fetch := git_fetch env;
     git_symbolic_ref := git_symbolic_ref env;
     git_rev_parse_head := git_rev_parse_head env;
     git_rev_parse_upstream := git_rev_parse_upstream env;
     git_rev_list := git_rev_list env;
     git_merge := git_merge env;
     git_reset := git_reset env;
     db_connect := db_connect env;
     db_close := db_close env;
     get_current_revision := get_current_revision env;
     get_current_head := get_current_head env;
     walk_revisions := walk_revisions env;
     alembic_upgrade := alembic_upgrade env;
     alembic_downgrade := alembic_downgrade env;
     alembic_stamp := alembic_stamp env;
     readlines := readlines env;
     working_set_find := working_set_find env;
     pip_from_line := pip_from_line env;
     pip_prepare_files := pip_prepare_files env;
     rmtree := rmtree env;
     pip_install := pip_install env;
     working_set_require := working_set_require env |}.

(** A checkout without a remote, a directory that is no checkout, and a
    checkout whose branch has no upstream. *)
Definition no_remotes : Env :=
  world (Ret EmptyString) (Ret two_behind_one_ahead) (Ret []) nothing_installed
        (Some "a1") (Some "b2") ["b2"; "a1"] (fun _ => Ret tt) (Ret tt) (Ret tt).

Definition not_a_repository : Env :=
  world (Raise (ErrorReturnCode 128)) (Raise (ErrorReturnCode 128)) (Ret [])
        nothing_installed (Some "a1") (Some "b2") ["b2"; "a1"]
        (fun _ => Ret tt) (Ret tt) (Ret tt).

Definition no_upstream : Env :=
  world (Ret https_listing) (Raise (ErrorReturnCode 128)) (Ret []) nothing_installed
        (Some "a1") (Some "b2") ["b2"; "a1"] (fun _ => Ret tt) (Ret tt) (Ret tt).

(** The source updater of a webapp that is disabled and was never
    refreshed while enabled. *)
Definition source_disabled : SourceUpdater.t :=
  {| SourceUpdater._git := true;
     SourceUpdater.name := "webapp";
     SourceUpdater._branch := EmptyString;
     SourceUpdater._local_revision := None;
     SourceUpdater._remote_revision := None;
     SourceUpdater._commits_ahead := Some 0%Z;
     SourceUpdater._commits_behind := Some 0%Z;
     SourceUpdater._enabled := false;
     SourceUpdater._status := "Disabled (SSH origin)";
     SourceUpdater._requirements_updater := requirements0 |}.

Definition webapp_disabled_source : WebappUpdater.t :=
  {| WebappUpdater.name := "webapp";
     WebappUpdater._enabled := true;
     WebappUpdater._source_updater := source_disabled;
     WebappUpdater._db_updater := database0 |}.

(** The webapp on a machine without git: its source updater is as the
    constructor leaves it there. *)
Definition source_without_git : SourceUpdater.t :=
  {| SourceUpdater._git := false;
     SourceUpdater.name := "webapp";
     SourceUpdater._branch := EmptyString;
     SourceUpdater._local_revision := None;
     SourceUpdater._remote_revision := None;
     SourceUpdater._commits_ahead := Some 0%Z;
     SourceUpdater._commits_behind := Some 0%Z;
     SourceUpdater._enabled := false;
     SourceUpdater._status := "Disabled (Git is unavailable)";
     SourceUpdater._requirements_updater := requirements0 |}.

Definition webapp_without_git : WebappUpdater.t :=
  {| WebappUpdater.name := "webapp";
     WebappUpdater._enabled := true;
     WebappUpdater._source_updater := source_without_git;
     WebappUpdater._db_updater := database0 |}.

(** The components [cs] are refreshed one after the other, in the order
    [iteritems] visits them, from the calls [tr] on: every [refresh] returns,
    the next one starts from the calls of the one before, and [cs'] are the
    components after the calls [tr']. *)
Inductive refreshed_in_turn (env : Env)
  : trace -> list (string * WebappUpdater.t) ->
    trace -> list (string * WebappUpdater.t) -> Prop :=
| refreshed_none (tr : trace) : refreshed_in_turn env tr [] tr []
| refreshed_next (tr : trace) (n : string) (c : WebappUpdater.t)
                 (tr1 : trace) (c' : WebappUpdater.t)
                 (cs : list (string * WebappUpdater.t)) (tr' : trace)
                 (cs' : list (string * WebappUpdater.t)) :
    run WebappUpdater.refresh env tr c = (Ret tt, tr1, c') ->
    refreshed_in_turn env tr1 cs tr' cs' ->
    refreshed_in_turn env tr ((n, c) :: cs) tr' ((n, c') :: cs').

(** The dict of the statuses of the components [cs], one entry under each
    name. *)
Definition status_dict (cs : list (string * WebappUpdater.t))
  : list (option string * (bool * string * revision * revision * string)) :=
  map (fun nc => (Some (fst nc), Updater.component_status (snd nc))) cs.

(** [git remote -v] was asked before. *)
Definition asked_remotes (h : trace) : bool :=
  existsb (fun c => match c with GitRemote => true | _ => false end) h.

(** The checkout is cloned over https when the updater is built; its origin
    is then set to an ssh URL, so that every later [git remote -v] lists the
    ssh origin.  Otherwise as [healthy]. *)
Definition origin_turns_ssh : Env :=
  {| git_installed := git_installed healthy;
     has_real_prefix := has_real_prefix healthy;
     geteuid := geteuid healthy;
     git_remote :=
       fun h => if asked_remotes h then Ret (remote_listing ssh_remotes)
                else Ret https_listing;
     git_fetch := git_fetch healthy;
     git_symbolic_ref := git_symbolic_ref healthy;
     git_rev_parse_head := git_rev_parse_head healthy;
     git_rev_parse_upstream := git_rev_parse_upstream healthy;
     git_rev_list := git_rev_list healthy;
     git_merge := git_merge healthy;
     git_reset := git_reset healthy;
     db_connect := db_connect healthy;
     db_close := db_close healthy;
     get_current_revision := get_current_revision healthy;
     get_current_head := get_current_head healthy;
     walk_revisions := walk_revisions healthy;
     alembic_upgrade := alembic_upgrade healthy;
     alembic_downgrade := alembic_downgrade healthy;
     alembic_stamp := alembic_stamp healthy;
     readlines := readlines healthy;
     working_set_find := working_set_find healthy;
     pip_from_line := pip_from_line healthy;
     pip_prepare_files := pip_prepare_files healthy;
     rmtree := rmtree healthy;
     pip_install := pip_install healthy;
     working_set_require := working_set_require healthy |}.

(** The source updater as the constructor leaves it over an https origin. *)
Definition built_over_https : SourceUpdater.t :=
  {| SourceUpdater._git := true;
     SourceUpdater.name := "webapp";
     SourceUpdater._branch := EmptyString;
     SourceUpdater._local_revision := None;
     SourceUpdater._remote_revision := None;
     SourceUpdater._commits_ahead := Some 0%Z;
     SourceUpdater._commits_behind := Some 0%Z;
     SourceUpdater._enabled := true;
     SourceUpdater._status := EmptyString;
     SourceUpdater._requirements_updater :=
       RequirementsUpdater.__init__ origin_turns_ssh "requirements.txt" |}.

(** A second component beside the webapp, as the constructor's comments
    foresee. *)
Definition updater2 : Updater.t :=
  {| Updater._components := [("webapp", webapp0); ("ser2sock", webapp0)] |}.

(** [working_set.find] found a distribution. *)
Definition found (o : outcome (option string)) : bool :=
  match o with
  | Ret (Some _) => true
  | _ => false
  end.

(** What [_check_requirement] makes a result of: an answer of
    [working_set.find], a [ValueError] or a [VersionConflict]. *)
Definition lookup_answer (o : outcome (option string)) : Prop :=
  match o with
  | Ret _ | Raise ValueError | Raise VersionConflict => True
  | Raise _ => False
  end.

(** [m] returns in [env], whatever the calls made so far and the object. *)
Definition always_returns {S A} (env : Env) (m : M S A) : Prop :=
  forall tr s, exists a tr' s', run m env tr s = (Ret a, tr', s').

(** Flask is installed, sh is missing and pyftdi is installed in a version
    that conflicts. *)
Definition mixed_lines : list string :=
  [String.concat (String Py.newline EmptyString) ["Flask==0.10.1"; EmptyString];
   String.concat (String Py.newline EmptyString) ["sh"; EmptyString];
   String.concat (String Py.newline EmptyString) ["pyftdi>=0.9"; EmptyString]].

Definition mixed_installed (req : string) : outcome (option string) :=
  if String.eqb req "Flask==0.10.1" then Ret (Some "Flask 0.10.1")
  else if String.eqb req "sh" then Ret None
  else Raise VersionConflict.

Definition mixed : Env :=
  world (Ret https_listing) (Ret two_behind_one_ahead) (Ret mixed_lines)
        mixed_installed (Some "a1") (Some "b2") ["b2"; "a1"]
        (fun _ => Ret tt) (Ret tt) (Ret tt).

(** Two requirements are listed as needed, and by the time of the update
    neither is installed. *)
Definition requirements_missing : RequirementsUpdater.t :=
  {| RequirementsUpdater.path := "requirements.txt";
     RequirementsUpdater.local_options := ["--user"];
     RequirementsUpdater.requirement_list := ["sh"; "pyftdi"];
     RequirementsUpdater.requirements_needed := ["sh"; "pyftdi"] |}.

(** The package index cannot be reached: pip fails to prepare the files. *)
Definition offline : Env :=
  {| git_installed := true;
     has_real_prefix := false;
     geteuid := 1000;
     git_remote := git_remote healthy;
     git_fetch := git_fetch healthy;
     git_symbolic_ref := git_symbolic_ref healthy;
     git_rev_parse_head := git_rev_parse_head healthy;
     git_rev_parse_upstream := git_rev_parse_upstream healthy;
     git_rev_list := git_rev_list healthy;
     git_merge := git_merge healthy;
     git_reset := git_reset healthy;
     db_connect := db_connect healthy;
     db_close := db_close healthy;
     get_current_revision := get_current_revision healthy;
     get_current_head := get_current_head healthy;
     walk_revisions := walk_revisions healthy;
     alembic_upgrade := alembic_upgrade healthy;
     alembic_downgrade := alembic_downgrade healthy;
     alembic_stamp := alembic_stamp healthy;
     readlines := readlines healthy;
     working_set_find := working_set_find healthy;
     pip_from_line := pip_from_line healthy;
     pip_prepare_files := fun _ _ => Raise (OtherException "DistributionNotFound");
     rmtree := rmtree healthy;
     pip_install := pip_install healthy;
     working_set_require := working_set_require healthy |}.

(** A build directory is left over from an earlier run: the first
    [prepare_files] of a requirement fails on it, the second one, after the
    directory is removed, works. *)
Definition stale_build : Env :=
  {| git_installed := true;
     has_real_prefix := false;
     geteuid := 1000;
     git_remote := git_remote healthy;
     git_fetch := git_fetch healthy;
     git_symbolic_ref := git_symbolic_ref healthy;
     git_rev_parse_head := git_rev_parse_head healthy;
     git_rev_parse_upstream := git_rev_parse_upstream healthy;
     git_rev_list := git_rev_list healthy;
     git_merge := git_merge healthy;
     git_reset := git_reset healthy;
     db_connect := db_connect healthy;
     db_close := db_close healthy;
     get_current_revision := get_current_revision healthy;
     get_current_head := get_current_head healthy;
     walk_revisions := walk_revisions healthy;
     alembic_upgrade := alembic_upgrade healthy;
     alembic_downgrade := alembic_downgrade healthy;
     alembic_stamp := alembic_stamp healthy;
     readlines := readlines healthy;
     working_set_find := working_set_find healthy;
     pip_from_line := pip_from_line healthy;
     pip_prepare_files :=
       fun h req => if existsb (fun c => match c with Rmtree _ => true | _ => false end) h
                    then Ret tt else Raise PreviousBuildDirError;
     rmtree := rmtree healthy;
     pip_install := pip_install healthy;
     working_set_require := working_set_require healthy |}.

(** The page of a stage is an endpoint of that stage. *)
Definition pages_agree (k : App.constants) : Prop :=
  forall stage page,
    App.SETUP_STAGE_ENDPOINT k stage = Some page ->
    App.SETUP_ENDPOINT_STAGE k (Some page) = Some stage.

(** A wizard of three pages, and the stage that ends it. *)
Definition wizard : App.constants :=
  {| App.SETUP_COMPLETE := 100;
     App.SETUP_STAGE_ENDPOINT :=
       fun stage =>
         if Z.eqb stage 0 then Some "setup.type"
         else if Z.eqb stage 1 then Some "setup.device"
         else if Z.eqb stage 2 then Some "setup.account"
         else None;
     App.SETUP_ENDPOINT_STAGE :=
       fun endpoint =>
         if revision_eqb endpoint (Some "setup.type") then Some 0%Z
         else if revision_eqb endpoint (Some "setup.device") then Some 1%Z
         else if revision_eqb endpoint (Some "setup.account") then Some 2%Z
         else None |}.

(** The database accepts the connection and then fails every query. *)
Definition database_gone : Env :=
  {| git_installed := git_installed healthy;
     has_real_prefix := has_real_prefix healthy;
     geteuid := geteuid healthy;
     git_remote := git_remote healthy;
     git_fetch := git_fetch healthy;
     git_symbolic_ref := git_symbolic_ref healthy;
     git_rev_parse_head := git_rev_parse_head healthy;
     git_rev_parse_upstream := git_rev_parse_upstream healthy;
     git_rev_list := git_rev_list healthy;
     git_merge := git_merge healthy;
     git_reset := git_reset healthy;
     db_connect := db_connect healthy;
     db_close := db_close healthy;
     get_current_revision := fun _ => Raise (OperationalError "no such table: alembic_version");
     get_current_head := get_current_head healthy;
     walk_revisions := walk_revisions healthy;
     alembic_upgrade := alembic_upgrade healthy;
     alembic_downgrade := alembic_downgrade healthy;
     alembic_stamp := alembic_stamp healthy;
     readlines := readlines healthy;
     working_set_find := working_set_find healthy;
     pip_from_line := pip_from_line healthy;
     pip_prepare_files := pip_prepare_files healthy;
     rmtree := rmtree healthy;
     pip_install := pip_install healthy;
     working_set_require := working_set_require healthy |}.

(** The merge answers [merge]. *)
Definition merging (merge : outcome unit) : Env :=
  {| git_installed := git_installed healthy;
     has_real_prefix := has_real_prefix healthy;
     geteuid := geteuid healthy;
     git_remote := git_remote healthy;
     git_fetch := git_fetch healthy;
     git_symbolic_ref := git_symbolic_ref healthy;
     git_rev_parse_head := git_rev_parse_head healthy;
     git_rev_parse_upstream := git_rev_parse_upstream healthy;
     git_rev_list := git_rev_list healthy;
     git_merge := fun _ _ => merge;
     git_reset := git_reset healthy;
     db_connect := db_connect healthy;
     db_close := db_close healthy;
     get_current_revision := get_current_revision healthy;
     get_current_head := get_current_head healthy;
     walk_revisions := walk_revisions healthy;
     alembic_upgrade := alembic_upgrade healthy;
     alembic_downgrade := alembic_downgrade healthy;
     alembic_stamp := alembic_stamp healthy;
     readlines := readlines healthy;
     working_set_find := working_set_find healthy;
     pip_from_line := pip_from_line healthy;
     pip_prepare_files := pip_prepare_files healthy;
     rmtree := rmtree healthy;
     pip_install := pip_install healthy;
     working_set_require := working_set_require healthy |}.

(** [git symbolic-ref] prints the ref of the branch [name] and a newline. *)
Definition on_branch (name : string) : Env :=
  {| git_installed := git_installed healthy;
     has_real_prefix := has_real_prefix healthy;
     geteuid := geteuid healthy;
     git_remote := git_remote healthy;
     git_fetch := git_fetch healthy;
     git_symbolic_ref := fun _ => Ret ("refs/heads/" ++ name ++ String Py.newline EmptyString)%string;
     git_rev_parse_head := git_rev_parse_head healthy;
     git_rev_parse_upstream := git_rev_parse_upstream healthy;
     git_rev_list := git_rev_list healthy;
     git_merge := git_merge healthy;
     git_reset := git_reset healthy;
     db_connect := db_connect healthy;
     db_close := db_close healthy;
     get_current_revision := get_current_revision healthy;
     get_current_head := get_current_head healthy;
     walk_revisions := walk_revisions healthy;
     alembic_upgrade := alembic_upgrade healthy;
     alembic_downgrade := alembic_downgrade healthy;
     alembic_stamp := alembic_stamp healthy;
     readlines := readlines healthy;
     working_set_find := working_set_find healthy;
     pip_from_line := pip_from_line healthy;
     pip_prepare_files := pip_prepare_files healthy;
     rmtree := rmtree healthy;
     pip_install := pip_install healthy;
     working_set_require := working_set_require healthy |}.

(** Two migrations are pending, the tables of the first exist already, and
    the database is locked. *)
Definition locked_two_pending : Env :=
  world (Ret https_listing) (Ret two_behind_one_ahead) (Ret []) nothing_installed
        (Some "a1") (Some "c3") ["c3"; "b2"; "a1"]
        (fun _ => Raise (OperationalError "table zones already exists"))
        (Raise (OperationalError "database is locked")) (Ret tt).

(** * Properties *)

Unset Implicit Arguments.

(** ** Running a computation step by step *)

Section Steps.

Context {S A B : Type}.
Variables (env : Env) (tr tr' : trace) (s s' : S).

Lemma run_bind_ret (m : M S A) (k : A -> M S B) (a : A) :
  run m env tr s = (Ret a, tr', s') ->
  run (bind m k) env tr s = run (k a) env tr' s'.
Proof. unfold run, bind. intros ->. reflexivity. Qed.

Lemma run_bind_raise (m : M S A) (k : A -> M S B) (e : exn) :
  run m env tr s = (Raise e, tr', s') ->
  run (bind m k) env tr s = (Raise e, tr', s').
Proof. unfold run, bind. intros ->. reflexivity. Qed.

Lemma run_try_ret (m : M S A) (h : exn -> option (M S A)) (a : A) :
  run m env tr s = (Ret a, tr', s') ->
  run (try_except m h) env tr s = (Ret a, tr', s').
Proof. unfold run, try_except. intros ->. reflexivity. Qed.

Lemma run_try_caught (m : M S A) (h : exn -> option (M S A)) (e : exn) (k : M S A) :
  run m env tr s = (Raise e, tr', s') ->
  h e = Some k ->
  run (try_except m h) env tr s = run k env tr' s'.
Proof. unfold run, try_except. intros -> ->. reflexivity. Qed.

Lemma run_try_uncaught (m : M S A) (h : exn -> option (M S A)) (e : exn) :
  run m env tr s = (Raise e, tr', s') ->
  h e = None ->
  run (try_except m h) env tr s = (Raise e, tr', s').
Proof. unfold run, try_except. intros -> ->. reflexivity. Qed.

(** A sequence that returns went through a first part that returned. *)
Lemma bind_ret_inv (m : M S A) (k : A -> M S B) (b : B) :
  run (bind m k) env tr s = (Ret b, tr', s') ->
  exists a tr1 s1,
    run m env tr s = (Ret a, tr1, s1) /\ run (k a) env tr1 s1 = (Ret b, tr', s').
Proof.
  unfold run, bind.
  destruct (m env tr s) as [[[a | e] tr1] s1]; intros H.
  - exists a, tr1, s1. split; [reflexivity | exact H].
  - discriminate H.
Qed.

End Steps.

Arguments run_bind_ret {S A B env tr tr' s s' m k a} _.
Arguments run_bind_raise {S A B env tr tr' s s' m k e} _.
Arguments run_try_ret {S A env tr tr' s s' m h a} _.
Arguments run_try_caught {S A env tr tr' s s' m h e k} _ _.
Arguments run_try_uncaught {S A env tr tr' s s' m h e} _ _.
Arguments bind_ret_inv {S A B env tr tr' s s' m k b} _.

Lemma run_zoom {S T A} (proj : S -> T) (upd : T -> S -> S) (m : M T A)
      env tr s o tr' t' :
  run m env tr (proj s) = (o, tr', t') ->
  run (zoom proj upd m) env tr s = (o, tr', upd t' s).
Proof. unfold run, zoom. intros ->. reflexivity. Qed.

Arguments run_zoom {S T A proj upd m env tr s o tr' t'} _.

Lemma run_getattr {S A} (attr : S -> option A) env tr s a :
  attr s = Some a -> run (getattr attr) env tr s = (Ret a, tr, s).
Proof. unfold run, getattr, bind, get, ret. intros ->. reflexivity. Qed.

Lemma run_call {S A} (c : command) (answer : Env -> trace -> outcome A) env tr (s : S) :
  run (call c answer) env tr s = (answer env tr, tr ++ [c], s).
Proof. reflexivity. Qed.

Lemma revision_eqb_refl (r : option string) : revision_eqb r r = true.
Proof. destruct r as [x |]; simpl; [apply String.eqb_refl | reflexivity]. Qed.

Lemma revision_eqb_eq (a b : option string) : revision_eqb a b = true <-> a = b.
Proof.
  destruct a as [x |], b as [y |]; simpl; split; intros H;
    try discriminate; try reflexivity.
  - apply String.eqb_eq in H. now subst.
  - injection H as ->. apply String.eqb_refl.
Qed.

(** ** [DBUpdater] *)

Section DBUpdaterFacts.

Variable env : Env.

(** C7.  When the current revision is the newest one, [DBUpdater.update]
    returns [True], issues no call at all (in particular no upgrade,
    downgrade or stamp) and leaves the object as it was; doing it twice is
    the same as doing it once. *)
Theorem DBUpdater_update_up_to_date (tr : trace) (s : DBUpdater.t) (r : revision) :
  DBUpdater._current_revision s = Some r ->
  DBUpdater._newest_revision s = Some r ->
  run DBUpdater.update env tr s = (Ret true, tr, s) /\
  run (DBUpdater.update ;; DBUpdater.update) env tr s = (Ret true, tr, s).
Proof.
  intros Hc Hn.
  assert (H1 : run DBUpdater.update env tr s = (Ret true, tr, s)).
  { unfold DBUpdater.update, getattr, run, bind, get, ret.
    rewrite Hc, Hn, revision_eqb_refl. reflexivity. }
  split; [exact H1 |].
  rewrite (run_bind_ret H1). exact H1.
Qed.

(** A migration whose failure says "already exists" is stamped, not run
    again, and the walk goes on when the stamp returns. *)
Lemma apply_revision_stamps (tr : trace) (s : DBUpdater.t) (rev msg : string) :
  alembic_upgrade env tr rev = Raise (OperationalError msg) ->
  Py.contains "already exists" msg = true ->
  alembic_stamp env (tr ++ [AlembicUpgrade rev]) rev = Ret tt ->
  run (DBUpdater.apply_revision rev) env tr s
  = (Ret tt, (tr ++ [AlembicUpgrade rev]) ++ [AlembicStamp rev], s).
Proof.
  intros Hu Hm Hs.
  unfold DBUpdater.apply_revision, DBUpdater._stamp_database,
    run, try_except, call.
  rewrite Hu. simpl. rewrite Hm. rewrite Hs. reflexivity.
Qed.

Lemma apply_revision_swallows (tr : trace) (s : DBUpdater.t) (rev : string) :
  returns_or_other_failure (alembic_upgrade env tr rev) ->
  run (DBUpdater.apply_revision rev) env tr s = (Ret tt, tr ++ [AlembicUpgrade rev], s).
Proof.
  unfold returns_or_other_failure, DBUpdater.apply_revision, run, try_except, call.
  destruct (alembic_upgrade env tr rev) as [[] | e]; [reflexivity |].
  destruct e; try contradiction. simpl. intros ->. reflexivity.
Qed.

Lemma walk_swallows (revs : list string) : forall (tr : trace) (s : DBUpdater.t),
  (forall h rev, returns_or_other_failure (alembic_upgrade env h rev)) ->
  run (for_each revs DBUpdater.apply_revision) env tr s
  = (Ret tt, tr ++ map AlembicUpgrade revs, s).
Proof.
  induction revs as [| rev revs IH]; intros tr s H; simpl.
  - rewrite app_nil_r. reflexivity.
  - rewrite (run_bind_ret (apply_revision_swallows tr s rev (H tr rev))).
    rewrite IH by exact H. rewrite <- app_assoc. reflexivity.
Qed.

(** C3.  The walk does not stop at a migration that fails with an
    [OperationalError] other than "already exists": whatever the upgrades
    answer among returning and failing so, every pending revision is
    attempted, oldest first, and [update] returns [True]. *)
Theorem DBUpdater_update_swallows_other_failures
        (tr : trace) (s : DBUpdater.t) (cur newest : revision) (scripts : list string) :
  DBUpdater._current_revision s = Some cur ->
  DBUpdater._newest_revision s = Some newest ->
  cur <> newest ->
  walk_revisions env tr cur newest = Ret scripts ->
  (forall h rev, returns_or_other_failure (alembic_upgrade env h rev)) ->
  run DBUpdater.update env tr s
  = (Ret true,
     (tr ++ [WalkRevisions cur newest])
       ++ map AlembicUpgrade
            (rev (filter (fun r => negb (revision_eqb (Some r) cur)) scripts)),
     s).
Proof.
  intros Hc Hn Hne Hw Hu.
  assert (Hneq : revision_eqb cur newest = false).
  { destruct (revision_eqb cur newest) eqn:E; [| reflexivity].
    apply revision_eqb_eq in E. contradiction. }
  unfold DBUpdater.update.
  rewrite (run_bind_ret (run_getattr _ env tr s _ Hc)).
  rewrite (run_bind_ret (run_getattr _ env tr s _ Hn)).
  rewrite Hneq. simpl negb. cbv iota.
  apply run_try_ret.
  assert (Hcall : run (call (WalkRevisions cur newest)
                            (fun env tr => walk_revisions env tr cur newest)) env tr s
                  = (Ret scripts, tr ++ [WalkRevisions cur newest], s)).
  { rewrite run_call, Hw. reflexivity. }
  rewrite (run_bind_ret Hcall).
  rewrite (run_bind_ret (walk_swallows _ _ s Hu)).
  reflexivity.
Qed.

(** A failure of another class does stop the walk, but [update] raises it
    instead of returning [False]. *)
Lemma DBUpdater_update_raises_other_exceptions
      (tr : trace) (s : DBUpdater.t) (cur newest : revision) (scripts : list string)
      (first : string) (rest : list string) (e : exn) :
  DBUpdater._current_revision s = Some cur ->
  DBUpdater._newest_revision s = Some newest ->
  cur <> newest ->
  walk_revisions env tr cur newest = Ret scripts ->
  rev (filter (fun r => negb (revision_eqb (Some r) cur)) scripts) = first :: rest ->
  alembic_upgrade env (tr ++ [WalkRevisions cur newest]) first = Raise e ->
  is_OperationalError e = false ->
  run DBUpdater.update env tr s
  = (Raise e, (tr ++ [WalkRevisions cur newest]) ++ [AlembicUpgrade first], s).
Proof.
  intros Hc Hn Hne Hw Hrev Hu He.
  assert (Hneq : revision_eqb cur newest = false).
  { destruct (revision_eqb cur newest) eqn:E; [| reflexivity].
    apply revision_eqb_eq in E. contradiction. }
  unfold DBUpdater.update.
  rewrite (run_bind_ret (run_getattr _ env tr s _ Hc)).
  rewrite (run_bind_ret (run_getattr _ env tr s _ Hn)).
  rewrite Hneq. cbn [negb].
  apply run_try_uncaught; [| rewrite He; reflexivity].
  assert (Hcall : run (call (WalkRevisions cur newest)
                            (fun env tr => walk_revisions env tr cur newest)) env tr s
                  = (Ret scripts, tr ++ [WalkRevisions cur newest], s)).
  { rewrite run_call, Hw. reflexivity. }
  rewrite (run_bind_ret Hcall). cbv zeta. rewrite Hrev.
  apply run_bind_raise. cbn [for_each]. apply run_bind_raise.
  unfold DBUpdater.apply_revision. apply run_try_uncaught; [| rewrite He; reflexivity].
  rewrite run_call, Hu. reflexivity.
Qed.

End DBUpdaterFacts.

(** ** [RequirementsUpdater] *)

Section RequirementsUpdaterFacts.

Import RequirementsUpdater.

Variable env : Env.

(** C9.  When the requirements file cannot be opened, [refresh] does not
    raise: it returns [False], the same value as for a file that needs
    nothing, both lists are emptied and [needs_update()] is [False]. *)
Theorem refresh_missing_file (tr : trace) (s : t) :
  readlines env tr (path s) = Raise IOError ->
  exists s',
    run refresh env tr s = (Ret false, tr ++ [ReadLines (path s)], s') /\
    requirement_list s' = [] /\
    requirements_needed s' = [] /\
    needs_update s' = false.
Proof.
  intros H.
  exists (set_requirements_needed [] (set_requirement_list [] s)).
  split; [| repeat split].
  unfold refresh, _check_requirements, run, bind, try_except, get, call.
  rewrite H. reflexivity.
Qed.

Lemma check_requirement_satisfied (tr : trace) (s : t) (r dist : string) :
  working_set_find env tr r = Ret (Some dist) ->
  run (_check_requirement r) env tr s = (Ret (Some dist), tr ++ [WorkingSetFind r], s).
Proof.
  intros H. unfold _check_requirement. apply run_try_ret.
  rewrite run_call, H. reflexivity.
Qed.

(** The loop of [_check_requirements] appends every satisfied requirement
    to [requirements_needed]. *)
Lemma check_loop_satisfied (reqs : list string) : forall (tr : trace) (s : t),
  all_satisfied env reqs ->
  run (for_each reqs
         (fun r =>
            dist <- _check_requirement r ;;
            match dist with
            | Some _ =>
                modify (fun s => set_requirements_needed (requirements_needed s ++ [r]) s)
            | None => ret tt
            end)) env tr s
  = (Ret tt, tr ++ map WorkingSetFind reqs,
     set_requirements_needed (requirements_needed s ++ reqs) s).
Proof.
  induction reqs as [| r reqs IH]; intros tr s Hall.
  - simpl. rewrite !app_nil_r. destruct s; reflexivity.
  - destruct (Hall tr r (or_introl eq_refl)) as [dist Hd].
    cbn [for_each].
    rewrite (run_bind_ret (m := bind _ _)
               (a := tt) (tr' := tr ++ [WorkingSetFind r])
               (s' := set_requirements_needed (requirements_needed s ++ [r]) s)).
    + rewrite IH.
      * cbn [map]. simpl requirements_needed.
        rewrite <- !app_assoc. reflexivity.
      * intros h r' Hin. apply Hall. right. exact Hin.
    + rewrite (run_bind_ret (check_requirement_satisfied tr s r dist Hd)). reflexivity.
Qed.

Lemma install_requirement_satisfied (tr : trace) (s : t) (r dist : string) :
  working_set_find env tr r = Ret (Some dist) ->
  run (_install_requirement r) env tr s = (Ret (true, None), tr ++ [WorkingSetFind r], s).
Proof.
  intros H. unfold _install_requirement.
  assert (Hm : run (modify (fun s0 : t =>
                              match local_options s0 with
                              | [] => set_local_options [] s0
                              | _ :: _ => s0
                              end)) env tr s = (Ret tt, tr, s)).
  { unfold run, modify. destruct s as [p lo rl rn]. destruct lo; reflexivity. }
  rewrite (run_bind_ret Hm).
  rewrite (run_bind_ret (check_requirement_satisfied tr s r dist H)). reflexivity.
Qed.

(** [update] installs nothing when what it is asked for is satisfied. *)
Lemma update_from_satisfied (needed : list string) : forall (tr : trace) (s : t),
  all_satisfied env needed ->
  run (update_from needed) env tr s = (Ret true, tr ++ map WorkingSetFind needed, s).
Proof.
  induction needed as [| r needed IH]; intros tr s Hall.
  - simpl. rewrite app_nil_r. reflexivity.
  - destruct (Hall tr r (or_introl eq_refl)) as [dist Hd].
    cbn [update_from].
    rewrite (run_bind_ret (install_requirement_satisfied tr s r dist Hd)).
    cbn [fst]. rewrite IH.
    + cbn [map]. rewrite <- app_assoc. reflexivity.
    + intros h r' Hin. apply Hall. right. exact Hin.
Qed.

(** C2.  When every specifier of the file is satisfied, [refresh] puts
    all of them into [requirements_needed], so [needs_update()] is [True]
    for every file with a line in it; [update] then looks each one up
    again, installs nothing and returns [True]. *)
Theorem satisfied_requirements_are_listed_as_needed
        (tr : trace) (s : t) (lines : list string) :
  readlines env tr (path s) = Ret lines ->
  all_satisfied env (map Py.strip lines) ->
  let reqs := map Py.strip lines in
  let tr1 := (tr ++ [ReadLines (path s)]) ++ map WorkingSetFind reqs in
  let s1 := set_requirements_needed reqs (set_requirement_list reqs s) in
  run refresh env tr s = (Ret (Py.bool_of_list lines), tr1, s1) /\
  requirements_needed s1 = reqs /\
  needs_update s1 = Py.bool_of_list lines /\
  run update env tr1 s1 = (Ret true, tr1 ++ map WorkingSetFind reqs, s1).
Proof.
  intros Hread Hall reqs tr1 s1.
  assert (Hb : Py.bool_of_list reqs = Py.bool_of_list lines).
  { unfold reqs. destruct lines; reflexivity. }
  split; [| split; [reflexivity | split; [exact Hb |]]].
  - unfold refresh, _check_requirements.
    rewrite (run_bind_ret (a := false) (tr' := tr1) (s' := s1)).
    + cbv iota. unfold run, bind, get, ret. simpl requirements_needed.
      rewrite Hb. reflexivity.
    + apply run_try_ret.
      unfold run at 1, bind at 1, get at 1.
      unfold bind at 1, call at 1. rewrite Hread.
      unfold bind at 1, modify at 1.
      unfold bind at 1, modify at 1.
      unfold bind at 1, get at 1.
      simpl requirement_list. fold reqs.
      pose proof (check_loop_satisfied reqs (tr ++ [ReadLines (path s)])
                    (set_requirements_needed [] (set_requirement_list reqs s)) Hall)
        as Hloop.
      unfold run in Hloop. unfold bind at 1. rewrite Hloop. reflexivity.
  - unfold update.
    unfold run at 1, bind, get. simpl requirements_needed.
    apply update_from_satisfied. exact Hall.
Qed.

End RequirementsUpdaterFacts.

(** ** [SourceUpdater]: enablement and the status string *)

Section SourceUpdaterStatus.

Import SourceUpdater.

Variable env : Env.

(** The scan of the remote listing reads nothing but its lines. *)
Lemma scan_remotes_frame (lines : list string) :
  forall (tr : trace) (s : t) (env2 : Env) (tr2 : trace) (s2 : t) o,
    run (scan_remotes lines) env tr s = (o, tr2, s2) ->
    tr2 = tr /\ s2 = s /\
    forall tr3 s3, run (scan_remotes lines) env2 tr3 s3 = (o, tr3, s3).
Proof.
  induction lines as [| r lines IH]; intros tr s env2 tr2 s2 o H.
  - cbn in H. injection H as <- <- <-. repeat split.
  - cbn [scan_remotes] in *.
    destruct (Py.split Py.tab r) as [| n [| p [| x l]]].
    + cbn in H. injection H as <- <- <-. repeat split.
    + cbn in H. injection H as <- <- <-. repeat split.
    + destruct (String.eqb n "origin" && Py.contains "@" p)%bool.
      * cbn in H. injection H as <- <- <-. repeat split.
      * apply (IH tr s env2). exact H.
    + cbn in H. injection H as <- <- <-. repeat split.
Qed.

(** [_check_remotes] and [_check_enabled] read [_git] alone and assign
    nothing. *)
Lemma run_check_remotes_without_git (tr : trace) (s : t) :
  _git s = false -> run _check_remotes env tr s = (Ret true, tr, s).
Proof.
  intros Hg. unfold _check_remotes, run, bind, get. rewrite Hg. reflexivity.
Qed.

Lemma run_check_remotes_with_git (tr : trace) (s : t) :
  _git s = true ->
  run _check_remotes env tr s
  = match git_remote env tr with
    | Ret out =>
        match run (scan_remotes (Py.split Py.newline (Py.strip out)))
                  env (tr ++ [GitRemote]) s with
        | (Ret okay, tr', s') => (Ret okay, tr', s')
        | (Raise e, tr', s') =>
            if is_ErrorReturnCode_128 e then (Ret false, tr', s')
            else (Raise e, tr', s')
        end
    | Raise e =>
        if is_ErrorReturnCode_128 e then (Ret false, tr ++ [GitRemote], s)
        else (Raise e, tr ++ [GitRemote], s)
    end.
Proof.
  intros Hg.
  unfold _check_remotes, git_attr, run, bind, get, try_except, call, raise, ret.
  rewrite Hg. cbn [negb]. rewrite Hg.
  destruct (git_remote env tr) as [out | e].
  - destruct (scan_remotes _ env (tr ++ [GitRemote]) s) as [[[okay | e] tr1] s1];
      [reflexivity |].
    destruct (is_ErrorReturnCode_128 e); reflexivity.
  - destruct (is_ErrorReturnCode_128 e); reflexivity.
Qed.

(** [_check_remotes] and [_check_enabled] read [_git] alone and assign
    nothing. *)
Lemma check_remotes_frame (tr : trace) (s : t) o tr' s' :
  run _check_remotes env tr s = (o, tr', s') ->
  s' = s /\
  forall s2, _git s2 = _git s -> run _check_remotes env tr s2 = (o, tr', s2).
Proof.
  destruct (_git s) eqn:Hg.
  - rewrite (run_check_remotes_with_git tr s Hg). intros H.
    assert (forall s2, _git s2 = true ->
              exists o2, run _check_remotes env tr s2 = (o2, tr', s2) /\ o2 = o /\ s' = s)
      as Hall.
    { intros s2 Hg2. rewrite (run_check_remotes_with_git tr s2 Hg2).
      destruct (git_remote env tr) as [out | e].
      - destruct (run (scan_remotes (Py.split Py.newline (Py.strip out)))
                      env (tr ++ [GitRemote]) s) as [[o1 tr1] s1] eqn:Hs.
        destruct (scan_remotes_frame _ _ _ env _ _ _ Hs) as (-> & -> & Hany).
        rewrite (Hany (tr ++ [GitRemote]) s2).
        destruct o1 as [okay | e].
        + injection H as <- <- <-. eexists. repeat split.
        + destruct (is_ErrorReturnCode_128 e);
            injection H as <- <- <-; eexists; repeat split.
      - destruct (is_ErrorReturnCode_128 e);
          injection H as <- <- <-; eexists; repeat split. }
    destruct (Hall s Hg) as (o2 & _ & _ & ->).
    split; [reflexivity |].
    intros s2 Hg2. destruct (Hall s2 Hg2) as (o3 & Hrun & -> & _). exact Hrun.
  - rewrite (run_check_remotes_without_git tr s Hg).
    intros H. injection H as <- <- <-. split; [reflexivity |].
    intros s2 Hg2. apply run_check_remotes_without_git. exact Hg2.
Qed.

Lemma check_enabled_frame (tr : trace) (s : t) o tr' s' :
  run _check_enabled env tr s = (o, tr', s') ->
  s' = s /\
  forall s2, _git s2 = _git s -> run _check_enabled env tr s2 = (o, tr', s2).
Proof.
  unfold _check_enabled. unfold run at 1, bind at 1, get at 1.
  intros H.
  destruct (run _check_remotes env tr s) as [[o1 tr1] s1] eqn:Hr.
  destruct (check_remotes_frame _ _ _ _ _ Hr) as [-> Hany].
  unfold run, bind in Hr, H. rewrite Hr in H.
  assert (Hs : s' = s) by (destruct o1; inversion H; reflexivity).
  subst s'. split; [reflexivity |].
  intros s2 Hg. unfold run, bind, get. specialize (Hany s2 Hg).
  unfold run in Hany. rewrite Hany, Hg.
  destruct o1; cbn in *; inversion H; reflexivity.
Qed.

Lemma commits_clause_spec (n : Z) (side : string) :
  commits_clause n side = clause_of_spec n side.
Proof.
  unfold commits_clause, clause_of_spec.
  destruct (Z.eqb n 1) eqn:E.
  - apply Z.eqb_eq in E. subst n. reflexivity.
  - reflexivity.
Qed.

(** The status [_update_status] leaves when the updater is enabled. *)
Lemma update_status_run (tr : trace) (s : t) (en : bool) (reason : string)
      (tr1 : trace) (s1 : t) :
  run _check_enabled env tr s = (Ret (en, reason), tr1, s1) ->
  run (_update_status "") env tr s
  = (Ret tt, tr1,
     set_status
       (if negb en then reason
        else
          match known_positive (_commits_behind s), known_positive (_commits_ahead s) with
          | false, false => "Up to date!"
          | true, false =>
              commits_clause (match _commits_behind s with Some n => n | None => 0%Z end)
                             "behind"
          | false, true =>
              commits_clause (match _commits_ahead s with Some n => n | None => 0%Z end)
                             "ahead"
          | true, true =>
              commits_clause (match _commits_behind s with Some n => n | None => 0%Z end)
                             "behind"
              ++ ", " ++
              commits_clause (match _commits_ahead s with Some n => n | None => 0%Z end)
                             "ahead"
          end) s).
Proof.
  intros H.
  destruct (check_enabled_frame _ _ _ _ _ H) as [-> Hany].
  specialize (Hany (set_status "" s) eq_refl).
  unfold _update_status.
  unfold run at 1, bind at 1, modify at 1.
  unfold run in Hany. unfold bind at 1. rewrite Hany.
  destruct en; cbn [negb].
  - unfold bind, get, modify. cbn [_commits_behind _commits_ahead set_status].
    unfold known_positive.
    destruct (_commits_behind s) as [b |], (_commits_ahead s) as [a |];
      try destruct (Z.ltb 0 b); try destruct (Z.ltb 0 a); reflexivity.
  - reflexivity.
Qed.

(** C5.  The status string.  When the updater is disabled it is the
    reason [_check_enabled] gives.  When it is enabled: no commit behind
    and none ahead gives "Up to date!"; one behind, none ahead gives
    "1 commit behind"; two behind, one ahead gives
    "2 commits behind, 1 commit ahead"; and for all counts the clauses agree
    in number with their count, are joined by ", " and put the behind
    clause first. *)
Theorem update_status_text (tr : trace) (s : t) (en : bool) (reason : string)
        (tr1 : trace) (s1 : t) :
  run _check_enabled env tr s = (Ret (en, reason), tr1, s1) ->
  exists s',
    run (_update_status "") env tr s = (Ret tt, tr1, s') /\
    (en = false -> status s' = reason) /\
    (en = true ->
     (_commits_behind s = Some 0%Z -> _commits_ahead s = Some 0%Z ->
      status s' = "Up to date!") /\
     (_commits_behind s = Some 1%Z -> _commits_ahead s = Some 0%Z ->
      status s' = "1 commit behind") /\
     (_commits_behind s = Some 2%Z -> _commits_ahead s = Some 1%Z ->
      status s' = "2 commits behind, 1 commit ahead") /\
     (forall b a : Z,
         _commits_behind s = Some b -> _commits_ahead s = Some a ->
         (0 <= b)%Z -> (0 <= a)%Z ->
         status s' =
           if (Z.eqb b 0 && Z.eqb a 0)%bool then "Up to date!"
           else if Z.eqb a 0 then clause_of_spec b "behind"
           else if Z.eqb b 0 then clause_of_spec a "ahead"
           else (clause_of_spec b "behind" ++ ", " ++ clause_of_spec a "ahead")%string)).
Proof.
  intros H. eexists. split; [apply (update_status_run _ _ _ _ _ _ H) |].
  unfold status. cbn [_status set_status].
  split; [intros ->; reflexivity |].
  intros ->. cbn [negb].
  split; [| split; [| split]].
  - intros -> ->. reflexivity.
  - intros -> ->. reflexivity.
  - intros -> ->. reflexivity.
  - intros b a -> -> Hb Ha. unfold known_positive.
    rewrite !commits_clause_spec.
    destruct (Z.eqb_spec b 0) as [-> | Hb0], (Z.eqb_spec a 0) as [-> | Ha0];
      cbn [andb Z.ltb Z.compare].
    + reflexivity.
    + assert (E : Z.ltb 0 a = true) by (apply Z.ltb_lt; lia). rewrite E. reflexivity.
    + assert (E : Z.ltb 0 b = true) by (apply Z.ltb_lt; lia). rewrite E. reflexivity.
    + assert (E : Z.ltb 0 a = true) by (apply Z.ltb_lt; lia).
      assert (E' : Z.ltb 0 b = true) by (apply Z.ltb_lt; lia).
      rewrite E, E'. reflexivity.
Qed.

End SourceUpdaterStatus.

(** ** [SourceUpdater]: refresh and [needs_update] *)

Lemma count_lstrip (c : ascii) (s : string) :
  Py.isspace c = false -> Py.count c (Py.lstrip s) = Py.count c s.
Proof.
  intros Hc. induction s as [| d r IH]; [reflexivity |].
  cbn [Py.lstrip]. destruct (Py.isspace d) eqn:Hd; [| reflexivity].
  rewrite IH. cbn [Py.count].
  destruct (Ascii.eqb_spec d c) as [-> | _]; [congruence | reflexivity].
Qed.

Lemma count_rstrip (c : ascii) (s : string) :
  Py.isspace c = false -> Py.count c (Py.rstrip s) = Py.count c s.
Proof.
  intros Hc. induction s as [| d r IH]; [reflexivity |].
  cbn [Py.rstrip Py.count]. rewrite <- IH.
  destruct (Py.rstrip r) as [| x y].
  - destruct (Py.isspace d) eqn:Hd; [| reflexivity].
    destruct (Ascii.eqb_spec d c) as [-> | _]; [congruence | reflexivity].
  - reflexivity.
Qed.

(** Stripping an output does not change how many [<] or [>] it has. *)
Lemma count_strip (c : ascii) (s : string) :
  Py.isspace c = false -> Py.count c (Py.strip s) = Py.count c s.
Proof.
  intros Hc. unfold Py.strip. rewrite count_rstrip, count_lstrip by exact Hc.
  reflexivity.
Qed.

Section SourceUpdaterRefresh.

Import SourceUpdater.

Variable env : Env.

(** For a goal [run ... = (o, tr', s') -> P s']: destructs what the
    computation branches on, innermost first, until its result is plain,
    and reads the final object off it. *)
Ltac settle :=
  repeat (cbv beta iota;
          match goal with
          | |- context [match ?x with _ => _ end] =>
              lazymatch x with
              | context [match _ with _ => _ end] => fail
              | _ => destruct x eqn:?
              end
          end);
  cbv beta iota;
  let H := fresh "H" in
  intros H; try discriminate H; injection H as <- <- <-; reflexivity.

Lemma update_status_core (status : string) (tr : trace) (s : t) o tr' s' :
  run (_update_status status) env tr s = (o, tr', s') -> core s' = core s.
Proof.
  unfold _update_status. unfold run at 1, bind at 1, modify at 1.
  unfold bind at 1.
  destruct (_check_enabled env tr (set_status status s)) as [[o1 tr1] s1] eqn:Hc.
  destruct (check_enabled_frame env _ _ _ _ _ Hc) as [-> _].
  destruct o1 as [[en reason] | e].
  - destruct en; cbn [negb]; unfold bind, get, modify; settle.
  - intros H. injection H as <- <- <-. reflexivity.
Qed.

Lemma fetch_core (tr : trace) (s : t) o tr' s' :
  run _fetch env tr s = (o, tr', s') -> core s' = core s.
Proof.
  unfold _fetch, git_attr, run, try_except, bind, get, call, raise, ret.
  settle.
Qed.

Lemma retrieve_branch_core (tr : trace) (s : t) o tr' s' :
  run _retrieve_branch env tr s = (o, tr', s') -> core s' = core s.
Proof.
  unfold _retrieve_branch, git_call, run, try_except, bind, get, call, raise,
    ret, modify.
  settle.
Qed.

Lemma retrieve_local_revision_core (tr : trace) (s : t) o tr' s' :
  run _retrieve_local_revision env tr s = (o, tr', s') -> core s' = core s.
Proof.
  unfold _retrieve_local_revision, git_call, run, try_except, bind, get, call,
    raise, ret, modify.
  settle.
Qed.

Lemma retrieve_remote_revision_core (tr : trace) (s : t) o tr' s' :
  run _retrieve_remote_revision env tr s = (o, tr', s') -> core s' = core s.
Proof.
  unfold _retrieve_remote_revision, git_call, run, try_except, bind, get, call,
    raise, ret, modify.
  settle.
Qed.

Lemma requirements_refresh_core (tr : trace) (s : t) (o : outcome bool) tr' s' :
  run (zoom _requirements_updater set_requirements_updater
            RequirementsUpdater.refresh) env tr s = (o, tr', s') ->
  core s' = core s.
Proof.
  unfold run, zoom. settle.
Qed.

(** The scan of the listing raises nothing but the [ValueError] of a line
    that does not unpack. *)
Lemma scan_remotes_raises (lines : list string) (tr : trace) (s : t) e tr' s' :
  run (scan_remotes lines) env tr s = (Raise e, tr', s') -> e = ValueError.
Proof.
  induction lines as [| r lines IH]; cbn [scan_remotes]; intros H.
  - discriminate H.
  - destruct (Py.split Py.tab r) as [| n [| p [| x l]]];
      try (injection H as <- _ _; reflexivity).
    destruct (String.eqb n "origin" && Py.contains "@" p)%bool;
      [discriminate H | exact (IH H)].
Qed.

Variable remotes : string.
Hypothesis git_remote_prints : forall h, git_remote env h = Ret remotes.

Lemma check_enabled_raises (tr : trace) (s : t) e tr' s' :
  run _check_enabled env tr s = (Raise e, tr', s') -> e = ValueError.
Proof.
  unfold _check_enabled. unfold run at 1, bind at 1, get at 1. unfold bind.
  destruct (_git s) eqn:Hg.
  - pose proof (run_check_remotes_with_git env tr s Hg) as Hr.
    rewrite git_remote_prints in Hr. unfold run in Hr. rewrite Hr.
    destruct (scan_remotes (Py.split Py.newline (Py.strip remotes)) env
                (tr ++ [GitRemote]) s) as [[[okay | e1] tr1] s1] eqn:Hs.
    + intros H. discriminate H.
    + apply (scan_remotes_raises _ _ _ _ _ _) in Hs. subst e1. cbn.
      intros H. injection H as <- _ _. reflexivity.
  - pose proof (run_check_remotes_without_git env tr s Hg) as Hr.
    unfold run in Hr. rewrite Hr. intros H. discriminate H.
Qed.

Lemma update_status_raises (status : string) (tr : trace) (s : t) e tr' s' :
  run (_update_status status) env tr s = (Raise e, tr', s') -> e = ValueError.
Proof.
  unfold _update_status. unfold run at 1, bind at 1, modify at 1.
  unfold bind at 1.
  destruct (_check_enabled env tr (set_status status s)) as [[o1 tr1] s1] eqn:Hc.
  destruct o1 as [[en reason] | e1].
  - destruct en; cbn [negb]; unfold bind, get, modify; settle.
  - intros H. injection H as <- _ _. exact (check_enabled_raises _ _ _ _ _ Hc).
Qed.

Lemma run_git_call {A} (c : command) (answer : Env -> trace -> outcome A)
      (tr : trace) (s : t) (o : outcome A) :
  _git s = true -> answer env tr = o ->
  run (git_call c answer) env tr s = (o, tr ++ [c], s).
Proof.
  intros Hg <-. unfold git_call, run, bind, get. rewrite Hg. reflexivity.
Qed.

Variable out : string.
Hypothesis git_rev_list_prints : forall h, git_rev_list env h = Ret out.

(** [_retrieve_commit_count], when it returns, has stored the number of
    [<] and of [>] in the output. *)
Lemma retrieve_commit_count_ret (tr : trace) (s : t) tr' s' :
  run _retrieve_commit_count env tr s = (Ret tt, tr', s') ->
  _git s' = _git s /\ _enabled s' = _enabled s /\
  commit_count s' = (Some (Z.of_nat (Py.count "<" out)),
                     Some (Z.of_nat (Py.count ">" out))).
Proof.
  unfold _retrieve_commit_count. intros H.
  destruct (_git s) eqn:Hg.
  - set (s2 := set_commit_count (Some (Z.of_nat (Py.count "<" (Py.strip out))))
                                (Some (Z.of_nat (Py.count ">" (Py.strip out)))) s)
      in *.
    destruct (run (_update_status "") env (tr ++ [GitRevList]) s2)
      as [[o3 tr3] s3] eqn:Hu.
    assert (Hbody :
              run (out <- git_call GitRevList git_rev_list ;;
                   (let results := Py.strip out in
                    modify (set_commit_count
                              (Some (Z.of_nat (Py.count "<" results)))
                              (Some (Z.of_nat (Py.count ">" results)))) ;;
                    _update_status "")) env tr s = (o3, tr3, s3)).
    { rewrite (run_bind_ret (a := out) (tr' := tr ++ [GitRevList]) (s' := s)).
      - cbv zeta. rewrite (run_bind_ret (a := tt) (tr' := tr ++ [GitRevList]) (s' := s2));
          [exact Hu | reflexivity].
      - apply run_git_call. exact Hg.
        apply git_rev_list_prints. }
    destruct o3 as [[] | e].
    + rewrite (run_try_ret Hbody) in H. injection H as <- <-.
      apply update_status_core in Hu. unfold core in Hu.
      injection Hu as -> -> Hb Ha. unfold commit_count. rewrite Hb, Ha.
      subst s2. cbn. rewrite !count_strip by reflexivity.
      repeat split. exact Hg.
    + pose proof (update_status_raises _ _ _ _ _ _ Hu) as ->.
      rewrite (run_try_uncaught Hbody eq_refl) in H. discriminate H.
  - assert (Hbody :
              run (out <- git_call GitRevList git_rev_list ;;
                   (let results := Py.strip out in
                    modify (set_commit_count
                              (Some (Z.of_nat (Py.count "<" results)))
                              (Some (Z.of_nat (Py.count ">" results)))) ;;
                    _update_status "")) env tr s = (Raise TypeError, tr, s)).
    { apply run_bind_raise. unfold git_call, run, bind, get. rewrite Hg. reflexivity. }
    rewrite (run_try_uncaught Hbody eq_refl) in H. discriminate H.
Qed.

Lemma refresh_ret (tr : trace) (s : t) tr' s' :
  run refresh env tr s = (Ret tt, tr', s') ->
  _enabled s' = _enabled s /\
  (_enabled s = true ->
   commit_count s' = (Some (Z.of_nat (Py.count "<" out)),
                      Some (Z.of_nat (Py.count ">" out)))).
Proof.
  unfold refresh. intros H.
  apply bind_ret_inv in H. destruct H as ([] & tr1 & s1 & H1 & H).
  apply update_status_core in H1. unfold core in H1.
  injection H1 as Hg1 He1 Hb1 Ha1.
  unfold run at 1, bind at 1, get at 1 in H.
  destruct (_enabled s1) eqn:Hen; cbn [negb] in H.
  - change (run (_fetch ;; _retrieve_branch ;; _retrieve_local_revision ;;
                 _retrieve_remote_revision ;; _retrieve_commit_count ;;
                 zoom _requirements_updater set_requirements_updater
                      RequirementsUpdater.refresh ;;
                 ret tt) env tr1 s1 = (Ret tt, tr', s')) in H.
    apply bind_ret_inv in H. destruct H as ([] & tr2 & s2 & H2 & H).
    apply fetch_core in H2. injection H2 as Hg2 He2 Hb2 Ha2.
    apply bind_ret_inv in H. destruct H as ([] & tr3 & s3 & H3 & H).
    apply retrieve_branch_core in H3. injection H3 as Hg3 He3 Hb3 Ha3.
    apply bind_ret_inv in H. destruct H as ([] & tr4 & s4 & H4 & H).
    apply retrieve_local_revision_core in H4. injection H4 as Hg4 He4 Hb4 Ha4.
    apply bind_ret_inv in H. destruct H as ([] & tr5 & s5 & H5 & H).
    apply retrieve_remote_revision_core in H5. injection H5 as Hg5 He5 Hb5 Ha5.
    apply bind_ret_inv in H. destruct H as ([] & tr6 & s6 & H6 & H).
    apply retrieve_commit_count_ret in H6. destruct H6 as (Hg6 & He6 & Hc6).
    apply bind_ret_inv in H. destruct H as (b & tr7 & s7 & H7 & H).
    apply requirements_refresh_core in H7. injection H7 as Hg7 He7 Hb7 Ha7.
    injection H as _ <-.
    split; [congruence |]. intros _. unfold commit_count in *. congruence.
  - injection H as <- <-. split; congruence.
Qed.

End SourceUpdaterRefresh.

(** C4.  After [refresh], however it ends, [needs_update] is true exactly
    when the updater is enabled and its behind-count is known and positive.
    When [refresh] returns, an enabled updater holds as counts the numbers of
    [<] and of [>] that [git rev-list] printed, whatever these numbers are,
    so that [needs_update] is true exactly when the updater is enabled and
    at least one commit behind. *)
Theorem needs_update_after_refresh
        (env : Env) (tr : trace) (s : SourceUpdater.t)
        (o : outcome unit) (tr' : trace) (s' : SourceUpdater.t) :
  run SourceUpdater.refresh env tr s = (o, tr', s') ->
  (SourceUpdater.needs_update s' = true <->
   SourceUpdater._enabled s' = true /\
   exists b, SourceUpdater._commits_behind s' = Some b /\ (0 < b)%Z) /\
  (forall (remotes out : string) (behind ahead : nat),
      (forall h, git_remote env h = Ret remotes) ->
      (forall h, git_rev_list env h = Ret out) ->
      Py.count "<" out = behind ->
      Py.count ">" out = ahead ->
      o = Ret tt ->
      (SourceUpdater._enabled s' = true ->
       SourceUpdater.commit_count s' = (Some (Z.of_nat behind), Some (Z.of_nat ahead))) /\
      (SourceUpdater.needs_update s' = true <->
       SourceUpdater._enabled s' = true /\ 0 < behind)).
Proof.
  intros Hrun.
  assert (Hiff : SourceUpdater.needs_update s' = true <->
                 SourceUpdater._enabled s' = true /\
                 exists b, SourceUpdater._commits_behind s' = Some b /\ (0 < b)%Z).
  { unfold SourceUpdater.needs_update, SourceUpdater.commit_count,
      SourceUpdater.known_positive.
    destruct (SourceUpdater._enabled s').
    - destruct (SourceUpdater._commits_behind s') as [b |].
      + destruct (Z.ltb_spec 0 b) as [Hlt | Hge].
        * split; [intros _; split; [reflexivity | exists b; split; [reflexivity | exact Hlt]]
                 | reflexivity].
        * split; [discriminate |]. intros [_ (b' & Hb' & Hlt)].
          injection Hb' as <-. lia.
      + split; [discriminate |]. intros [_ (b' & Hb' & _)]. discriminate Hb'.
    - split; [discriminate |]. intros [Hf _]. discriminate Hf. }
  split; [exact Hiff |].
  intros remotes out behind ahead Hremote Hlist <- <- ->.
  destruct (refresh_ret env remotes Hremote out Hlist tr s tr' s' Hrun) as [Hen Hcount].
  split.
  - intros He. apply Hcount. congruence.
  - rewrite Hiff. split.
    + intros [He (b & Hb & Hlt)]. split; [exact He |].
      rewrite Hen in He. specialize (Hcount He).
      unfold SourceUpdater.commit_count in Hcount.
      injection Hcount as Hb' _. rewrite Hb in Hb'. injection Hb' as ->. lia.
    + intros [He Hlt]. split; [exact He |].
      rewrite Hen in He. specialize (Hcount He).
      unfold SourceUpdater.commit_count in Hcount.
      injection Hcount as Hb' _. eexists. split; [exact Hb' |]. lia.
Qed.

(** ** The calls a computation makes *)

Section Emits.

Context {S : Type} (P : command -> Prop).

Lemma emits_ret {A} (a : A) : emits P (ret (S := S) a).
Proof.
  intros env tr s o tr' s' H. injection H as <- <- <-.
  exists []. rewrite app_nil_r. split; [reflexivity | constructor].
Qed.

Lemma emits_raise {A} (e : exn) : emits P (raise (S := S) (A := A) e).
Proof.
  intros env tr s o tr' s' H. injection H as <- <- <-.
  exists []. rewrite app_nil_r. split; [reflexivity | constructor].
Qed.

Lemma emits_get : emits P (get (S := S)).
Proof.
  intros env tr s o tr' s' H. injection H as <- <- <-.
  exists []. rewrite app_nil_r. split; [reflexivity | constructor].
Qed.

Lemma emits_modify (f : S -> S) : emits P (modify f).
Proof.
  intros env tr s o tr' s' H. injection H as <- <- <-.
  exists []. rewrite app_nil_r. split; [reflexivity | constructor].
Qed.

Lemma emits_call {A} (c : command) (answer : Env -> trace -> outcome A) :
  P c -> emits P (call (S := S) c answer).
Proof.
  intros Hc env tr s o tr' s' H. injection H as <- <- <-.
  exists [c]. split; [reflexivity | repeat constructor; exact Hc].
Qed.

Lemma emits_bind {A B} (m : M S A) (k : A -> M S B) :
  emits P m -> (forall a, emits P (k a)) -> emits P (bind m k).
Proof.
  intros Hm Hk env tr s o tr' s'. unfold run, bind.
  destruct (m env tr s) as [[[a | e] tr1] s1] eqn:E;
    destruct (Hm env tr s _ _ _ E) as (d1 & -> & H1); intros H.
  - destruct (Hk a env _ _ _ _ _ H) as (d2 & -> & H2).
    exists (d1 ++ d2). rewrite app_assoc. split; [reflexivity |].
    apply Forall_app. split; assumption.
  - injection H as <- <- <-. exists d1. split; [reflexivity | exact H1].
Qed.

Lemma emits_try {A} (m : M S A) (h : exn -> option (M S A)) :
  emits P m -> (forall e k, h e = Some k -> emits P k) -> emits P (try_except m h).
Proof.
  intros Hm Hh env tr s o tr' s'. unfold run, try_except.
  destruct (m env tr s) as [[[a | e] tr1] s1] eqn:E;
    destruct (Hm env tr s _ _ _ E) as (d1 & -> & H1); intros H.
  - injection H as <- <- <-. exists d1. split; [reflexivity | exact H1].
  - destruct (h e) as [k |] eqn:Ek.
    + destruct (Hh e k Ek env _ _ _ _ _ H) as (d2 & -> & H2).
      exists (d1 ++ d2). rewrite app_assoc. split; [reflexivity |].
      apply Forall_app. split; assumption.
    + injection H as <- <- <-. exists d1. split; [reflexivity | exact H1].
Qed.

Lemma emits_zoom {T A} (proj : S -> T) (upd : T -> S -> S) (m : M T A) :
  emits P m -> emits P (zoom proj upd m).
Proof.
  intros Hm env tr s o tr' s'. unfold run, zoom.
  destruct (m env tr (proj s)) as [[o1 tr1] t1] eqn:E.
  destruct (Hm env tr (proj s) _ _ _ E) as (d1 & -> & H1).
  intros H. injection H as <- <- <-. exists d1. split; [reflexivity | exact H1].
Qed.

End Emits.

(** The source stage of the update, with the install of the requirements
    in it, makes no call to the database. *)
Section SourceStageCalls.

Lemma check_requirement_quiet (r : string) :
  emits quiet (RequirementsUpdater._check_requirement r).
Proof.
  apply emits_try.
  - apply emits_call. reflexivity.
  - intros e k. destruct e; intros H; try discriminate H;
      injection H as <-; apply emits_ret.
Qed.

Lemma install_requirement_quiet (r : string) :
  emits quiet (RequirementsUpdater._install_requirement r).
Proof.
  unfold RequirementsUpdater._install_requirement.
  apply emits_bind; [apply emits_modify | intros _].
  apply emits_bind; [apply check_requirement_quiet | intros [dist |]].
  - apply emits_ret.
  - apply emits_bind.
    + apply emits_try.
      * apply emits_bind; [apply emits_call; reflexivity | intros _].
        apply emits_bind.
        -- apply emits_try; [apply emits_call; reflexivity |].
           intros e k. destruct e; intros H; try discriminate H.
           injection H as <-.
           apply emits_bind; [apply emits_call; reflexivity | intros _].
           apply emits_call. reflexivity.
        -- intros _. apply emits_bind; [apply emits_get | intros s].
           apply emits_bind; [apply emits_call; reflexivity | intros _].
           apply emits_ret.
      * intros e k H. injection H as <-. apply emits_ret.
    + intros [err |]; [apply emits_ret |].
      apply emits_bind; [apply emits_call; reflexivity | intros _].
      apply emits_ret.
Qed.

Lemma requirements_update_quiet : emits quiet RequirementsUpdater.update.
Proof.
  unfold RequirementsUpdater.update.
  apply emits_bind; [apply emits_get | intros s].
  induction (RequirementsUpdater.requirements_needed s) as [| r needed IH].
  - apply emits_ret.
  - cbn [RequirementsUpdater.update_from].
    apply emits_bind; [apply install_requirement_quiet | intros [ok msg]].
    destruct ok; [exact IH | apply emits_ret].
Qed.

Lemma source_update_quiet : emits quiet SourceUpdater.update.
Proof.
  unfold SourceUpdater.update.
  apply emits_bind; [apply emits_get | intros s].
  destruct (negb (SourceUpdater._enabled s)); [apply emits_ret |].
  apply emits_bind.
  - apply emits_try.
    + apply emits_bind.
      * unfold SourceUpdater.git_attr.
        apply emits_bind; [apply emits_get | intros s0].
        destruct (SourceUpdater._git s0); [apply emits_call; reflexivity | apply emits_raise].
      * intros _. apply emits_bind.
        -- apply emits_zoom, requirements_update_quiet.
        -- intros ok. apply emits_ret.
    + intros e k. destruct (is_ErrorReturnCode e); intros H; [| discriminate H].
      injection H as <-. apply emits_ret.
  - intros [git_succeeded requirements_succeeded].
    destruct (negb git_succeeded || negb requirements_succeeded)%bool; apply emits_ret.
Qed.

End SourceStageCalls.

(** ** [WebappUpdater] *)

Section WebappUpdaterFacts.

Import WebappUpdater.

Variable env : Env.

Lemma set_db_updater_same (s : t) : set_db_updater (_db_updater s) s = s.
Proof. destruct s; reflexivity. Qed.

Lemma set_source_updater_same (s : t) : set_source_updater (_source_updater s) s = s.
Proof. destruct s; reflexivity. Qed.

Lemma run_current_revision (tr : trace) (s : t) (db_rev : revision) :
  DBUpdater._current_revision (_db_updater s) = Some db_rev ->
  run (db DBUpdater.current_revision) env tr s = (Ret db_rev, tr, s).
Proof.
  intros H. unfold db, DBUpdater.current_revision.
  rewrite (run_zoom (run_getattr _ env tr (_db_updater s) _ H)).
  rewrite set_db_updater_same. reflexivity.
Qed.

(** [downgrade] asks alembic once, for the revision it is given, and
    passes on whatever alembic raises. *)
Lemma run_downgrade (tr : trace) (s : t) (rev : revision) :
  run (db (DBUpdater.downgrade rev)) env tr s
  = (alembic_downgrade env tr rev, tr ++ [AlembicDowngrade rev], s).
Proof.
  unfold db, DBUpdater.downgrade, run, zoom, try_except, call, raise.
  destruct (alembic_downgrade env tr rev) as [[] | e];
    [| destruct (is_OperationalError e)];
    rewrite set_db_updater_same; reflexivity.
Qed.

(** A [reset] that returns has asked git for the revision it is given. *)
Lemma reset_ret (tr : trace) (s : t) (rev : revision) tr' s' :
  run (source (SourceUpdater.reset rev)) env tr s = (Ret tt, tr', s') ->
  tr' = tr ++ [GitReset rev] /\ s' = s.
Proof.
  unfold source, SourceUpdater.reset, SourceUpdater.git_call,
    run, zoom, try_except, bind, get, call, raise, ret.
  rewrite <- (set_source_updater_same s) at 3.
  destruct (SourceUpdater._git (_source_updater s)).
  - destruct (git_reset env tr rev) as [[] | e].
    + intros H. injection H as <- <-. split; reflexivity.
    + destruct (is_ErrorReturnCode e); intros H; [| discriminate H].
      injection H as <- <-. split; reflexivity.
  - cbn. intros H. discriminate H.
Qed.

Lemma update_stages (tr : trace) (s : t) (db_rev : revision) :
  _enabled s = true ->
  DBUpdater._current_revision (_db_updater s) = Some db_rev ->
  run update env tr s
  = run (flags <- stages ;;
         conclude (SourceUpdater.local_revision (_source_updater s)) db_rev flags)
        env tr s.
Proof.
  intros He Hdb. unfold update.
  unfold run at 1, bind at 1, get at 1. rewrite He. cbn [negb].
  pose proof (run_current_revision tr s db_rev Hdb) as Hcur.
  unfold run in Hcur. unfold bind at 1. rewrite Hcur. reflexivity.
Qed.

(** Both stages returned [True], or the second one returned [False]. *)
Lemma stages_source_succeeded (tr : trace) (s : t) tr1 s1 (r : bool) tr2 s2
      (db_succeeded : bool) tr3 s3 :
  run (source SourceUpdater.update) env tr s = (Ret true, tr1, s1) ->
  run (db DBUpdater.refresh) env tr1 s1 = (Ret r, tr2, s2) ->
  run (db DBUpdater.update) env tr2 s2 = (Ret db_succeeded, tr3, s3) ->
  run stages env tr s = (Ret (true, db_succeeded), tr3, s3).
Proof.
  intros Hs Hr Hu. unfold stages. apply run_try_ret.
  rewrite (run_bind_ret Hs). cbv iota.
  rewrite (run_bind_ret Hr). rewrite (run_bind_ret Hu). reflexivity.
Qed.

(** The first stage returned [False] or raised a tool error. *)
Lemma stages_source_failed (tr : trace) (s : t) o tr1 s1 :
  run (source SourceUpdater.update) env tr s = (o, tr1, s1) ->
  o = Ret false \/ (exists c, o = Raise (ErrorReturnCode c)) ->
  run stages env tr s = (Ret (false, false), tr1, s1).
Proof.
  intros Hs [-> | [c ->]]; unfold stages.
  - apply run_try_ret. rewrite (run_bind_ret Hs). reflexivity.
  - rewrite (run_try_caught (k := ret (false, false)) (run_bind_raise Hs) eq_refl).
    reflexivity.
Qed.

End WebappUpdaterFacts.

(** With the database locked the stamp fails, so the database stage fails;
    the downgrade fails too, and [update] raises its error: no record is
    returned and the source is not reset. *)
Lemma update_raises_when_downgrade_fails :
  run WebappUpdater.update
      (locked (Raise (OperationalError "database is locked"))) [] webapp0
  = (Raise (OperationalError "database is locked"),
     [GitMerge "origin/master"; DbConnect; GetCurrentRevision; GetCurrentHead;
      DbClose; WalkRevisions (Some "a1") (Some "b2"); AlembicUpgrade "b2";
      AlembicStamp "b2"; AlembicDowngrade (Some "a1")],
     webapp0) /\
  ~ rolls_back_whenever_database_stage_fails.
Proof.
  split; [vm_compute; reflexivity |].
  intros Hall.
  destruct (Hall (locked (Raise (OperationalError "database is locked"))) []
                  webapp0 (Some "a1")
                  [GitMerge "origin/master"] webapp0 true
                  [GitMerge "origin/master"; DbConnect; GetCurrentRevision;
                   GetCurrentHead; DbClose] webapp0
                  [GitMerge "origin/master"; DbConnect; GetCurrentRevision;
                   GetCurrentHead; DbClose; WalkRevisions (Some "a1") (Some "b2");
                   AlembicUpgrade "b2"; AlembicStamp "b2"] webapp0
                  eq_refl eq_refl eq_refl eq_refl eq_refl)
    as (tr' & s' & Hrun & _).
  vm_compute in Hrun. discriminate Hrun.
Qed.

(** C1.  When the source update and the database update both succeed,
    [update] returns the PASS record with [restart_required] set.  When the
    source update succeeds and the database update fails, [downgrade] is
    called with the database revision [update] started from; when that call
    returns, [reset] is called with the source revision [update] started
    from, and when that returns the FAIL record is returned, with
    [restart_required] unset. *)
Theorem update_passes_or_rolls_back
        (env : Env) (tr : trace) (s : WebappUpdater.t) (db_rev : revision)
        tr1 s1 (r : bool) tr2 s2 (db_succeeded : bool) tr3 s3 :
  WebappUpdater._enabled s = true ->
  DBUpdater._current_revision (WebappUpdater._db_updater s) = Some db_rev ->
  run (WebappUpdater.source SourceUpdater.update) env tr s = (Ret true, tr1, s1) ->
  run (WebappUpdater.db DBUpdater.refresh) env tr1 s1 = (Ret r, tr2, s2) ->
  run (WebappUpdater.db DBUpdater.update) env tr2 s2 = (Ret db_succeeded, tr3, s3) ->
  (db_succeeded = true ->
   run WebappUpdater.update env tr s = (Ret PASS, tr3, s3)) /\
  (db_succeeded = false ->
   (exists o tr' s',
       run WebappUpdater.update env tr s
       = (o, (tr3 ++ [AlembicDowngrade db_rev]) ++ tr', s')) /\
   forall tr4 s4 tr5 s5,
     run (WebappUpdater.db (DBUpdater.downgrade db_rev)) env tr3 s3 = (Ret tt, tr4, s4) ->
     run (WebappUpdater.source
            (SourceUpdater.reset (WebappUpdater.local_revision s))) env tr4 s4
     = (Ret tt, tr5, s5) ->
     run WebappUpdater.update env tr s = (Ret FAIL, tr5, s5) /\
     tr5 = tr3 ++ [AlembicDowngrade db_rev; GitReset (WebappUpdater.local_revision s)]).
Proof.
  intros He Hdb Hs Hr Hu.
  rewrite (update_stages env tr s db_rev He Hdb).
  rewrite (run_bind_ret (stages_source_succeeded env _ _ _ _ _ _ _ _ _ _ Hs Hr Hu)).
  split; intros ->; [reflexivity |].
  unfold conclude. cbn [negb orb].
  pose proof (run_downgrade env tr3 s3 db_rev) as Hdown.
  split.
  - destruct (alembic_downgrade env tr3 db_rev) as [[] | e] eqn:Ha.
    + rewrite (run_bind_ret Hdown).
      destruct (run (WebappUpdater.source
                       (SourceUpdater.reset
                          (SourceUpdater.local_revision
                             (WebappUpdater._source_updater s))))
                    env (tr3 ++ [AlembicDowngrade db_rev]) s3)
        as [[o5 tr5] s5] eqn:Hreset.
      assert (exists d, tr5 = (tr3 ++ [AlembicDowngrade db_rev]) ++ d) as [d ->].
      { revert Hreset.
        unfold WebappUpdater.source, SourceUpdater.reset, SourceUpdater.git_call,
          run, zoom, try_except, bind, get, call, raise, ret.
        destruct (SourceUpdater._git (WebappUpdater._source_updater s3)).
        - destruct (git_reset env _ _) as [[] | e].
          + intros H. injection H as _ <- _. eexists. reflexivity.
          + destruct (is_ErrorReturnCode e); intros H; injection H as _ <- _;
              eexists; reflexivity.
        - intros H. injection H as _ <- _. exists []. rewrite app_nil_r. reflexivity. }
      destruct o5 as [[] | e].
      * rewrite (run_bind_ret Hreset). do 3 eexists. reflexivity.
      * rewrite (run_bind_raise Hreset). do 3 eexists. reflexivity.
    + rewrite (run_bind_raise Hdown). exists (Raise e), [], s3.
      rewrite app_nil_r. reflexivity.
  - intros tr4 s4 tr5 s5 Hdown' Hreset.
    rewrite (run_bind_ret Hdown'). rewrite (run_bind_ret Hreset).
    split; [reflexivity |].
    rewrite Hdown in Hdown'. injection Hdown' as _ <- <-.
    apply reset_ret in Hreset. destruct Hreset as [-> _].
    rewrite <- app_assoc. reflexivity.
Qed.

(** C10.  When the source stage fails, by returning [False] or by a tool
    error, it has made no call to the database, no migration is attempted,
    and the next call [update] makes is the downgrade to the database
    revision it started from; whatever that downgrade raises is raised by
    [update], which then returns no record and resets nothing. *)
Theorem downgrade_after_source_failure
        (env : Env) (tr : trace) (s : WebappUpdater.t) (db_rev : revision)
        (o : outcome bool) tr1 s1 :
  WebappUpdater._enabled s = true ->
  DBUpdater._current_revision (WebappUpdater._db_updater s) = Some db_rev ->
  run (WebappUpdater.source SourceUpdater.update) env tr s = (o, tr1, s1) ->
  o = Ret false \/ (exists c, o = Raise (ErrorReturnCode c)) ->
  (exists d, tr1 = tr ++ d /\ Forall quiet d) /\
  (exists o' tr' s',
      run WebappUpdater.update env tr s
      = (o', (tr1 ++ [AlembicDowngrade db_rev]) ++ tr', s')) /\
  (forall e,
      alembic_downgrade env tr1 db_rev = Raise e ->
      run WebappUpdater.update env tr s
      = (Raise e, tr1 ++ [AlembicDowngrade db_rev], s1)).
Proof.
  intros He Hdb Hs Ho.
  split; [exact (emits_zoom quiet _ _ _ source_update_quiet env tr s o tr1 s1 Hs) |].
  rewrite (update_stages env tr s db_rev He Hdb).
  rewrite (run_bind_ret (stages_source_failed env _ _ _ _ _ Hs Ho)).
  unfold conclude. cbn [negb orb].
  pose proof (run_downgrade env tr1 s1 db_rev) as Hdown.
  split.
  - destruct (alembic_downgrade env tr1 db_rev) as [[] | e] eqn:Ha.
    + rewrite (run_bind_ret Hdown).
      destruct (run (WebappUpdater.source
                       (SourceUpdater.reset
                          (SourceUpdater.local_revision
                             (WebappUpdater._source_updater s))))
                    env (tr1 ++ [AlembicDowngrade db_rev]) s1)
        as [[o5 tr5] s5] eqn:Hreset.
      assert (exists d, tr5 = (tr1 ++ [AlembicDowngrade db_rev]) ++ d) as [d ->].
      { revert Hreset.
        unfold WebappUpdater.source, SourceUpdater.reset, SourceUpdater.git_call,
          run, zoom, try_except, bind, get, call, raise, ret.
        destruct (SourceUpdater._git (WebappUpdater._source_updater s1)).
        - destruct (git_reset env _ _) as [[] | e].
          + intros H. injection H as _ <- _. eexists. reflexivity.
          + destruct (is_ErrorReturnCode e); intros H; injection H as _ <- _;
              eexists; reflexivity.
        - intros H. injection H as _ <- _. exists []. rewrite app_nil_r. reflexivity. }
      destruct o5 as [[] | e].
      * rewrite (run_bind_ret Hreset). do 3 eexists. reflexivity.
      * rewrite (run_bind_raise Hreset). do 3 eexists. reflexivity.
    + rewrite (run_bind_raise Hdown). exists (Raise e), [], s1.
      rewrite app_nil_r. reflexivity.
  - intros e Ha. rewrite Ha in Hdown. rewrite (run_bind_raise Hdown). reflexivity.
Qed.

(** ** The listing of the remotes, stripped and split *)

Lemma append_assoc (a b c : string) : ((a ++ b) ++ c = a ++ (b ++ c))%string.
Proof. induction a as [| x a IH]; cbn; [reflexivity | now rewrite IH]. Qed.

Lemma free_of_append (c : ascii) (a b : string) :
  free_of c (a ++ b) = (free_of c a && free_of c b)%bool.
Proof.
  induction a as [| x a IH]; cbn; [reflexivity |].
  rewrite IH. now rewrite andb_assoc.
Qed.

Lemma no_space_free_of (c : ascii) (s : string) :
  Py.isspace c = true -> no_space s = true -> free_of c s = true.
Proof.
  intros Hc. induction s as [| d r IH]; cbn; [reflexivity |].
  intros H. apply andb_true_iff in H. destruct H as [Hd Hr].
  rewrite (IH Hr), andb_true_r.
  destruct (Ascii.eqb_spec d c) as [-> | _]; [| reflexivity].
  rewrite Hc in Hd. discriminate Hd.
Qed.

Lemma split_free (sep : ascii) (a : string) :
  free_of sep a = true -> Py.split sep a = [a].
Proof.
  induction a as [| x a IH]; cbn; [reflexivity |].
  intros H. apply andb_true_iff in H. destruct H as [Hx Ha].
  destruct (Ascii.eqb x sep); [discriminate Hx |].
  rewrite (IH Ha). reflexivity.
Qed.

Lemma split_append_sep (sep : ascii) (a b : string) :
  free_of sep a = true ->
  Py.split sep (a ++ String sep b) = a :: Py.split sep b.
Proof.
  induction a as [| x a IH]; cbn.
  - intros _. rewrite Ascii.eqb_refl. reflexivity.
  - intros H. apply andb_true_iff in H. destruct H as [Hx Ha].
    destruct (Ascii.eqb x sep); [discriminate Hx |].
    rewrite (IH Ha). reflexivity.
Qed.

Lemma rstrip_append (a b : string) :
  Py.rstrip b <> "" -> Py.rstrip (a ++ b) = (a ++ Py.rstrip b)%string.
Proof.
  intros Hb. induction a as [| x a IH]; cbn; [reflexivity |].
  rewrite IH. destruct (a ++ Py.rstrip b)%string as [| y z] eqn:E; [| reflexivity].
  exfalso. apply Hb. destruct a; cbn in E; [exact E | discriminate E].
Qed.

Lemma prefix_append (sub a b : string) :
  String.prefix sub a = true -> String.prefix sub (a ++ b) = true.
Proof.
  revert a. induction sub as [| x sub IH]; intros a.
  - intros _. destruct (a ++ b)%string; reflexivity.
  - destruct a as [| y a]; cbn; [discriminate |].
    destruct (ascii_dec x y); [apply IH | discriminate].
Qed.

Lemma contains_append (sub a b : string) :
  Py.contains sub a = true -> Py.contains sub (a ++ b) = true.
Proof.
  induction a as [| y a IH].
  - cbn [Py.contains append]. rewrite orb_false_r.
    destruct sub; [| discriminate]. intros _. destruct b; reflexivity.
  - cbn [Py.contains]. intros H. apply orb_true_iff in H.
    change (String y a ++ b)%string with (String y (a ++ b)).
    cbn [Py.contains]. apply orb_true_iff. destruct H as [H | H].
    + left. apply (prefix_append sub (String y a) b H).
    + right. apply IH. exact H.
Qed.

Section Listing.

Lemma well_formed_inv (r : remote) :
  well_formed r = true ->
  remote_name r <> "" /\ no_space (remote_name r) = true /\
  free_of Py.tab (remote_url r) = true /\ free_of Py.newline (remote_url r) = true /\
  free_of Py.tab (remote_kind r) = true /\ free_of Py.newline (remote_kind r) = true.
Proof.
  unfold well_formed. rewrite !andb_true_iff, negb_true_iff, String.eqb_neq. tauto.
Qed.

Lemma remote_line_free_of_newline (r : remote) :
  well_formed r = true -> free_of Py.newline (remote_line r) = true.
Proof.
  intros H. destruct (well_formed_inv r H) as (_ & Hn & _ & Hu & _ & Hk).
  unfold remote_line. rewrite free_of_append. cbn [free_of].
  rewrite !free_of_append, Hu, Hk.
  rewrite (no_space_free_of Py.newline _ eq_refl Hn). reflexivity.
Qed.

Lemma split_remote_line (r : remote) :
  well_formed r = true ->
  Py.split Py.tab (remote_line r)
  = [remote_name r; (remote_url r ++ " (" ++ remote_kind r ++ ")")%string].
Proof.
  intros H. destruct (well_formed_inv r H) as (_ & Hn & Hu & _ & Hk & _).
  unfold remote_line.
  rewrite split_append_sep by exact (no_space_free_of Py.tab _ eq_refl Hn).
  rewrite split_free; [reflexivity |].
  rewrite !free_of_append, Hu, Hk. reflexivity.
Qed.

Lemma remote_line_ends (r : remote) :
  exists body, remote_line r = (body ++ ")")%string.
Proof.
  unfold remote_line.
  exists (remote_name r ++ String Py.tab (remote_url r ++ " (" ++ remote_kind r))%string.
  rewrite !append_assoc. cbn [append]. rewrite !append_assoc. reflexivity.
Qed.

Lemma joined_lines_not_empty (r : remote) (rs : list remote) :
  joined_lines (r :: rs) <> "".
Proof.
  assert (H : remote_line r <> "").
  { unfold remote_line. destruct (remote_name r); discriminate. }
  destruct rs as [| r2 rs]; cbn [joined_lines]; [exact H |].
  destruct (remote_line r); [contradiction | discriminate].
Qed.

Lemma rstrip_listing (rs : list remote) :
  Py.rstrip (remote_listing rs) = joined_lines rs.
Proof.
  induction rs as [| r rs IH]; [reflexivity |].
  destruct rs as [| r2 rs].
  - cbn [remote_listing joined_lines].
    destruct (remote_line_ends r) as [body ->].
    rewrite append_assoc. rewrite rstrip_append; [reflexivity | discriminate].
  - change (remote_listing (r :: r2 :: rs))
      with (remote_line r ++ String Py.newline (remote_listing (r2 :: rs)))%string.
    change (remote_line r ++ String Py.newline (remote_listing (r2 :: rs)))%string
      with (remote_line r ++ (String Py.newline "" ++ remote_listing (r2 :: rs)))%string.
    rewrite <- append_assoc.
    rewrite rstrip_append; rewrite IH; [| apply joined_lines_not_empty].
    rewrite append_assoc. reflexivity.
Qed.

Lemma lstrip_listing (r : remote) (rs : list remote) :
  well_formed r = true ->
  Py.lstrip (remote_listing (r :: rs)) = remote_listing (r :: rs).
Proof.
  intros H. destruct (well_formed_inv r H) as (Hne & Hn & _).
  cbn [remote_listing]. unfold remote_line.
  destruct (remote_name r) as [| c n]; [contradiction |].
  cbn in Hn. apply andb_true_iff in Hn. destruct Hn as [Hc _].
  apply negb_true_iff in Hc. cbn [append Py.lstrip]. rewrite Hc. reflexivity.
Qed.

Lemma split_joined_lines (rs : list remote) :
  forallb well_formed rs = true ->
  rs <> [] ->
  Py.split Py.newline (joined_lines rs) = map remote_line rs.
Proof.
  induction rs as [| r rs IH]; [contradiction |].
  cbn [forallb]. intros H _. apply andb_true_iff in H. destruct H as [Hr Hrs].
  destruct rs as [| r2 rs].
  - cbn [joined_lines map]. apply split_free, remote_line_free_of_newline, Hr.
  - change (joined_lines (r :: r2 :: rs))
      with (remote_line r ++ String Py.newline (joined_lines (r2 :: rs)))%string.
    rewrite split_append_sep by exact (remote_line_free_of_newline r Hr).
    rewrite IH; [reflexivity | exact Hrs | discriminate].
Qed.

(** What [_check_remotes] scans when git prints the listing of [rs]. *)
Lemma split_strip_listing (rs : list remote) :
  forallb well_formed rs = true ->
  rs <> [] ->
  Py.split Py.newline (Py.strip (remote_listing rs)) = map remote_line rs.
Proof.
  intros Hwf Hne. destruct rs as [| r rs]; [contradiction |].
  unfold Py.strip. rewrite lstrip_listing.
  - rewrite rstrip_listing. apply split_joined_lines; assumption.
  - cbn [forallb] in Hwf. apply andb_true_iff in Hwf. tauto.
Qed.

(** The scan stops with [False] at the first [origin] whose line has an
    [@], and there is one. *)
Lemma scan_ssh_origin (env : Env) (rs : list remote) :
  forall (tr : trace) (s : SourceUpdater.t),
    forallb well_formed rs = true ->
    existsb ssh_origin rs = true ->
    run (SourceUpdater.scan_remotes (map remote_line rs)) env tr s = (Ret false, tr, s).
Proof.
  induction rs as [| r rs IH]; intros tr s Hwf Hex; [discriminate Hex |].
  cbn [forallb] in Hwf. apply andb_true_iff in Hwf. destruct Hwf as [Hr Hrs].
  cbn [map SourceUpdater.scan_remotes]. rewrite (split_remote_line r Hr).
  destruct (String.eqb (remote_name r) "origin"
            && Py.contains "@" (remote_url r ++ " (" ++ remote_kind r ++ ")"))%bool
    eqn:Hline; [reflexivity |].
  apply IH; [exact Hrs |].
  cbn [existsb] in Hex. apply orb_true_iff in Hex. destruct Hex as [Hssh | Hex];
    [| exact Hex].
  unfold ssh_origin in Hssh. apply andb_true_iff in Hssh. destruct Hssh as [Hn Hat].
  rewrite Hn, (contains_append _ _ _ Hat) in Hline. discriminate Hline.
Qed.

End Listing.

(** ** [SourceUpdater] over an ssh remote *)

Section SshOrigin.

Import SourceUpdater.

Variables (env : Env) (rs : list remote).
Hypothesis git_remote_lists : forall h, git_remote env h = Ret (remote_listing rs).
Hypothesis remotes_well_formed : forallb well_formed rs = true.
Hypothesis origin_over_ssh : existsb ssh_origin rs = true.

Lemma check_remotes_ssh (tr : trace) (s : t) :
  _git s = true ->
  run _check_remotes env tr s = (Ret false, tr ++ [GitRemote], s).
Proof.
  intros Hg. rewrite (run_check_remotes_with_git env tr s Hg), git_remote_lists.
  rewrite split_strip_listing.
  - rewrite scan_ssh_origin; [reflexivity | assumption | assumption].
  - assumption.
  - intros ->. discriminate origin_over_ssh.
Qed.

Lemma check_enabled_ssh (tr : trace) (s : t) :
  run _check_enabled env tr s
  = (Ret (false, disabled_status (_git s)),
     if _git s then tr ++ [GitRemote] else tr, s).
Proof.
  unfold _check_enabled.
  rewrite (run_bind_ret (m := get) (a := s) (tr' := tr) (s' := s) eq_refl).
  destruct (_git s) eqn:Hg.
  - rewrite (run_bind_ret (check_remotes_ssh tr s Hg)). reflexivity.
  - rewrite (run_bind_ret (run_check_remotes_without_git env tr s Hg)). reflexivity.
Qed.

Lemma init_ssh {S} (name : string) (tr : trace) (s0 : S) :
  exists su,
    run (__init__ name) env tr s0
    = (Ret su, if git_installed env then tr ++ [GitRemote] else tr, s0) /\
    _git su = git_installed env /\
    _enabled su = false /\
    status su = disabled_status (git_installed env).
Proof.
  eexists. split.
  - unfold __init__, run, bind, ask, construct.
    match goal with
    | |- context [_check_enabled env tr ?obj] =>
        pose proof (check_enabled_ssh tr obj) as Hc
    end.
    unfold run in Hc. rewrite Hc. reflexivity.
  - repeat split.
Qed.

Lemma refresh_ssh (tr : trace) (s : t) :
  _enabled s = false ->
  run refresh env tr s
  = (Ret tt, (if _git s then tr ++ [GitRemote] else tr),
     set_status (disabled_status (_git s)) s).
Proof.
  intros He. unfold refresh.
  pose proof (update_status_run env tr s false (disabled_status (_git s)) _ s
                (check_enabled_ssh tr s)) as Hu.
  cbn [negb] in Hu. rewrite (run_bind_ret Hu).
  unfold run, bind, get. cbn [_enabled set_status]. rewrite He. reflexivity.
Qed.

End SshOrigin.

(** ** [SourceUpdater]: an origin that is set to ssh after the constructor *)

Section OriginTurnsSsh.

Import SourceUpdater.

Variable env : Env.

(** Destructs what the computation of a goal [run ... = (o, tr', s') -> P]
    branches on, innermost first, and closes each case by reading the result
    off the equation. *)
Ltac read_off :=
  repeat (cbv beta iota;
          match goal with
          | |- context [match ?x with _ => _ end] =>
              lazymatch x with
              | context [match _ with _ => _ end] => fail
              | _ => destruct x eqn:?
              end
          end);
  cbv beta iota;
  let H := fresh "H" in
  intros H; try discriminate H; injection H as <- <- <-; reflexivity.

Lemma fetch_status (tr : trace) (s : t) o tr' s' :
  run _fetch env tr s = (o, tr', s') -> _status s' = _status s.
Proof.
  unfold _fetch, git_attr, run, try_except, bind, get, call, raise, ret. read_off.
Qed.

Lemma retrieve_branch_status (tr : trace) (s : t) o tr' s' :
  run _retrieve_branch env tr s = (o, tr', s') -> _status s' = _status s.
Proof.
  unfold _retrieve_branch, git_call, run, try_except, bind, get, call, raise,
    ret, modify. read_off.
Qed.

Lemma retrieve_local_revision_status (tr : trace) (s : t) o tr' s' :
  run _retrieve_local_revision env tr s = (o, tr', s') -> _status s' = _status s.
Proof.
  unfold _retrieve_local_revision, git_call, run, try_except, bind, get, call,
    raise, ret, modify. read_off.
Qed.

Lemma retrieve_remote_revision_status (tr : trace) (s : t) o tr' s' :
  run _retrieve_remote_revision env tr s = (o, tr', s') -> _status s' = _status s.
Proof.
  unfold _retrieve_remote_revision, git_call, run, try_except, bind, get, call,
    raise, ret, modify. read_off.
Qed.

Lemma requirements_refresh_status (tr : trace) (s : t) (o : outcome bool) tr' s' :
  run (zoom _requirements_updater set_requirements_updater
            RequirementsUpdater.refresh) env tr s = (o, tr', s') ->
  _status s' = _status s.
Proof. unfold run, zoom. read_off. Qed.

(** With git, each step of [refresh] asks git once. *)
Ltac one_call Hg :=
  rewrite Hg;
  repeat (cbv beta iota;
          match goal with
          | |- context [match ?x with _ => _ end] =>
              lazymatch x with
              | context [match _ with _ => _ end] => fail
              | _ => destruct x eqn:?
              end
          end);
  cbv beta iota;
  let H := fresh "H" in
  intros H; try discriminate H; injection H as _ <- _; reflexivity.

Lemma fetch_trace (tr : trace) (s : t) o tr' s' :
  _git s = true ->
  run _fetch env tr s = (o, tr', s') -> tr' = tr ++ [GitFetch].
Proof.
  intros Hg. unfold _fetch, git_attr, run, try_except, bind, get, call, raise, ret.
  one_call Hg.
Qed.

Lemma retrieve_branch_trace (tr : trace) (s : t) o tr' s' :
  _git s = true ->
  run _retrieve_branch env tr s = (o, tr', s') -> tr' = tr ++ [GitSymbolicRef].
Proof.
  intros Hg. unfold _retrieve_branch, git_call, run, try_except, bind, get, call,
    raise, ret, modify.
  one_call Hg.
Qed.

Lemma retrieve_local_revision_trace (tr : trace) (s : t) o tr' s' :
  _git s = true ->
  run _retrieve_local_revision env tr s = (o, tr', s') ->
  tr' = tr ++ [GitRevParseHead].
Proof.
  intros Hg. unfold _retrieve_local_revision, git_call, run, try_except, bind, get,
    call, raise, ret, modify.
  one_call Hg.
Qed.

Lemma retrieve_remote_revision_trace (tr : trace) (s : t) o tr' s' :
  _git s = true ->
  run _retrieve_remote_revision env tr s = (o, tr', s') ->
  tr' = tr ++ [GitRevParseUpstream].
Proof.
  intros Hg. unfold _retrieve_remote_revision, git_call, run, try_except, bind, get,
    call, raise, ret, modify.
  one_call Hg.
Qed.

Lemma requirements_refresh_quiet : emits quiet RequirementsUpdater.refresh.
Proof.
  unfold RequirementsUpdater.refresh, RequirementsUpdater._check_requirements.
  apply emits_bind.
  - apply emits_try.
    + apply emits_bind; [apply emits_get | intros r0].
      apply emits_bind; [apply emits_call; reflexivity | intros lines].
      apply emits_bind; [apply emits_modify | intros _].
      apply emits_bind; [apply emits_modify | intros _].
      apply emits_bind; [apply emits_get | intros r1].
      apply emits_bind; [| intros _; apply emits_ret].
      induction (RequirementsUpdater.requirement_list r1) as [| r l IH];
        cbn [for_each].
      * apply emits_ret.
      * apply emits_bind; [| intros _; exact IH].
        apply emits_bind; [apply check_requirement_quiet | intros [dist |]];
          [apply emits_modify | apply emits_ret].
    + intros e k. destruct e; intros H; try discriminate H. injection H as <-.
      apply emits_bind; [apply emits_modify | intros _].
      apply emits_bind; [apply emits_modify | intros _].
      apply emits_ret.
  - intros [|]; [apply emits_ret |].
    apply emits_bind; [apply emits_get | intros r1; apply emits_ret].
Qed.

Lemma requirements_refresh_trace (tr : trace) (s : t) (o : outcome bool) tr' s' :
  run (zoom _requirements_updater set_requirements_updater
            RequirementsUpdater.refresh) env tr s = (o, tr', s') ->
  exists d, tr' = tr ++ d.
Proof.
  unfold run, zoom.
  destruct (RequirementsUpdater.refresh env tr (_requirements_updater s))
    as [[o1 tr1] r1] eqn:Hr.
  intros H. injection H as _ <- _.
  destruct (requirements_refresh_quiet _ _ _ _ _ _ Hr) as (d & -> & _).
  exists d. reflexivity.
Qed.

Variable rs : list remote.
Hypothesis remotes_well_formed : forallb well_formed rs = true.
Hypothesis origin_over_ssh : existsb ssh_origin rs = true.

(** Where git lists an ssh origin, [_check_enabled] answers that the
    updater is disabled, whatever the flag of the updater says. *)
Lemma check_enabled_over_ssh (tr : trace) (s : t) :
  _git s = true ->
  git_remote env tr = Ret (remote_listing rs) ->
  run _check_enabled env tr s
  = (Ret (false, "Disabled (SSH origin)"), tr ++ [GitRemote], s).
Proof.
  intros Hg Hlist.
  assert (Hr : run _check_remotes env tr s = (Ret false, tr ++ [GitRemote], s)).
  { rewrite (run_check_remotes_with_git env tr s Hg), Hlist.
    rewrite split_strip_listing.
    - rewrite scan_ssh_origin; [reflexivity | assumption | assumption].
    - assumption.
    - intros ->. discriminate origin_over_ssh. }
  unfold _check_enabled.
  rewrite (run_bind_ret (m := get) (a := s) (tr' := tr) (s' := s) eq_refl).
  rewrite (run_bind_ret Hr). cbv zeta. rewrite Hg. reflexivity.
Qed.

Lemma update_status_over_ssh (tr : trace) (s : t) :
  _git s = true ->
  git_remote env tr = Ret (remote_listing rs) ->
  run (_update_status "") env tr s
  = (Ret tt, tr ++ [GitRemote], set_status "Disabled (SSH origin)" s).
Proof.
  intros Hg Hlist.
  rewrite (update_status_run env tr s false "Disabled (SSH origin)" _ s
             (check_enabled_over_ssh tr s Hg Hlist)).
  reflexivity.
Qed.

Lemma retrieve_commit_count_over_ssh (out : string) (tr : trace) (s : t) :
  _git s = true ->
  git_rev_list env tr = Ret out ->
  git_remote env (tr ++ [GitRevList]) = Ret (remote_listing rs) ->
  run _retrieve_commit_count env tr s
  = (Ret tt, tr ++ [GitRevList; GitRemote],
     set_status "Disabled (SSH origin)"
       (set_commit_count (Some (Z.of_nat (Py.count "<" out)))
                         (Some (Z.of_nat (Py.count ">" out))) s)).
Proof.
  intros Hg Hout Hlist. unfold _retrieve_commit_count.
  apply run_try_ret.
  rewrite (run_bind_ret (run_git_call env GitRevList git_rev_list tr s (Ret out) Hg Hout)).
  cbv zeta.
  match goal with
  | |- run (modify ?f ;; ?k) env ?t s = _ =>
      rewrite (run_bind_ret (m := modify f) (a := tt) (tr' := t) (s' := f s) eq_refl)
  end.
  rewrite !count_strip by reflexivity.
  rewrite update_status_over_ssh; [| exact Hg | exact Hlist].
  rewrite <- app_assoc. reflexivity.
Qed.

(** C6.  An updater that is enabled, as the constructor leaves it over an
    https origin, and is refreshed while git lists an [origin] whose URL
    contains [@]: the [refresh] that returns has written the status
    "Disabled (SSH origin)", and has fetched all the same, right after the
    listing; the updater holds the counts git printed, and [needs_update] is
    true as soon as it is behind.  The flag that [refresh] and
    [needs_update] read is the one of the constructor. *)
Theorem ssh_origin_after_construction
        (out : string) (tr : trace) (s : t) (tr' : trace) (s' : t) :
  (forall h, git_remote env (tr ++ h) = Ret (remote_listing rs)) ->
  (forall h, git_rev_list env h = Ret out) ->
  _git s = true ->
  _enabled s = true ->
  run refresh env tr s = (Ret tt, tr', s') ->
  status s' = "Disabled (SSH origin)" /\
  (exists d, tr' = tr ++ [GitRemote; GitFetch] ++ d) /\
  commit_count s' = (Some (Z.of_nat (Py.count "<" out)),
                     Some (Z.of_nat (Py.count ">" out))) /\
  (needs_update s' = true <-> 0 < Py.count "<" out).
Proof.
  intros Hlist Hout Hg He H. unfold refresh in H.
  pose proof (Hlist []) as Hl0. rewrite app_nil_r in Hl0.
  rewrite (run_bind_ret (update_status_over_ssh tr s Hg Hl0)) in H.
  unfold run at 1, bind at 1, get at 1 in H.
  cbn [_enabled set_status] in H. rewrite He in H. cbn [negb] in H.
  change (run (_fetch ;; _retrieve_branch ;; _retrieve_local_revision ;;
               _retrieve_remote_revision ;; _retrieve_commit_count ;;
               zoom _requirements_updater set_requirements_updater
                    RequirementsUpdater.refresh ;;
               ret tt) env (tr ++ [GitRemote])
              (set_status "Disabled (SSH origin)" s) = (Ret tt, tr', s')) in H.
  apply bind_ret_inv in H. destruct H as ([] & tr2 & s2 & H2 & H).
  pose proof (fetch_core env _ _ _ _ _ H2) as Hc2.
  injection Hc2 as Hg2 He2 _ _. cbn [_git _enabled set_status] in Hg2, He2.
  apply fetch_trace in H2; [| exact Hg]. subst tr2.
  apply bind_ret_inv in H. destruct H as ([] & tr3 & s3 & H3 & H).
  pose proof (retrieve_branch_core env _ _ _ _ _ H3) as Hc3.
  injection Hc3 as Hg3 He3 _ _.
  apply retrieve_branch_trace in H3; [| congruence]. subst tr3.
  apply bind_ret_inv in H. destruct H as ([] & tr4 & s4 & H4 & H).
  pose proof (retrieve_local_revision_core env _ _ _ _ _ H4) as Hc4.
  injection Hc4 as Hg4 He4 _ _.
  apply retrieve_local_revision_trace in H4; [| congruence]. subst tr4.
  apply bind_ret_inv in H. destruct H as ([] & tr5 & s5 & H5 & H).
  pose proof (retrieve_remote_revision_core env _ _ _ _ _ H5) as Hc5.
  injection Hc5 as Hg5 He5 _ _.
  apply retrieve_remote_revision_trace in H5; [| congruence]. subst tr5.
  assert (Hg5' : _git s5 = true) by congruence.
  match type of H with
  | run _ env ?t s5 = _ =>
      assert (Hl5 : git_remote env (t ++ [GitRevList]) = Ret (remote_listing rs))
        by (rewrite <- !app_assoc; apply Hlist);
      rewrite (run_bind_ret
                 (retrieve_commit_count_over_ssh out t s5 Hg5' (Hout t) Hl5)) in H
  end.
  apply bind_ret_inv in H. destruct H as (b & tr7 & s7 & H7 & H).
  pose proof (requirements_refresh_core env _ _ _ _ _ H7) as Hc7.
  pose proof (requirements_refresh_status _ _ _ _ _ H7) as Hs7.
  apply requirements_refresh_trace in H7. destruct H7 as [d ->].
  injection H as <- <-. injection Hc7 as _ He7 Hb7 Ha7.
  cbn [_status _enabled _commits_behind _commits_ahead set_status set_commit_count]
    in Hs7, He7, Hb7, Ha7.
  split; [exact Hs7 |].
  split.
  { rewrite <- !app_assoc. cbn [app]. eexists. reflexivity. }
  split; [unfold commit_count; rewrite Hb7, Ha7; reflexivity |].
  unfold needs_update, commit_count, known_positive.
  assert (Hen : _enabled s7 = true) by congruence.
  rewrite Hen, Hb7.
  destruct (Z.ltb_spec 0 (Z.of_nat (Py.count "<" out))) as [Hlt | Hge].
  - split; [intros _; lia | reflexivity].
  - split; [discriminate | intros Hpos; lia].
Qed.

End OriginTurnsSsh.

(** ** [Updater] *)

Section UpdaterFacts.

Import Updater.

Variable env : Env.

Lemma lookup_head (name : string) (c : WebappUpdater.t)
      (cs : list (string * WebappUpdater.t)) :
  lookup name ((name, c) :: cs) = Some c /\ store name c ((name, c) :: cs) = (name, c) :: cs.
Proof. cbn. rewrite String.eqb_refl. split; reflexivity. Qed.

(** With a name, [update] updates the component of that name and no
    other, and returns its result under that name. *)
Lemma update_named (tr : trace) (s : t) (name : string) (c : WebappUpdater.t)
      (r : Result.t) tr' c' :
  lookup name (_components s) = Some c ->
  run WebappUpdater.update env tr c = (Ret r, tr', c') ->
  run (update (Some name)) env tr s
  = (Ret [(Some name, r)], tr', {| _components := store name c' (_components s) |}).
Proof.
  intros Hl Hu. unfold update.
  rewrite (run_bind_ret (a := r) (tr' := tr')
             (s' := {| _components := store name c' (_components s) |})).
  - reflexivity.
  - unfold component, run. rewrite Hl. unfold run in Hu. rewrite Hu. reflexivity.
Qed.

End UpdaterFacts.

(** C8.  Without a name, [update] updates no component: on the first
    component it reads the property [needs_update], calls the [bool] it gets
    and raises [TypeError]; nothing has been called and no mapping is
    returned.  This is so whether or not the component needs an update. *)
Theorem update_all_raises_TypeError (env : Env) (tr : trace) (s : Updater.t) :
  Updater._components s <> [] ->
  run (Updater.update None) env tr s = (Raise TypeError, tr, s).
Proof.
  destruct s as [cs]. cbn [Updater._components]. intros Hne.
  destruct cs as [| [name c] cs]; [contradiction |].
  unfold Updater.update.
  rewrite (run_bind_ret (m := get) (tr' := tr) eq_refl).
  cbn [Updater._components map fst for_fold].
  apply run_bind_raise.
  rewrite (run_bind_ret (a := c) (tr' := tr)
             (s' := {| Updater._components := (name, c) :: cs |})).
  - reflexivity.
  - destruct (lookup_head name c cs) as [Hlookup Hstore].
    unfold Updater.component, run, get. cbn [Updater._components].
    rewrite Hlookup, Hstore. reflexivity.
Qed.

(** * The statements at work *)

(** The database is at its head: nothing is asked of alembic. *)
Lemma DBUpdater_update_up_to_date_witness :
  run DBUpdater.update healthy [] database_at_head = (Ret true, [], database_at_head) /\
  run (DBUpdater.update ;; DBUpdater.update) healthy [] database_at_head
  = (Ret true, [], database_at_head).
Proof.
  exact (DBUpdater_update_up_to_date healthy [] database_at_head (Some "b2")
           eq_refl eq_refl).
Defined.

(** Both pending migrations fail on a missing table, and [update] returns
    [True] after trying both. *)
Lemma DBUpdater_update_swallows_other_failures_witness :
  run DBUpdater.update broken_migrations [] database_behind
  = (Ret true,
     [WalkRevisions (Some "a1") (Some "c3"); AlembicUpgrade "b2"; AlembicUpgrade "c3"],
     database_behind).
Proof.
  apply (DBUpdater_update_swallows_other_failures broken_migrations []
           database_behind (Some "a1") (Some "c3") ["c3"; "b2"; "a1"]).
  - reflexivity.
  - reflexivity.
  - discriminate.
  - reflexivity.
  - intros h rev. reflexivity.
Defined.

Lemma refresh_missing_file_witness :
  exists s',
    run RequirementsUpdater.refresh without_requirements_file [] requirements0
    = (Ret false, [ReadLines "requirements.txt"], s') /\
    RequirementsUpdater.requirement_list s' = [] /\
    RequirementsUpdater.requirements_needed s' = [] /\
    RequirementsUpdater.needs_update s' = false.
Proof.
  exact (refresh_missing_file without_requirements_file [] requirements0 eq_refl).
Defined.

(** Flask and sh are installed; both are listed as needed, [needs_update()]
    is [True], and [update] installs neither. *)
Lemma satisfied_requirements_are_listed_as_needed_witness :
  let s1 := RequirementsUpdater.set_requirements_needed ["Flask==0.10.1"; "sh"]
              (RequirementsUpdater.set_requirement_list ["Flask==0.10.1"; "sh"]
                 requirements0) in
  let tr1 := [ReadLines "requirements.txt"; WorkingSetFind "Flask==0.10.1";
              WorkingSetFind "sh"] in
  run RequirementsUpdater.refresh all_installed [] requirements0 = (Ret true, tr1, s1) /\
  RequirementsUpdater.requirements_needed s1 = ["Flask==0.10.1"; "sh"] /\
  RequirementsUpdater.needs_update s1 = true /\
  run RequirementsUpdater.update all_installed tr1 s1
  = (Ret true, tr1 ++ [WorkingSetFind "Flask==0.10.1"; WorkingSetFind "sh"], s1).
Proof.
  apply (satisfied_requirements_are_listed_as_needed all_installed []
           requirements0 requirements_lines).
  - reflexivity.
  - intros h r _. exists r. reflexivity.
Defined.

Lemma update_status_text_witness :
  exists s',
    run (SourceUpdater._update_status EmptyString) healthy [] source0
    = (Ret tt, [GitRemote], s') /\
    SourceUpdater.status s' = "2 commits behind, 1 commit ahead".
Proof.
  destruct (update_status_text healthy [] source0 true EmptyString [GitRemote] source0
              eq_refl) as (s' & Hrun & _ & Hen).
  exists s'. split; [exact Hrun |].
  destruct (Hen eq_refl) as (_ & _ & H21 & _).
  exact (H21 eq_refl eq_refl).
Defined.

Lemma needs_update_after_refresh_witness :
  (SourceUpdater.needs_update source0 = true <->
   SourceUpdater._enabled source0 = true /\
   exists b, SourceUpdater._commits_behind source0 = Some b /\ (0 < b)%Z) /\
  (SourceUpdater.needs_update source0 = true <->
   SourceUpdater._enabled source0 = true /\ 0 < 2).
Proof.
  destruct (needs_update_after_refresh healthy [] source0 (Ret tt)
              [GitRemote; GitFetch; GitSymbolicRef; GitRevParseHead;
               GitRevParseUpstream; GitRevList; GitRemote;
               ReadLines "requirements.txt"]
              source0 eq_refl) as [Hiff Hcounts].
  split; [exact Hiff |].
  exact (proj2 (Hcounts https_listing two_behind_one_ahead 2 1
                  (fun _ => eq_refl) (fun _ => eq_refl) eq_refl eq_refl eq_refl)).
Defined.

(** A healthy update passes; with the database locked and a downgrade that
    works, the update is rolled back and fails. *)
Lemma update_passes_or_rolls_back_witness :
  run WebappUpdater.update healthy [] webapp0
  = (Ret PASS,
     [GitMerge "origin/master"; DbConnect; GetCurrentRevision; GetCurrentHead;
      DbClose; WalkRevisions (Some "a1") (Some "b2"); AlembicUpgrade "b2"],
     webapp0) /\
  run WebappUpdater.update (locked (Ret tt)) [] webapp0
  = (Ret FAIL,
     [GitMerge "origin/master"; DbConnect; GetCurrentRevision; GetCurrentHead;
      DbClose; WalkRevisions (Some "a1") (Some "b2"); AlembicUpgrade "b2";
      AlembicStamp "b2"; AlembicDowngrade (Some "a1"); GitReset (Some "5f2c1d7")],
     webapp0).
Proof.
  split.
  - apply (proj1
             (update_passes_or_rolls_back healthy [] webapp0 (Some "a1")
                [GitMerge "origin/master"] webapp0 true
                [GitMerge "origin/master"; DbConnect; GetCurrentRevision;
                 GetCurrentHead; DbClose] webapp0 true
                [GitMerge "origin/master"; DbConnect; GetCurrentRevision;
                 GetCurrentHead; DbClose; WalkRevisions (Some "a1") (Some "b2");
                 AlembicUpgrade "b2"] webapp0
                eq_refl eq_refl eq_refl eq_refl eq_refl)).
    reflexivity.
  - destruct (proj2
                (update_passes_or_rolls_back (locked (Ret tt)) [] webapp0 (Some "a1")
                   [GitMerge "origin/master"] webapp0 true
                   [GitMerge "origin/master"; DbConnect; GetCurrentRevision;
                    GetCurrentHead; DbClose] webapp0 false
                   [GitMerge "origin/master"; DbConnect; GetCurrentRevision;
                    GetCurrentHead; DbClose; WalkRevisions (Some "a1") (Some "b2");
                    AlembicUpgrade "b2"; AlembicStamp "b2"] webapp0
                   eq_refl eq_refl eq_refl eq_refl eq_refl) eq_refl)
      as [_ Hrolled].
    apply (Hrolled
             [GitMerge "origin/master"; DbConnect; GetCurrentRevision;
              GetCurrentHead; DbClose; WalkRevisions (Some "a1") (Some "b2");
              AlembicUpgrade "b2"; AlembicStamp "b2"; AlembicDowngrade (Some "a1")]
             webapp0
             [GitMerge "origin/master"; DbConnect; GetCurrentRevision;
              GetCurrentHead; DbClose; WalkRevisions (Some "a1") (Some "b2");
              AlembicUpgrade "b2"; AlembicStamp "b2"; AlembicDowngrade (Some "a1");
              GitReset (Some "5f2c1d7")]
             webapp0 eq_refl eq_refl).
Defined.

(** The merge is refused and the downgrade fails: [update] raises. *)
Lemma downgrade_after_source_failure_witness :
  run WebappUpdater.update
      (conflicting (Raise (OperationalError "database is locked"))) [] webapp0
  = (Raise (OperationalError "database is locked"),
     [GitMerge "origin/master"; AlembicDowngrade (Some "a1")], webapp0).
Proof.
  apply (proj2 (proj2
           (downgrade_after_source_failure
              (conflicting (Raise (OperationalError "database is locked"))) []
              webapp0 (Some "a1") (Ret false) [GitMerge "origin/master"] webapp0
              eq_refl eq_refl eq_refl (or_introl eq_refl)))).
  reflexivity.
Defined.

(** The updater is built over https and enabled; the origin is then set to
    an ssh URL.  The next refresh writes "Disabled (SSH origin)", fetches,
    and leaves an updater that needs an update. *)
Lemma ssh_origin_after_construction_witness :
  run (SourceUpdater.__init__ "webapp") origin_turns_ssh [] tt
  = (Ret built_over_https, [GitRemote], tt) /\
  SourceUpdater._enabled built_over_https = true /\
  exists tr' s',
    run SourceUpdater.refresh origin_turns_ssh [GitRemote] built_over_https
    = (Ret tt, tr', s') /\
    SourceUpdater.status s' = "Disabled (SSH origin)" /\
    In GitFetch tr' /\
    SourceUpdater.needs_update s' = true.
Proof.
  split; [vm_compute; reflexivity |]. split; [reflexivity |].
  destruct (run SourceUpdater.refresh origin_turns_ssh [GitRemote] built_over_https)
    as [[o tr'] s'] eqn:Hrun.
  assert (Ho : o = Ret tt).
  { vm_compute in Hrun. injection Hrun as <- _ _. reflexivity. }
  subst o.
  destruct (ssh_origin_after_construction origin_turns_ssh ssh_remotes eq_refl eq_refl
              two_behind_one_ahead [GitRemote] built_over_https tr' s'
              (fun h => eq_refl) (fun h => eq_refl) eq_refl eq_refl Hrun)
    as (Hstatus & [d Hd] & _ & Hneeds).
  exists tr', s'. split; [reflexivity |]. split; [exact Hstatus |]. split.
  - rewrite Hd. cbn. right. right. left. reflexivity.
  - apply Hneeds. apply Nat.ltb_lt. reflexivity.
Defined.

(** The component is two commits behind and needs an update; [update()]
    raises before it updates anything. *)
Lemma update_all_raises_TypeError_witness :
  WebappUpdater.needs_update webapp0 = true /\
  run (Updater.update None) healthy [] updater0 = (Raise TypeError, [], updater0).
Proof.
  split; [reflexivity |].
  apply (update_all_raises_TypeError healthy [] updater0). discriminate.
Defined.

(** * Further properties of the updater *)

(** ** The dict of components *)

Section Components.

Import Updater.

Lemma lookup_store_same (name : string) (c c' : WebappUpdater.t)
      (cs : list (string * WebappUpdater.t)) :
  lookup name cs = Some c -> lookup name (store name c' cs) = Some c'.
Proof.
  induction cs as [| [n c0] cs IH]; cbn; [discriminate |].
  destruct (String.eqb n name) eqn:E; cbn; rewrite E; [reflexivity | exact IH].
Qed.

Lemma lookup_store_other (name other : string) (c' : WebappUpdater.t)
      (cs : list (string * WebappUpdater.t)) :
  other <> name -> lookup other (store name c' cs) = lookup other cs.
Proof.
  intros Hne. induction cs as [| [n c0] cs IH]; cbn; [reflexivity |].
  destruct (String.eqb n name) eqn:E; cbn.
  - apply String.eqb_eq in E. subst n.
    destruct (String.eqb_spec name other) as [-> | _]; [contradiction | reflexivity].
  - rewrite IH. reflexivity.
Qed.

Lemma keys_store (name : string) (c' : WebappUpdater.t)
      (cs : list (string * WebappUpdater.t)) :
  map fst (store name c' cs) = map fst cs.
Proof.
  induction cs as [| [n c0] cs IH]; cbn; [reflexivity |].
  destruct (String.eqb n name); cbn; [reflexivity | now rewrite IH].
Qed.

Lemma store_store (name : string) (c c' : WebappUpdater.t)
      (cs : list (string * WebappUpdater.t)) :
  store name c' (store name c cs) = store name c' cs.
Proof.
  induction cs as [| [n c0] cs IH]; cbn; [reflexivity |].
  destruct (String.eqb n name) eqn:E; cbn; rewrite E; [reflexivity | now rewrite IH].
Qed.

Lemma lookup_key (name : string) (cs : list (string * WebappUpdater.t)) :
  In name (map fst cs) -> exists c, lookup name cs = Some c.
Proof.
  induction cs as [| [n c0] cs IH]; cbn; [contradiction |].
  intros [-> | Hin].
  - rewrite String.eqb_refl. eexists. reflexivity.
  - destruct (String.eqb n name); [eexists; reflexivity | exact (IH Hin)].
Qed.

Lemma dict_set_new {V} (k : option string) (v : V) (d : list (option string * V)) :
  ~ In k (map fst d) -> dict_set k v d = d ++ [(k, v)].
Proof.
  induction d as [| [k0 v0] d IH]; cbn; [reflexivity |].
  intros Hn. destruct (revision_eqb k0 k) eqn:E.
  - apply revision_eqb_eq in E. exfalso. apply Hn. left. exact E.
  - rewrite IH; [reflexivity |]. intros Hin. apply Hn. right. exact Hin.
Qed.

Variable env : Env.

(** X1.  [update(name)] runs the update of the component registered under
    [name], returns its result as the only entry, under that name, and
    leaves every other component and the set of names as they were; a name
    that is not registered raises [KeyError] before anything is called. *)
Theorem update_by_name (tr : trace) (s : t) (name : string) :
  (forall c r tr' c',
      lookup name (_components s) = Some c ->
      run WebappUpdater.update env tr c = (Ret r, tr', c') ->
      exists s',
        run (update (Some name)) env tr s = (Ret [(Some name, r)], tr', s') /\
        lookup name (_components s') = Some c' /\
        (forall other, other <> name ->
                       lookup other (_components s') = lookup other (_components s)) /\
        map fst (_components s') = map fst (_components s)) /\
  (lookup name (_components s) = None ->
   run (update (Some name)) env tr s = (Raise KeyError, tr, s)).
Proof.
  split.
  - intros c r tr' c' Hl Hu.
    exists {| _components := store name c' (_components s) |}.
    split; [| split; [| split]].
    + unfold update.
      rewrite (run_bind_ret (a := r) (tr' := tr')
                 (s' := {| _components := store name c' (_components s) |})).
      * reflexivity.
      * unfold component, run. rewrite Hl. unfold run in Hu. rewrite Hu. reflexivity.
    + cbn [_components]. exact (lookup_store_same name c c' _ Hl).
    + intros other Hne. cbn [_components]. apply lookup_store_other. exact Hne.
    + cbn [_components]. apply keys_store.
  - intros Hl. unfold update. apply run_bind_raise.
    unfold component, run. rewrite Hl. reflexivity.
Qed.

(** One turn of the loop of [check_updates]. *)
Lemma check_updates_turn (status : list (option string * (bool * string * revision * revision * string)))
      (name : string) (tr : trace) (s : t) status' tr' s' :
  run (component name WebappUpdater.refresh ;;
       c <- component name get ;;
       ret (dict_set (Some name) (component_status c) status)) env tr s
  = (Ret status', tr', s') ->
  exists c c',
    lookup name (_components s) = Some c /\
    run WebappUpdater.refresh env tr c = (Ret tt, tr', c') /\
    s' = {| _components := store name c' (_components s) |} /\
    status' = dict_set (Some name) (component_status c') status.
Proof.
  intros H. apply bind_ret_inv in H. destruct H as ([] & tr1 & s1 & H1 & H).
  unfold component, run in H1.
  destruct (lookup name (_components s)) as [c |] eqn:Hl; [| discriminate H1].
  destruct (WebappUpdater.refresh env tr c) as [[o1 tr1'] c'] eqn:Hr.
  injection H1 as -> -> <-.
  apply bind_ret_inv in H. destruct H as (c2 & tr2 & s2 & H2 & H).
  unfold component, run, get in H2. cbn [_components] in H2.
  rewrite (lookup_store_same name c c' _ Hl), store_store in H2.
  injection H2 as <- <- <-. injection H as <- <- <-.
  exists c, c'. split; [reflexivity | split; [exact Hr | split; reflexivity]].
Qed.

(** One turn of the loop, run forward. *)
Lemma run_check_updates_turn
      (status : list (option string * (bool * string * revision * revision * string)))
      (name : string) (tr : trace) (s : t) (c c' : WebappUpdater.t) (tr' : trace) :
  lookup name (_components s) = Some c ->
  run WebappUpdater.refresh env tr c = (Ret tt, tr', c') ->
  run (component name WebappUpdater.refresh ;;
       c <- component name get ;;
       ret (dict_set (Some name) (component_status c) status)) env tr s
  = (Ret (dict_set (Some name) (component_status c') status), tr',
     {| _components := store name c' (_components s) |}).
Proof.
  intros Hl Hr.
  assert (H1 : run (component name WebappUpdater.refresh) env tr s
               = (Ret tt, tr', {| _components := store name c' (_components s) |})).
  { unfold component, run. rewrite Hl. unfold run in Hr. rewrite Hr. reflexivity. }
  rewrite (run_bind_ret H1).
  assert (H2 : run (component name get) env tr'
                   {| _components := store name c' (_components s) |}
               = (Ret c', tr', {| _components := store name c' (_components s) |})).
  { unfold component, run, get. cbn [_components].
    rewrite (lookup_store_same name c c' _ Hl), store_store. reflexivity. }
  rewrite (run_bind_ret H2). reflexivity.
Qed.

Lemma lookup_after (name : string) (c : WebappUpdater.t)
      (pre rest : list (string * WebappUpdater.t)) :
  ~ In name (map fst pre) -> lookup name (pre ++ (name, c) :: rest) = Some c.
Proof.
  induction pre as [| [n c0] pre IH]; cbn; intros Hn.
  - rewrite String.eqb_refl. reflexivity.
  - destruct (String.eqb_spec n name) as [-> | _].
    + exfalso. apply Hn. left. reflexivity.
    + apply IH. intros Hin. apply Hn. right. exact Hin.
Qed.

Lemma store_after (name : string) (c c' : WebappUpdater.t)
      (pre rest : list (string * WebappUpdater.t)) :
  ~ In name (map fst pre) ->
  store name c' (pre ++ (name, c) :: rest) = pre ++ (name, c') :: rest.
Proof.
  induction pre as [| [n c0] pre IH]; cbn; intros Hn.
  - rewrite String.eqb_refl. reflexivity.
  - destruct (String.eqb_spec n name) as [-> | _].
    + exfalso. apply Hn. left. reflexivity.
    + rewrite IH; [reflexivity |]. intros Hin. apply Hn. right. exact Hin.
Qed.

(** The loop of [check_updates] over the components that are left, after
    the components [pre]. *)
Lemma check_updates_loop (todo : list (string * WebappUpdater.t)) :
  forall (pre : list (string * WebappUpdater.t)) status (tr : trace) status' tr' s',
    NoDup (map fst (pre ++ todo)) ->
    (forall n, In n (map fst todo) -> ~ In (Some n) (map fst status)) ->
    (run (for_fold (map fst todo) status
            (fun status name =>
               component name WebappUpdater.refresh ;;
               c <- component name get ;;
               ret (dict_set (Some name) (component_status c) status)))
         env tr {| _components := pre ++ todo |}
     = (Ret status', tr', s') <->
     exists todo',
       refreshed_in_turn env tr todo tr' todo' /\
       s' = {| _components := pre ++ todo' |} /\
       status' = status ++ status_dict todo').
Proof.
  induction todo as [| [name c] rest IH];
    intros pre status tr status' tr' s' Hnd Hfresh.
  - cbn [map for_fold]. split.
    + intros H. injection H as <- <- <-. exists []. split; [constructor |].
      split; [reflexivity |]. cbn. rewrite app_nil_r. reflexivity.
    + intros (todo' & Hturn & -> & ->). inversion Hturn; subst.
      unfold status_dict. cbn [map]. rewrite (app_nil_r status). reflexivity.
  - assert (Hpre : ~ In name (map fst pre)).
    { rewrite map_app in Hnd. cbn [map fst] in Hnd.
      apply NoDup_remove_2 in Hnd. intros Hin. apply Hnd.
      apply in_or_app. left. exact Hin. }
    assert (Hnew : ~ In (Some name) (map fst status)).
    { apply Hfresh. left. reflexivity. }
    assert (Hnd' : forall c', NoDup (map fst ((pre ++ [(name, c')]) ++ rest))).
    { intros c'. rewrite <- app_assoc. cbn [app].
      rewrite map_app in *. cbn [map fst] in *. exact Hnd. }
    assert (Hfresh' : forall v n, In n (map fst rest) ->
                                  ~ In (Some n) (map fst (status ++ [(Some name, v)]))).
    { intros v n Hin Hk. rewrite map_app in Hk. apply in_app_or in Hk.
      destruct Hk as [Hk | [Hk | []]].
      - exact (Hfresh n (or_intror Hin) Hk).
      - cbn in Hk. injection Hk as <-.
        rewrite map_app in Hnd. cbn [map fst] in Hnd.
        apply NoDup_remove_2 in Hnd. apply Hnd. apply in_or_app. right. exact Hin. }
    cbn [map fst for_fold]. split.
    + intros H. apply bind_ret_inv in H.
      destruct H as (status1 & tr1 & s1 & Hturn & H).
      apply check_updates_turn in Hturn.
      destruct Hturn as (c0 & c' & Hl & Hr & -> & ->).
      cbn [_components] in Hl, H.
      rewrite (lookup_after name c pre rest Hpre) in Hl. injection Hl as <-.
      rewrite (store_after name c c' pre rest Hpre) in H.
      rewrite (dict_set_new _ _ _ Hnew) in H.
      change (pre ++ (name, c') :: rest) with (pre ++ [(name, c')] ++ rest) in H.
      rewrite app_assoc in H.
      apply (IH _ _ _ _ _ _ (Hnd' c') (Hfresh' _)) in H.
      destruct H as (rest' & Hrest & -> & ->).
      exists ((name, c') :: rest'). split; [econstructor; eassumption |].
      split.
      * rewrite <- app_assoc. reflexivity.
      * unfold status_dict. cbn [map fst snd]. rewrite <- app_assoc. reflexivity.
    + intros (todo' & Hturn & -> & ->).
      inversion Hturn as [| tr0 n0 c0 tr1 c' cs0 tr0' rest' Hr Hrest]; subst.
      rewrite (run_bind_ret
                 (run_check_updates_turn status name tr
                    {| _components := pre ++ (name, c) :: rest |} c c' tr1
                    (lookup_after name c pre rest Hpre) Hr)).
      cbn [_components].
      rewrite (store_after name c c' pre rest Hpre), (dict_set_new _ _ _ Hnew).
      change (pre ++ (name, c') :: rest) with (pre ++ [(name, c')] ++ rest).
      rewrite app_assoc.
      apply (IH _ _ _ _ _ _ (Hnd' c') (Hfresh' _)).
      exists rest'. split; [exact Hrest |]. split.
      * rewrite <- app_assoc. reflexivity.
      * unfold status_dict. cbn [map fst snd]. rewrite <- app_assoc. reflexivity.
Qed.

(** X2.  [check_updates] refreshes the components one after the other, in
    the order [iteritems] visits them, each from the calls of the one
    before.  It returns exactly when every one of these refreshes returns,
    and then the dict has one entry for each component, under its name, which
    is the status of the component as its own [refresh] left it; the
    components are kept under their names. *)
Theorem check_updates_entries (tr : trace) (s : t) status tr' s' :
  NoDup (map fst (_components s)) ->
  (run check_updates env tr s = (Ret status, tr', s') <->
   exists cs',
     refreshed_in_turn env tr (_components s) tr' cs' /\
     s' = {| _components := cs' |} /\
     status = status_dict cs').
Proof.
  intros Hnd. unfold check_updates.
  rewrite (run_bind_ret (m := get) (a := s) (tr' := tr) (s' := s) eq_refl).
  destruct s as [cs]. cbn [_components] in *.
  apply (check_updates_loop cs [] [] tr status tr' s').
  - exact Hnd.
  - intros n _ [].
Qed.

End Components.

(** ** [DBUpdater]: refresh and the stamp *)

Section DBUpdaterMore.

Variable env : Env.

(** What a [refresh] that returns has called and left. *)
Lemma refresh_ret_shape (tr : trace) (s : DBUpdater.t)
      (b : bool) (tr' : trace) (s' : DBUpdater.t) :
  run DBUpdater.refresh env tr s = (Ret b, tr', s') ->
  b = true /\
  tr' = tr ++ [DbConnect; GetCurrentRevision; GetCurrentHead; DbClose] /\
  exists cur head,
    get_current_revision env (tr ++ [DbConnect]) = Ret cur /\
    get_current_head env (tr ++ [DbConnect; GetCurrentRevision]) = Ret head /\
    s' = {| DBUpdater._current_revision := Some cur;
            DBUpdater._newest_revision := Some head;
            DBUpdater._connection := false |}.
Proof.
  unfold DBUpdater.refresh, DBUpdater._open, DBUpdater._close,
    run, bind, call, modify, ret.
  destruct (db_connect env tr) as [[] | e1]; [| discriminate].
  destruct (get_current_revision env (tr ++ [DbConnect])) as [cur | e2] eqn:Hc;
    [| discriminate].
  rewrite <- ?app_assoc; cbn [app].
  destruct (get_current_head env (tr ++ [DbConnect; GetCurrentRevision]))
    as [head | e3] eqn:Hh; [| discriminate].
  rewrite <- ?app_assoc; cbn [app].
  destruct (db_close env (tr ++ [DbConnect; GetCurrentRevision; GetCurrentHead]))
    as [[] | e4]; [| discriminate].
  rewrite <- ?app_assoc; cbn [app].
  intros H. injection H as <- <- <-.
  split; [reflexivity |]. split; [reflexivity |].
  exists cur, head. repeat split.
Qed.

(** X3.  A [refresh] that returns has connected, read the current revision
    and the newest one, and closed the connection, in this order; it returns
    [True], holds the two revisions it read and no connection, and
    [needs_update] then tells whether the two differ. *)
Theorem DBUpdater_refresh_returns (tr : trace) (s : DBUpdater.t)
        (b : bool) (tr' : trace) (s' : DBUpdater.t) :
  run DBUpdater.refresh env tr s = (Ret b, tr', s') ->
  b = true /\
  tr' = tr ++ [DbConnect; GetCurrentRevision; GetCurrentHead; DbClose] /\
  exists cur head,
    get_current_revision env (tr ++ [DbConnect]) = Ret cur /\
    get_current_head env (tr ++ [DbConnect; GetCurrentRevision]) = Ret head /\
    s' = {| DBUpdater._current_revision := Some cur;
            DBUpdater._newest_revision := Some head;
            DBUpdater._connection := false |} /\
    run DBUpdater.needs_update env tr' s' = (Ret (negb (revision_eqb cur head)), tr', s').
Proof.
  intros H. destruct (refresh_ret_shape tr s b tr' s' H)
    as (Hb & Htr & cur & head & Hc & Hh & Hs).
  split; [exact Hb |]. split; [exact Htr |].
  exists cur, head. split; [exact Hc |]. split; [exact Hh |]. split; [exact Hs |].
  subst s'. reflexivity.
Qed.

(** X4.  A [refresh] that raises after it has connected leaves the
    connection open: nothing closes it on the way out. *)
Theorem DBUpdater_refresh_leaves_connection_open
        (tr : trace) (s : DBUpdater.t) (e : exn) (tr' : trace) (s' : DBUpdater.t) :
  db_connect env tr = Ret tt ->
  run DBUpdater.refresh env tr s = (Raise e, tr', s') ->
  DBUpdater._connection s' = true /\
  (db_close env (tr ++ [DbConnect; GetCurrentRevision; GetCurrentHead]) = Ret tt ->
   ~ In DbClose (skipn (List.length tr) tr')).
Proof.
  intros Hconn.
  unfold DBUpdater.refresh, DBUpdater._open, DBUpdater._close,
    run, bind, call, modify, ret.
  rewrite Hconn.
  destruct (get_current_revision env (tr ++ [DbConnect])) as [cur | e2].
  - rewrite <- ?app_assoc; cbn [app].
    destruct (get_current_head env (tr ++ [DbConnect; GetCurrentRevision]))
      as [head | e3].
    + rewrite <- ?app_assoc; cbn [app].
      destruct (db_close env (tr ++ [DbConnect; GetCurrentRevision; GetCurrentHead]))
        as [[] | e4]; [discriminate |].
      intros H. injection H as <- <- <-. split; [reflexivity |]. discriminate.
    + intros H. injection H as <- <- <-. split; [reflexivity |]. intros _.
      rewrite skipn_app, Nat.sub_diag, skipn_all. cbn.
      intros [H | [H | [H | []]]]; discriminate H.
  - intros H. injection H as <- <- <-. split; [reflexivity |]. intros _.
    rewrite <- app_assoc, skipn_app, Nat.sub_diag, skipn_all. cbn.
    intros [H | [H | []]]; discriminate H.
Qed.

(** X5.  When a migration fails on objects that already exist and the stamp
    of its revision fails too, the walk stops there: [update] returns
    [False] and no later revision is tried. *)
Theorem DBUpdater_update_stops_at_failed_stamp
        (tr : trace) (s : DBUpdater.t) (cur newest : revision) (scripts : list string)
        (first : string) (rest : list string) (msg msg' : string) :
  DBUpdater._current_revision s = Some cur ->
  DBUpdater._newest_revision s = Some newest ->
  cur <> newest ->
  walk_revisions env tr cur newest = Ret scripts ->
  rev (filter (fun r => negb (revision_eqb (Some r) cur)) scripts) = first :: rest ->
  alembic_upgrade env (tr ++ [WalkRevisions cur newest]) first
  = Raise (OperationalError msg) ->
  Py.contains "already exists" msg = true ->
  alembic_stamp env ((tr ++ [WalkRevisions cur newest]) ++ [AlembicUpgrade first]) first
  = Raise (OperationalError msg') ->
  run DBUpdater.update env tr s
  = (Ret false,
     tr ++ [WalkRevisions cur newest; AlembicUpgrade first; AlembicStamp first], s).
Proof.
  intros Hc Hn Hne Hw Hrev Hu Hm Hs.
  assert (Hneq : revision_eqb cur newest = false).
  { destruct (revision_eqb cur newest) eqn:E; [| reflexivity].
    apply revision_eqb_eq in E. contradiction. }
  unfold DBUpdater.update.
  rewrite (run_bind_ret (run_getattr _ env tr s _ Hc)).
  rewrite (run_bind_ret (run_getattr _ env tr s _ Hn)).
  rewrite Hneq. cbn [negb].
  rewrite (run_try_caught (e := OperationalError msg') (k := ret false)
             (tr' := ((tr ++ [WalkRevisions cur newest]) ++ [AlembicUpgrade first])
                       ++ [AlembicStamp first]) (s' := s)).
  - rewrite <- !app_assoc. reflexivity.
  - assert (Hcall : run (call (WalkRevisions cur newest)
                              (fun env tr => walk_revisions env tr cur newest)) env tr s
                    = (Ret scripts, tr ++ [WalkRevisions cur newest], s)).
    { rewrite run_call, Hw. reflexivity. }
    rewrite (run_bind_ret Hcall). cbv zeta. rewrite Hrev.
    apply run_bind_raise. cbn [for_each]. apply run_bind_raise.
    unfold DBUpdater.apply_revision, DBUpdater._stamp_database,
      run, try_except, call, raise.
    rewrite Hu. cbn [is_OperationalError str_of_exn]. rewrite Hm, Hs. reflexivity.
  - reflexivity.
Qed.

End DBUpdaterMore.

(** ** [WebappUpdater]: the other ways through [update] *)

Section WebappUpdaterMore.

Import WebappUpdater.

Variable env : Env.

Lemma update_without_revision (tr : trace) (s : t) :
  _enabled s = true ->
  DBUpdater._current_revision (_db_updater s) = None ->
  run update env tr s = (Raise AttributeError, tr, s).
Proof.
  intros He Hdb. unfold update.
  rewrite (run_bind_ret (m := get) (a := s) (tr' := tr) (s' := s) eq_refl).
  rewrite He. cbn [negb]. apply run_bind_raise.
  unfold db, DBUpdater.current_revision, getattr, run, zoom, bind, get, raise.
  rewrite Hdb, set_db_updater_same. reflexivity.
Qed.

(** X6.  [update] reads the current database revision before it does
    anything; on an updater that has not been refreshed the attribute is
    not set and [update] raises [AttributeError] without a call.  This is
    the state the constructors leave: [Updater().update('webapp')] raises
    [AttributeError]. *)
Theorem update_before_refresh (tr : trace) :
  (forall s,
      _enabled s = true ->
      DBUpdater._current_revision (_db_updater s) = None ->
      run update env tr s = (Raise AttributeError, tr, s)) /\
  (forall u tr1,
      run (Updater.__init__ (S := unit)) env tr tt = (Ret u, tr1, tt) ->
      run (Updater.update (Some "webapp")) env tr1 u = (Raise AttributeError, tr1, u)).
Proof.
  split; [exact (update_without_revision tr) |].
  intros u tr1 H. unfold Updater.__init__ in H.
  apply bind_ret_inv in H. destruct H as (w & tr2 & [] & Hw & H).
  injection H as <- <-.
  unfold WebappUpdater.__init__ in Hw.
  apply bind_ret_inv in Hw. destruct Hw as (src & tr3 & [] & _ & Hw).
  injection Hw as <- <-.
  unfold Updater.update. apply run_bind_raise.
  unfold Updater.component, run. cbn [Updater._components Updater.lookup Updater.store].
  rewrite String.eqb_refl.
  pose proof (update_without_revision tr3
                {| name := "webapp"; _enabled := true; _source_updater := src;
                   _db_updater := DBUpdater.__init__ |} eq_refl eq_refl) as Hu.
  unfold run in Hu. rewrite Hu. reflexivity.
Qed.

(** X7.  When the source stage returns [False] and the downgrade and the
    reset return, [update] returns the FAIL record; since the source stage
    makes no call to the database, the downgrade to the starting revision is
    the first such call, and the reset to the starting source revision is
    the last call of all. *)
Theorem source_failure_is_compensated
        (tr : trace) (s : t) (db_rev : revision) tr1 s1 tr2 s2 tr3 s3 :
  _enabled s = true ->
  DBUpdater._current_revision (_db_updater s) = Some db_rev ->
  run (source SourceUpdater.update) env tr s = (Ret false, tr1, s1) ->
  run (db (DBUpdater.downgrade db_rev)) env tr1 s1 = (Ret tt, tr2, s2) ->
  run (source (SourceUpdater.reset (local_revision s))) env tr2 s2 = (Ret tt, tr3, s3) ->
  run update env tr s = (Ret FAIL, tr3, s3) /\
  s3 = s1 /\
  exists d,
    Forall quiet d /\
    tr3 = (tr ++ d) ++ [AlembicDowngrade db_rev; GitReset (local_revision s)].
Proof.
  intros He Hdb Hs Hdown Hreset.
  rewrite (update_stages env tr s db_rev He Hdb).
  rewrite (run_bind_ret (stages_source_failed env _ _ _ _ _ Hs (or_introl eq_refl))).
  unfold conclude. cbn [negb orb].
  rewrite (run_bind_ret Hdown), (run_bind_ret Hreset).
  split; [reflexivity |].
  rewrite run_downgrade in Hdown. injection Hdown as _ <- <-.
  apply reset_ret in Hreset. destruct Hreset as [-> ->].
  split; [reflexivity |].
  destruct (emits_zoom quiet _ _ _ source_update_quiet env tr s _ tr1 s1 Hs)
    as (d & -> & Hd).
  exists d. split; [exact Hd |]. rewrite <- !app_assoc. reflexivity.
Qed.

(** X8.  On a webapp whose source updater is disabled, [update] merges
    nothing and still downgrades the database to its current revision.
    Where the source updater holds git, the checkout is then reset to the
    local revision the source updater holds and the FAIL record is returned;
    where it is disabled for want of git, the reset calls [None] and its
    [TypeError] leaves [update] after the downgrade. *)
Theorem update_of_disabled_source
        (tr : trace) (s : t) (db_rev : revision) :
  _enabled s = true ->
  SourceUpdater._enabled (_source_updater s) = false ->
  DBUpdater._current_revision (_db_updater s) = Some db_rev ->
  alembic_downgrade env tr db_rev = Ret tt ->
  (SourceUpdater._git (_source_updater s) = true ->
   (git_reset env (tr ++ [AlembicDowngrade db_rev]) (local_revision s) = Ret tt \/
    exists c, git_reset env (tr ++ [AlembicDowngrade db_rev]) (local_revision s)
              = Raise (ErrorReturnCode c)) ->
   run update env tr s
   = (Ret FAIL, tr ++ [AlembicDowngrade db_rev; GitReset (local_revision s)], s)) /\
  (SourceUpdater._git (_source_updater s) = false ->
   run update env tr s = (Raise TypeError, tr ++ [AlembicDowngrade db_rev], s)).
Proof.
  intros He Hse Hdb Hdown.
  assert (Hs : run (source SourceUpdater.update) env tr s = (Ret false, tr, s)).
  { unfold source, SourceUpdater.update, run, zoom, bind, get.
    rewrite Hse. cbn. rewrite set_source_updater_same. reflexivity. }
  pose proof (run_downgrade env tr s db_rev) as Hd. rewrite Hdown in Hd.
  rewrite (update_stages env tr s db_rev He Hdb).
  rewrite (run_bind_ret (stages_source_failed env _ _ _ _ _ Hs (or_introl eq_refl))).
  unfold conclude. cbn [negb orb].
  rewrite (run_bind_ret Hd).
  split.
  - intros Hg Hreset.
    assert (Hr : run (source (SourceUpdater.reset
                                (SourceUpdater.local_revision (_source_updater s))))
                     env (tr ++ [AlembicDowngrade db_rev]) s
                 = (Ret tt, (tr ++ [AlembicDowngrade db_rev])
                              ++ [GitReset (local_revision s)], s)).
    { unfold source, SourceUpdater.reset, SourceUpdater.git_call,
        run, zoom, try_except, bind, get, call, ret.
      rewrite Hg. unfold local_revision in Hreset.
      destruct Hreset as [Hok | [c Herr]].
      - rewrite Hok. rewrite set_source_updater_same. reflexivity.
      - rewrite Herr. cbn [is_ErrorReturnCode]. rewrite set_source_updater_same.
        reflexivity. }
    rewrite (run_bind_ret Hr). rewrite <- app_assoc. reflexivity.
  - intros Hg. apply run_bind_raise.
    unfold source, SourceUpdater.reset, SourceUpdater.git_call,
      run, zoom, try_except, bind, get, raise.
    rewrite Hg. cbn [is_ErrorReturnCode]. rewrite set_source_updater_same.
    reflexivity.
Qed.

(** A [try] that returns has returned from its body or from a handler. *)
Lemma stages_ret_inv (tr : trace) (s : t) (g d : bool) tr' s' :
  run stages env tr s = (Ret (g, d), tr', s') ->
  (g = false /\ d = false) \/
  (g = true /\
   exists tr1 s1 (b : bool) tr2 s2,
     run (source SourceUpdater.update) env tr s = (Ret true, tr1, s1) /\
     run (db DBUpdater.refresh) env tr1 s1 = (Ret b, tr2, s2) /\
     run (db DBUpdater.update) env tr2 s2 = (Ret d, tr', s')).
Proof.
  unfold stages. unfold run at 1, try_except.
  match goal with
  | |- context [match ?body env tr s with _ => _ end] =>
      destruct (body env tr s) as [[[[g0 d0] | e] tr0] s0] eqn:Hbody
  end.
  - intros H. injection H as -> -> -> ->.
    apply bind_ret_inv in Hbody. destruct Hbody as (gs & tr1 & s1 & Hs & Hbody).
    destruct gs.
    + apply bind_ret_inv in Hbody. destruct Hbody as (b & tr2 & s2 & Hr & Hbody).
      apply bind_ret_inv in Hbody. destruct Hbody as (ds & tr3 & s3 & Hu & Hbody).
      injection Hbody as <- <- <- <-.
      right. split; [reflexivity |]. exists tr1, s1, b, tr2, s2.
      split; [exact Hs | split; [exact Hr | exact Hu]].
    + injection Hbody as <- <- _ _. left. split; reflexivity.
  - destruct (is_ErrorReturnCode e); intros H; [| discriminate H].
    injection H as <- <- _ _. left. split; reflexivity.
Qed.

(** X9.  A record [update] returns is the PASS record, with
    [restart_required] set, or the FAIL record, with it unset; and it is the
    PASS record only when the source update returned [True] and, after a
    refresh of the database updater, the database update returned [True],
    with nothing called after it. *)
Theorem update_result_inv (tr : trace) (s : t) (r : Result.t) tr' s' :
  run update env tr s = (Ret r, tr', s') ->
  (r = PASS \/ r = FAIL) /\
  (r = PASS ->
   exists tr1 s1 (b : bool) tr2 s2,
     run (source SourceUpdater.update) env tr s = (Ret true, tr1, s1) /\
     run (db DBUpdater.refresh) env tr1 s1 = (Ret b, tr2, s2) /\
     run (db DBUpdater.update) env tr2 s2 = (Ret true, tr', s')).
Proof.
  intros H.
  destruct (_enabled s) eqn:He.
  - destruct (DBUpdater._current_revision (_db_updater s)) as [db_rev |] eqn:Hdb.
    + rewrite (update_stages env tr s db_rev He Hdb) in H.
      apply bind_ret_inv in H. destruct H as ([g d] & tr1 & s1 & Hst & H).
      apply stages_ret_inv in Hst.
      destruct Hst as [[-> ->] | (-> & tr2 & s2 & b & tr3 & s3 & Hs & Hr & Hu)].
      * unfold conclude in H. cbn [negb orb] in H.
        apply bind_ret_inv in H. destruct H as ([] & tr4 & s4 & _ & H).
        apply bind_ret_inv in H. destruct H as ([] & tr5 & s5 & _ & H).
        injection H as <- _ _. split; [right; reflexivity | discriminate].
      * destruct d.
        -- unfold conclude in H. cbn [negb orb] in H. injection H as <- <- <-.
           split; [left; reflexivity |]. intros _.
           exists tr2, s2, b, tr3, s3. split; [exact Hs | split; [exact Hr | exact Hu]].
        -- unfold conclude in H. cbn [negb orb] in H.
           apply bind_ret_inv in H. destruct H as ([] & tr4 & s4 & _ & H).
           apply bind_ret_inv in H. destruct H as ([] & tr5 & s5 & _ & H).
           injection H as <- _ _. split; [right; reflexivity | discriminate].
    + pose proof (update_without_revision tr s He Hdb) as Hraise.
      rewrite Hraise in H. discriminate H.
  - unfold update, run, bind, get in H. rewrite He in H. cbn in H.
    injection H as <- _ _. split; [right; reflexivity | discriminate].
Qed.

(** X10.  A [refresh] of an enabled webapp that returns has refreshed the
    source updater and then the database updater: both database revisions
    are set and the connection is closed, so that a following [update] finds
    the revision it reads first.  A disabled webapp is left alone. *)
Theorem webapp_refresh_sets_revisions (tr : trace) (s : t) :
  (forall tr' s',
      _enabled s = true ->
      run refresh env tr s = (Ret tt, tr', s') ->
      exists cur head tr1,
        DBUpdater._current_revision (_db_updater s') = Some cur /\
        DBUpdater._newest_revision (_db_updater s') = Some head /\
        DBUpdater._connection (_db_updater s') = false /\
        tr' = tr1 ++ [DbConnect; GetCurrentRevision; GetCurrentHead; DbClose] /\
        _enabled s' = true) /\
  (_enabled s = false -> run refresh env tr s = (Ret tt, tr, s)).
Proof.
  split.
  - intros tr' s' He H. unfold refresh in H.
    rewrite (run_bind_ret (m := get) (a := s) (tr' := tr) (s' := s) eq_refl) in H.
    rewrite He in H. cbn [negb] in H.
    apply bind_ret_inv in H. destruct H as ([] & tr1 & s1 & Hsrc & H).
    apply bind_ret_inv in H. destruct H as (b & tr2 & s2 & Hdb & H).
    injection H as <- <-.
    unfold db, run, zoom in Hdb.
    destruct (DBUpdater.refresh env tr1 (_db_updater s1)) as [[o t2] d2] eqn:Hr.
    injection Hdb as -> <- <-.
    destruct (refresh_ret_shape env _ _ _ _ _ Hr)
      as (_ & -> & cur & head & _ & _ & ->).
    exists cur, head, tr1. cbn. repeat split.
    unfold source, run, zoom in Hsrc.
    destruct (SourceUpdater.refresh env tr (_source_updater s)) as [[o1 t1] src1].
    injection Hsrc as _ _ <-. cbn. exact He.
  - intros He. unfold refresh, run, bind, get. rewrite He. reflexivity.
Qed.

End WebappUpdaterMore.

(** ** [SourceUpdater]: update *)

Section SourceUpdaterMore.

Import SourceUpdater.

Variable env : Env.

(** X11.  [update] never raises [sh.ErrorReturnCode]: a tool error of the
    merge or of the install of the requirements is turned into [False]. *)
Theorem source_update_raises_no_tool_error
        (tr : trace) (s : t) (e : exn) (tr' : trace) (s' : t) :
  run update env tr s = (Raise e, tr', s') -> is_ErrorReturnCode e = false.
Proof.
  unfold update. unfold run, bind at 1, get.
  destruct (negb (_enabled s)); [discriminate |].
  unfold bind at 1, try_except.
  match goal with
  | |- context [match ?body env tr s with _ => _ end] =>
      destruct (body env tr s) as [[[[g r] | e0] tr0] s0]
  end.
  - destruct (negb g || negb r)%bool; discriminate.
  - destruct (is_ErrorReturnCode e0) eqn:E.
    + cbn. discriminate.
    + intros H. injection H as <- _ _. exact E.
Qed.

(** X12.  A disabled updater returns [False] and calls nothing.  An enabled
    one merges [origin/<branch>]: when the merge fails with a tool error it
    returns [False] and the requirements are not touched; when the merge
    returns, it returns what the update of the requirements returns. *)
Theorem source_update_outcomes (tr : trace) (s : t) :
  (_enabled s = false -> run update env tr s = (Ret false, tr, s)) /\
  (forall c,
      _enabled s = true -> _git s = true ->
      git_merge env tr ("origin/" ++ branch s) = Raise (ErrorReturnCode c) ->
      run update env tr s = (Ret false, tr ++ [GitMerge ("origin/" ++ branch s)], s)) /\
  (forall (b : bool) tr' s',
      _enabled s = true -> _git s = true ->
      git_merge env tr ("origin/" ++ branch s) = Ret tt ->
      run (zoom _requirements_updater set_requirements_updater
                RequirementsUpdater.update)
          env (tr ++ [GitMerge ("origin/" ++ branch s)]) s = (Ret b, tr', s') ->
      run update env tr s = (Ret b, tr', s')).
Proof.
  split; [| split].
  - intros He. unfold update, run, bind, get. rewrite He. reflexivity.
  - intros c He Hg Hm. unfold update.
    rewrite (run_bind_ret (m := get) (a := s) (tr' := tr) (s' := s) eq_refl).
    rewrite He. cbn [negb].
    rewrite (run_bind_ret (a := (false, false))
               (tr' := tr ++ [GitMerge ("origin/" ++ branch s)]) (s' := s));
      [reflexivity |].
    rewrite (run_try_caught (e := ErrorReturnCode c) (k := ret (false, false))
               (tr' := tr ++ [GitMerge ("origin/" ++ branch s)]) (s' := s));
      [reflexivity | | reflexivity].
    apply run_bind_raise.
    unfold git_attr, run, bind, get, call. rewrite Hg, Hm. reflexivity.
  - intros b tr' s' He Hg Hm Hreq. unfold update.
    rewrite (run_bind_ret (m := get) (a := s) (tr' := tr) (s' := s) eq_refl).
    rewrite He. cbn [negb].
    rewrite (run_bind_ret (a := (true, b)) (tr' := tr') (s' := s')).
    + destruct b; reflexivity.
    + apply run_try_ret.
      rewrite (run_bind_ret (a := tt)
                 (tr' := tr ++ [GitMerge ("origin/" ++ branch s)]) (s' := s)).
      * rewrite (run_bind_ret Hreq). reflexivity.
      * unfold git_attr, run, bind, get, call. rewrite Hg, Hm. reflexivity.
Qed.

End SourceUpdaterMore.

(** ** [SourceUpdater]: what the constructor makes of the remotes *)

Lemma prefix_empty (s : string) : String.prefix EmptyString s = true.
Proof. destruct s; reflexivity. Qed.

(** [c in s], for one character, is that [s] is not free of [c]. *)
Lemma contains_char (c : ascii) (s : string) :
  Py.contains (String c EmptyString) s = negb (free_of c s).
Proof.
  induction s as [| d r IH]; [reflexivity |].
  cbn [Py.contains free_of String.prefix]. rewrite IH, prefix_empty.
  destruct (ascii_dec c d) as [-> | Hne].
  - rewrite Ascii.eqb_refl. reflexivity.
  - destruct (Ascii.eqb_spec d c) as [-> | _]; [contradiction | reflexivity].
Qed.

Section Construction.

Import SourceUpdater.

Variable env : Env.

Lemma scan_plain (rs : list remote) :
  forall (tr : trace) (s : t),
    forallb well_formed rs = true ->
    forallb plain_remote rs = true ->
    run (scan_remotes (map remote_line rs)) env tr s = (Ret true, tr, s).
Proof.
  induction rs as [| r rs IH]; intros tr s Hwf Hplain; [reflexivity |].
  cbn [forallb] in Hwf, Hplain.
  apply andb_true_iff in Hwf. destruct Hwf as [Hr Hrs].
  apply andb_true_iff in Hplain. destruct Hplain as [Hp Hps].
  cbn [map scan_remotes]. rewrite (split_remote_line r Hr).
  assert (Hline : (String.eqb (remote_name r) "origin"
                   && Py.contains "@" (remote_url r ++ " (" ++ remote_kind r ++ ")"))%bool
                  = false).
  { unfold plain_remote in Hp.
    destruct (String.eqb (remote_name r) "origin"); [| reflexivity].
    cbn [negb orb andb] in *. apply andb_true_iff in Hp. destruct Hp as [Hu Hk].
    rewrite contains_char, !free_of_append, Hu, Hk. reflexivity. }
  rewrite Hline. apply IH; assumption.
Qed.

(** The constructor, from what [_check_enabled] answers on the object it
    is building. *)
Lemma init_from_check_enabled {S} (name : string) (tr : trace) (s0 : S)
      (o : outcome (bool * string)) tr' :
  (forall obj, _git obj = git_installed env ->
               run _check_enabled env tr obj = (o, tr', obj)) ->
  run (__init__ name) env tr s0
  = (match o with
     | Ret (enabled, status) =>
         Ret {| _git := git_installed env; name := name; _branch := EmptyString;
                _local_revision := None; _remote_revision := None;
                _commits_ahead := Some 0%Z; _commits_behind := Some 0%Z;
                _enabled := enabled; _status := status;
                _requirements_updater :=
                  RequirementsUpdater.__init__ env "requirements.txt" |}
     | Raise e => Raise e
     end, tr', s0).
Proof.
  intros H. unfold __init__, run, bind, ask, construct.
  match goal with
  | |- context [_check_enabled env tr ?obj] => specialize (H obj eq_refl)
  end.
  unfold run in H. rewrite H. destruct o as [[enabled status] | e]; reflexivity.
Qed.

Lemma check_enabled_from_remotes (tr : trace) (s : t) (o : outcome bool) tr' :
  run _check_remotes env tr s = (o, tr', s) ->
  run _check_enabled env tr s
  = (match o with
     | Ret remote_okay =>
         Ret ((_git s && remote_okay)%bool,
              if negb remote_okay then "Disabled (SSH origin)"
              else if negb (_git s) then "Disabled (Git is unavailable)"
                   else EmptyString)
     | Raise e => Raise e
     end, tr', s).
Proof.
  intros H. unfold _check_enabled.
  rewrite (run_bind_ret (m := get) (a := s) (tr' := tr) (s' := s) eq_refl).
  destruct o as [okay | e].
  - rewrite (run_bind_ret H). destruct okay, (_git s); reflexivity.
  - rewrite (run_bind_raise H). reflexivity.
Qed.

(** X13.  In a checkout without a remote [git remote -v] prints nothing;
    the one empty line does not unpack into a name and a path, and the
    constructor raises [ValueError]. *)
Theorem init_without_remotes {S} (name : string) (tr : trace) (s0 : S) (out : string) :
  git_installed env = true ->
  git_remote env tr = Ret out ->
  Py.strip out = EmptyString ->
  run (__init__ name) env tr s0 = (Raise ValueError, tr ++ [GitRemote], s0).
Proof.
  intros Hg Hr Hout.
  rewrite (init_from_check_enabled name tr s0 (Raise ValueError) (tr ++ [GitRemote]));
    [reflexivity |].
  intros obj Hobj. rewrite Hg in Hobj.
  rewrite (check_enabled_from_remotes tr obj (Raise ValueError) (tr ++ [GitRemote]));
    [reflexivity |].
  rewrite (run_check_remotes_with_git env tr obj Hobj), Hr, Hout. reflexivity.
Qed.

(** X14.  When [git remote -v] fails with exit code 128, as it does outside
    a repository, the updater is built disabled, and its status names an ssh
    origin; with any other exit code the constructor raises the tool error. *)
Theorem init_when_git_remote_fails {S} (name : string) (tr : trace) (s0 : S) (c : Z) :
  git_installed env = true ->
  git_remote env tr = Raise (ErrorReturnCode c) ->
  (c = 128%Z ->
   exists su,
     run (__init__ name) env tr s0 = (Ret su, tr ++ [GitRemote], s0) /\
     _enabled su = false /\ status su = "Disabled (SSH origin)" /\
     needs_update su = false) /\
  (c <> 128%Z ->
   run (__init__ name) env tr s0 = (Raise (ErrorReturnCode c), tr ++ [GitRemote], s0)).
Proof.
  intros Hg Hr. split.
  - intros ->. eexists. split.
    + rewrite (init_from_check_enabled name tr s0
                 (Ret (false, "Disabled (SSH origin)")) (tr ++ [GitRemote]));
        [reflexivity |].
      intros obj Hobj. rewrite Hg in Hobj.
      rewrite (check_enabled_from_remotes tr obj (Ret false) (tr ++ [GitRemote])).
      * rewrite Hobj. reflexivity.
      * rewrite (run_check_remotes_with_git env tr obj Hobj), Hr. reflexivity.
    + repeat split.
  - intros Hc.
    rewrite (init_from_check_enabled name tr s0
               (Raise (ErrorReturnCode c)) (tr ++ [GitRemote]));
      [reflexivity |].
    intros obj Hobj. rewrite Hg in Hobj.
    rewrite (check_enabled_from_remotes tr obj (Raise (ErrorReturnCode c))
               (tr ++ [GitRemote])); [reflexivity |].
    rewrite (run_check_remotes_with_git env tr obj Hobj), Hr.
    cbn [is_ErrorReturnCode_128].
    destruct (Z.eqb_spec c 128) as [-> | _]; [contradiction | reflexivity].
Qed.

(** X15.  When none of the lines of [origin] has an [@], the updater is
    built enabled, with an empty status, no commit behind and nothing to
    update until it is refreshed. *)
Theorem init_over_https {S} (name : string) (tr : trace) (s0 : S) (rs : list remote) :
  git_installed env = true ->
  git_remote env tr = Ret (remote_listing rs) ->
  rs <> [] ->
  forallb well_formed rs = true ->
  forallb plain_remote rs = true ->
  exists su,
    run (__init__ name) env tr s0 = (Ret su, tr ++ [GitRemote], s0) /\
    _enabled su = true /\ status su = EmptyString /\
    commit_count su = (Some 0%Z, Some 0%Z) /\ needs_update su = false.
Proof.
  intros Hg Hr Hne Hwf Hplain. eexists. split.
  - rewrite (init_from_check_enabled name tr s0 (Ret (true, EmptyString))
               (tr ++ [GitRemote])); [reflexivity |].
    intros obj Hobj. rewrite Hg in Hobj.
    rewrite (check_enabled_from_remotes tr obj (Ret true) (tr ++ [GitRemote])).
    + rewrite Hobj. reflexivity.
    + rewrite (run_check_remotes_with_git env tr obj Hobj), Hr.
      rewrite (split_strip_listing rs Hwf Hne).
      rewrite (scan_plain rs _ _ Hwf Hplain). reflexivity.
  - repeat split.
Qed.

(** X16.  Without git the updater is built disabled, with the status
    "Disabled (Git is unavailable)", and without a call; its [refresh] and
    its [update] call nothing either, and [update] returns [False]. *)
Theorem init_without_git {S} (name : string) (tr : trace) (s0 : S) :
  git_installed env = false ->
  exists su,
    run (__init__ name) env tr s0 = (Ret su, tr, s0) /\
    _enabled su = false /\ status su = "Disabled (Git is unavailable)" /\
    needs_update su = false /\
    (forall tr', run refresh env tr' su = (Ret tt, tr', su)) /\
    (forall tr', run update env tr' su = (Ret false, tr', su)).
Proof.
  intros Hg. eexists. split.
  - rewrite (init_from_check_enabled name tr s0
               (Ret (false, "Disabled (Git is unavailable)")) tr); [reflexivity |].
    intros obj Hobj. rewrite Hg in Hobj.
    rewrite (check_enabled_from_remotes tr obj (Ret true) tr).
    + rewrite Hobj. reflexivity.
    + apply run_check_remotes_without_git. exact Hobj.
  - rewrite Hg. repeat split.
Qed.

End Construction.

(** ** [SourceUpdater]: refresh *)

Lemma no_space_append (a b : string) :
  no_space (a ++ b) = (no_space a && no_space b)%bool.
Proof.
  induction a as [| x a IH]; cbn; [reflexivity |].
  rewrite IH. now rewrite andb_assoc.
Qed.

Lemma rstrip_line (a : string) :
  no_space a = true -> Py.rstrip (a ++ String Py.newline EmptyString) = a.
Proof.
  induction a as [| x a IH]; cbn [append Py.rstrip no_space]; [reflexivity |].
  intros H. apply andb_true_iff in H. destruct H as [Hx Ha].
  rewrite (IH Ha). apply negb_true_iff in Hx. rewrite Hx.
  destruct a; reflexivity.
Qed.

Lemma replace_absent (old new s : string) :
  Py.contains old s = false -> Py.replace_from 0 old new s = s.
Proof.
  induction s as [| c r IH]; [reflexivity |].
  cbn [Py.contains]. intros H. apply orb_false_iff in H. destruct H as [Hp Hr].
  cbn [Py.replace_from]. rewrite Hp, (IH Hr). reflexivity.
Qed.

Lemma lstrip_keeps (c : ascii) (r : string) :
  Py.isspace c = false -> Py.lstrip (String c r) = String c r.
Proof. cbn [Py.lstrip]. intros ->. reflexivity. Qed.

Lemma prefix_self_append (a s : string) : String.prefix a (a ++ s) = true.
Proof.
  induction a as [| c a IH]; [apply prefix_empty |].
  cbn [append String.prefix]. destruct (ascii_dec c c); [exact IH | contradiction].
Qed.

Lemma replace_from_skip (old new a s : string) :
  Py.replace_from (String.length a) old new (a ++ s) = Py.replace_from 0 old new s.
Proof. induction a as [| c a IH]; [reflexivity | exact IH]. Qed.

(** A match at the start is replaced, and the search goes on behind it. *)
Lemma replace_prefix (c : ascii) (old new s : string) :
  Py.replace (String c old) new (String c old ++ s)
  = (new ++ Py.replace_from 0 (String c old) new s)%string.
Proof.
  unfold Py.replace.
  change (String c old ++ s)%string with (String c (old ++ s)).
  unfold Py.replace_from at 1. fold Py.replace_from.
  change (String c (old ++ s)) with (String c old ++ s)%string.
  rewrite prefix_self_append.
  cbn [String.length Nat.sub]. rewrite Nat.sub_0_r, replace_from_skip. reflexivity.
Qed.

Section RefreshMore.

Import SourceUpdater.

Variable env : Env.

Lemma retrieve_commit_count_failed (tr : trace) (s : t) tr' s' :
  (exists c, git_rev_list env tr = Raise (ErrorReturnCode c)) ->
  run _retrieve_commit_count env tr s = (Ret tt, tr', s') ->
  s' = set_commit_count (Some 0%Z) (Some 0%Z) s.
Proof.
  intros [c Hc].
  unfold _retrieve_commit_count, git_call, run, try_except, bind, get, call, raise,
    modify.
  destruct (_git s).
  - rewrite Hc. cbn. intros H. injection H as _ <-. reflexivity.
  - cbn. discriminate.
Qed.

(** X17.  When [git rev-list] fails, as it does on a branch without an
    upstream, a [refresh] that returns leaves both counts at zero, so that
    [needs_update] is false, and leaves the status as it was written at the
    start of the [refresh], from the counts the updater held before. *)
Theorem refresh_when_rev_list_fails (tr : trace) (s : t) tr' s' :
  _enabled s = true ->
  (forall h, exists c, git_rev_list env h = Raise (ErrorReturnCode c)) ->
  run refresh env tr s = (Ret tt, tr', s') ->
  commit_count s' = (Some 0%Z, Some 0%Z) /\
  needs_update s' = false /\
  exists tr1 s1,
    run (_update_status EmptyString) env tr s = (Ret tt, tr1, s1) /\
    status s' = status s1.
Proof.
  intros He Hlist H. unfold refresh in H.
  apply bind_ret_inv in H. destruct H as ([] & tr1 & s1 & H1 & H).
  pose proof (update_status_core env _ _ _ _ _ _ H1) as Hc1.
  injection Hc1 as _ He1 _ _.
  unfold run at 1, bind at 1, get at 1 in H. rewrite He1, He in H. cbn [negb] in H.
  change (run (_fetch ;; _retrieve_branch ;; _retrieve_local_revision ;;
               _retrieve_remote_revision ;; _retrieve_commit_count ;;
               zoom _requirements_updater set_requirements_updater
                    RequirementsUpdater.refresh ;;
               ret tt) env tr1 s1 = (Ret tt, tr', s')) in H.
  apply bind_ret_inv in H. destruct H as ([] & tr2 & s2 & H2 & H).
  apply fetch_status in H2.
  apply bind_ret_inv in H. destruct H as ([] & tr3 & s3 & H3 & H).
  apply retrieve_branch_status in H3.
  apply bind_ret_inv in H. destruct H as ([] & tr4 & s4 & H4 & H).
  apply retrieve_local_revision_status in H4.
  apply bind_ret_inv in H. destruct H as ([] & tr5 & s5 & H5 & H).
  apply retrieve_remote_revision_status in H5.
  apply bind_ret_inv in H. destruct H as ([] & tr6 & s6 & H6 & H).
  apply (retrieve_commit_count_failed _ _ _ _ (Hlist tr5)) in H6. subst s6.
  apply bind_ret_inv in H. destruct H as (b & tr7 & s7 & H7 & H).
  pose proof (requirements_refresh_core env _ _ _ _ _ H7) as Hc7.
  apply requirements_refresh_status in H7.
  injection H as _ <-. injection Hc7 as _ _ Hb7 Ha7. cbn in Hb7, Ha7.
  split; [unfold commit_count; rewrite Hb7, Ha7; reflexivity |].
  split.
  - unfold needs_update, commit_count. rewrite Hb7.
    destruct (_enabled s7); reflexivity.
  - exists tr1, s1. split; [exact H1 |]. unfold status.
    rewrite H7. cbn [_status set_commit_count]. congruence.
Qed.

(** [_check_remotes] asks git once, or not at all without git. *)
Lemma check_remotes_trace (tr : trace) (s : t) o tr' s' :
  run _check_remotes env tr s = (o, tr', s') ->
  tr' = if _git s then tr ++ [GitRemote] else tr.
Proof.
  destruct (_git s) eqn:Hg.
  - rewrite (run_check_remotes_with_git env tr s Hg).
    destruct (git_remote env tr) as [out | e].
    + destruct (run (scan_remotes (Py.split Py.newline (Py.strip out)))
                    env (tr ++ [GitRemote]) s) as [[o1 tr1] s1] eqn:Hs.
      destruct (scan_remotes_frame env _ _ _ env _ _ _ Hs) as (-> & _ & _).
      destruct o1 as [okay | e]; [| destruct (is_ErrorReturnCode_128 e)];
        intros H; injection H as _ <- _; reflexivity.
    + destruct (is_ErrorReturnCode_128 e); intros H; injection H as _ <- _;
        reflexivity.
  - rewrite (run_check_remotes_without_git env tr s Hg).
    intros H. injection H as _ <- _. reflexivity.
Qed.

Lemma update_status_shape (st : string) (tr : trace) (s : t) o tr' s' :
  run (_update_status st) env tr s = (o, tr', s') ->
  (exists x, s' = set_status x s) /\
  tr' = if _git s then tr ++ [GitRemote] else tr.
Proof.
  unfold _update_status. unfold run at 1, bind at 1, modify at 1.
  unfold bind at 1.
  destruct (_check_enabled env tr (set_status st s)) as [[o1 tr1] s1] eqn:Hc.
  destruct (check_enabled_frame env _ _ _ _ _ Hc) as [-> _].
  assert (Htr : tr1 = if _git s then tr ++ [GitRemote] else tr).
  { destruct (run _check_remotes env tr (set_status st s)) as [[o2 tr2] s2] eqn:Hr.
    pose proof (check_remotes_trace _ _ _ _ _ Hr) as Ht. cbn [_git set_status] in Ht.
    destruct (check_remotes_frame env _ _ _ _ _ Hr) as [-> _].
    pose proof (check_enabled_from_remotes env _ _ _ _ Hr) as Hce.
    unfold run in Hce. rewrite Hce in Hc. injection Hc as _ <-. exact Ht. }
  subst tr1.
  destruct o1 as [[en reason] | e].
  - destruct en; cbn [negb]; unfold bind, get, modify.
    + repeat match goal with
             | |- context [match ?x with _ => _ end] => destruct x
             end;
        intros H; injection H as _ <- <-; (split; [eexists; reflexivity | reflexivity]).
    + intros H; injection H as _ <- <-. split; [eexists; reflexivity | reflexivity].
  - intros H; injection H as _ <- <-. split; [eexists; reflexivity | reflexivity].
Qed.

(** X18.  The [refresh] of a disabled updater does not fetch: at most it
    asks git for the remotes, and it changes nothing but the status. *)
Theorem refresh_of_disabled (tr : trace) (s : t) o tr' s' :
  _enabled s = false ->
  run refresh env tr s = (o, tr', s') ->
  tr' = (if _git s then tr ++ [GitRemote] else tr) /\
  exists x, s' = set_status x s.
Proof.
  intros He. unfold refresh. unfold run at 1, bind at 1.
  destruct (_update_status EmptyString env tr s) as [[o1 tr1] s1] eqn:Hu.
  destruct (update_status_shape _ _ _ _ _ _ Hu) as [[x ->] ->].
  destruct o1 as [[] | e].
  - unfold bind, get. cbn [_enabled set_status]. rewrite He. cbn.
    intros H. injection H as _ <- <-. split; [reflexivity | eexists; reflexivity].
  - intros H. injection H as _ <- <-. split; [reflexivity | eexists; reflexivity].
Qed.

(** X19.  [_retrieve_branch] takes the branch name out of what
    [git symbolic-ref] prints, [refs/heads/<name>] and a newline, for a name
    without white space in which [refs/heads/] does not occur again; on a
    tool error, as with a detached head, the branch is the empty string. *)
Theorem retrieve_branch_name (tr : trace) (s : t) :
  _git s = true ->
  (forall name,
      git_symbolic_ref env tr
      = Ret ("refs/heads/" ++ name ++ String Py.newline EmptyString)%string ->
      no_space name = true ->
      Py.contains "refs/heads/" name = false ->
      run _retrieve_branch env tr s
      = (Ret tt, tr ++ [GitSymbolicRef], set_branch name s)) /\
  (forall c,
      git_symbolic_ref env tr = Raise (ErrorReturnCode c) ->
      run _retrieve_branch env tr s
      = (Ret tt, tr ++ [GitSymbolicRef], set_branch EmptyString s)).
Proof.
  intros Hg. split.
  - intros name Hout Hns Hno.
    unfold _retrieve_branch, git_call, run, try_except, bind, get, call, modify.
    rewrite Hg, Hout.
    assert (Hstrip : Py.strip ("refs/heads/" ++ name ++ String Py.newline EmptyString)
                     = ("refs/heads/" ++ name)%string).
    { unfold Py.strip.
      change (Py.lstrip ("refs/heads/" ++ name ++ String Py.newline EmptyString))
        with (Py.lstrip (String "r"%char
                           ("efs/heads/" ++ name ++ String Py.newline EmptyString))).
      rewrite (lstrip_keeps "r"%char
                 ("efs/heads/" ++ name ++ String Py.newline EmptyString)%string eq_refl).
      change (Py.rstrip (("refs/heads/" ++ name) ++ String Py.newline EmptyString)
              = ("refs/heads/" ++ name)%string).
      apply rstrip_line. rewrite no_space_append, Hns. reflexivity. }
    rewrite Hstrip.
    rewrite (replace_prefix "r"%char "efs/heads/" EmptyString name).
    rewrite (replace_absent _ _ _ Hno). reflexivity.
  - intros c Herr.
    unfold _retrieve_branch, git_call, run, try_except, bind, get, call, modify.
    rewrite Hg, Herr. reflexivity.
Qed.

End RefreshMore.

(** ** [RequirementsUpdater]: what is listed and what is installed *)

Section RequirementsMore.

Import RequirementsUpdater.

Variable env : Env.

Lemma run_normalise_options (tr : trace) (s : t) :
  run (modify (fun s0 : t =>
                 match local_options s0 with
                 | [] => set_local_options [] s0
                 | _ :: _ => s0
                 end)) env tr s = (Ret tt, tr, s).
Proof. unfold run, modify. destruct s as [p lo rl rn]. destruct lo; reflexivity. Qed.

Lemma check_requirement_answer (tr : trace) (s : t) (r : string) :
  lookup_answer (working_set_find env tr r) ->
  run (_check_requirement r) env tr s
  = (Ret (match working_set_find env tr r with Ret dist => dist | Raise _ => None end),
     tr ++ [WorkingSetFind r], s).
Proof.
  unfold lookup_answer, _check_requirement, run, try_except, call.
  destruct (working_set_find env tr r) as [dist | e]; [reflexivity |].
  destruct e; intros H; try contradiction; reflexivity.
Qed.

Variable installed : string -> outcome (option string).
Hypothesis lookups_settled : forall h r, working_set_find env h r = installed r.

Lemma check_loop_settled (reqs : list string) : forall (tr : trace) (s : t),
  (forall r, In r reqs -> lookup_answer (installed r)) ->
  run (for_each reqs
         (fun r =>
            dist <- _check_requirement r ;;
            match dist with
            | Some _ =>
                modify (fun s => set_requirements_needed (requirements_needed s ++ [r]) s)
            | None => ret tt
            end)) env tr s
  = (Ret tt, tr ++ map WorkingSetFind reqs,
     set_requirements_needed
       (requirements_needed s ++ filter (fun r => found (installed r)) reqs) s).
Proof.
  induction reqs as [| r reqs IH]; intros tr s Hans.
  - cbn. rewrite !app_nil_r. destruct s; reflexivity.
  - cbn [for_each filter map].
    assert (Hr : lookup_answer (working_set_find env tr r)).
    { rewrite lookups_settled. apply Hans. left. reflexivity. }
    rewrite (run_bind_ret
               (m := bind _ _) (a := tt) (tr' := tr ++ [WorkingSetFind r])
               (s' := if found (installed r)
                      then set_requirements_needed (requirements_needed s ++ [r]) s
                      else s)).
    + rewrite IH by (intros r' Hin; apply Hans; right; exact Hin).
      rewrite <- app_assoc. cbn [app].
      destruct (found (installed r)).
      * cbn [requirements_needed set_requirements_needed].
        rewrite <- app_assoc. reflexivity.
      * reflexivity.
    + rewrite (run_bind_ret (check_requirement_answer tr s r Hr)).
      rewrite lookups_settled. unfold found.
      destruct (installed r) as [[dist |] | e]; reflexivity.
Qed.

(** X20.  When the answers of [working_set.find] do not change, [refresh]
    lists as needed exactly the requirements that are satisfied; a
    requirement that is missing, or installed in a conflicting version, is
    not listed.  The [update] that follows looks the listed ones up again and
    calls pip for none of them. *)
Theorem refresh_lists_the_satisfied (tr : trace) (s : t) (lines : list string) :
  readlines env tr (path s) = Ret lines ->
  (forall r, In r (map Py.strip lines) -> lookup_answer (installed r)) ->
  let reqs := map Py.strip lines in
  let needed := filter (fun r => found (installed r)) reqs in
  let tr1 := (tr ++ [ReadLines (path s)]) ++ map WorkingSetFind reqs in
  let s1 := set_requirements_needed needed (set_requirement_list reqs s) in
  run refresh env tr s = (Ret (Py.bool_of_list needed), tr1, s1) /\
  run update env tr1 s1 = (Ret true, tr1 ++ map WorkingSetFind needed, s1).
Proof.
  intros Hread Hans reqs needed tr1 s1. split.
  - unfold refresh, _check_requirements.
    rewrite (run_bind_ret (a := false) (tr' := tr1) (s' := s1)).
    + reflexivity.
    + apply run_try_ret.
      rewrite (run_bind_ret (m := get) (a := s) (tr' := tr) (s' := s) eq_refl).
      rewrite (run_bind_ret (a := lines) (tr' := tr ++ [ReadLines (path s)]) (s' := s));
        [| rewrite run_call, Hread; reflexivity].
      rewrite (run_bind_ret (m := modify _) (a := tt) eq_refl).
      rewrite (run_bind_ret (m := modify _) (a := tt) eq_refl).
      rewrite (run_bind_ret (m := get) eq_refl).
      cbn [requirement_list set_requirements_needed set_requirement_list].
      fold reqs.
      rewrite (run_bind_ret (check_loop_settled reqs _ _ Hans)). reflexivity.
  - unfold update.
    rewrite (run_bind_ret (m := get) (a := s1) (tr' := tr1) (s' := s1) eq_refl).
    apply update_from_satisfied.
    intros h r Hin. unfold needed in Hin. apply filter_In in Hin.
    destruct Hin as [_ Hf]. rewrite lookups_settled. unfold found in Hf.
    destruct (installed r) as [[dist |] | e]; try discriminate Hf.
    exists dist. reflexivity.
Qed.

End RequirementsMore.

(** ** [RequirementsUpdater]: the install of one requirement *)

Section InstallRequirement.

Import RequirementsUpdater.

Variable env : Env.

Lemma run_install_missing (tr : trace) (s : t) (r : string) :
  working_set_find env tr r = Ret None ->
  run (_install_requirement r) env tr s
  = run (failure <-
           try_except
             (call (PipFromLine r) (fun env tr => pip_from_line env tr r) ;;
              try_except
                (call (PipPrepareFiles r) (fun env tr => pip_prepare_files env tr r))
                (fun e =>
                   match e with
                   | PreviousBuildDirError =>
                       Some (call (Rmtree r) (fun env tr => rmtree env tr r) ;;
                             call (PipPrepareFiles r)
                                  (fun env tr => pip_prepare_files env tr r))
                   | _ => None
                   end) ;;
              s <- get ;;
              call (PipInstall r (local_options s))
                   (fun env tr => pip_install env tr r (local_options s)) ;;
              ret None)
             (fun e => Some (ret (Some e))) ;;
         match failure with
         | Some err => ret (false, Some err)
         | None =>
             call (WorkingSetRequire r) (fun env tr => working_set_require env tr r) ;;
             ret (true, None)
         end) env (tr ++ [WorkingSetFind r]) s.
Proof.
  intros Hf. unfold _install_requirement.
  rewrite (run_bind_ret (run_normalise_options env tr s)).
  assert (Ha : lookup_answer (working_set_find env tr r)) by (rewrite Hf; exact I).
  rewrite (run_bind_ret (check_requirement_answer env tr s r Ha)), Hf. reflexivity.
Qed.

(** X21.  A requirement that is not installed is parsed, prepared,
    installed with the options of the updater and then required, in this
    order, and the result is [(True, None)].  The options are [--user]
    exactly when the process runs outside a virtualenv and not as root. *)
Theorem install_requirement_installs (tr : trace) (s : t) (r : string) :
  working_set_find env tr r = Ret None ->
  pip_from_line env (tr ++ [WorkingSetFind r]) r = Ret tt ->
  pip_prepare_files env (tr ++ [WorkingSetFind r; PipFromLine r]) r = Ret tt ->
  pip_install env (tr ++ [WorkingSetFind r; PipFromLine r; PipPrepareFiles r])
              r (local_options s) = Ret tt ->
  working_set_require env
    (tr ++ [WorkingSetFind r; PipFromLine r; PipPrepareFiles r;
            PipInstall r (local_options s)]) r = Ret tt ->
  run (_install_requirement r) env tr s
  = (Ret (true, None),
     tr ++ [WorkingSetFind r; PipFromLine r; PipPrepareFiles r;
            PipInstall r (local_options s); WorkingSetRequire r], s) /\
  forall path,
    local_options (__init__ env path)
    = if (has_real_prefix env || Z.eqb (geteuid env) 0)%bool then [] else ["--user"].
Proof.
  intros Hf Hl Hp Hi Hq. split.
  - rewrite (run_install_missing tr s r Hf).
    unfold run, bind, try_except, call, get, ret.
    rewrite Hl. rewrite <- ?app_assoc; cbn [app].
    rewrite Hp. rewrite <- ?app_assoc; cbn [app].
    rewrite Hi. rewrite <- ?app_assoc; cbn [app].
    rewrite Hq. reflexivity.
  - intros path. unfold __init__, _get_local_options. cbn [local_options].
    destruct (has_real_prefix env), (Z.eqb (geteuid env) 0); reflexivity.
Qed.

(** X22.  When pip finds the build directory of an earlier run, the
    directory is removed and the files are prepared a second time; the
    install then goes on as usual.  When the second attempt fails as well,
    the result is [(False, err)] with its error, and nothing is installed. *)
Theorem install_requirement_retries (tr : trace) (s : t) (r : string) :
  working_set_find env tr r = Ret None ->
  pip_from_line env (tr ++ [WorkingSetFind r]) r = Ret tt ->
  pip_prepare_files env (tr ++ [WorkingSetFind r; PipFromLine r]) r
  = Raise PreviousBuildDirError ->
  rmtree env (tr ++ [WorkingSetFind r; PipFromLine r; PipPrepareFiles r]) r = Ret tt ->
  (pip_prepare_files env
     (tr ++ [WorkingSetFind r; PipFromLine r; PipPrepareFiles r; Rmtree r]) r = Ret tt ->
   pip_install env
     (tr ++ [WorkingSetFind r; PipFromLine r; PipPrepareFiles r; Rmtree r;
             PipPrepareFiles r]) r (local_options s) = Ret tt ->
   working_set_require env
     (tr ++ [WorkingSetFind r; PipFromLine r; PipPrepareFiles r; Rmtree r;
             PipPrepareFiles r; PipInstall r (local_options s)]) r = Ret tt ->
   run (_install_requirement r) env tr s
   = (Ret (true, None),
      tr ++ [WorkingSetFind r; PipFromLine r; PipPrepareFiles r; Rmtree r;
             PipPrepareFiles r; PipInstall r (local_options s); WorkingSetRequire r],
      s)) /\
  (forall e,
      pip_prepare_files env
        (tr ++ [WorkingSetFind r; PipFromLine r; PipPrepareFiles r; Rmtree r]) r
      = Raise e ->
      run (_install_requirement r) env tr s
      = (Ret (false, Some e),
         tr ++ [WorkingSetFind r; PipFromLine r; PipPrepareFiles r; Rmtree r;
                PipPrepareFiles r], s)).
Proof.
  intros Hf Hl Hp Hrm. split.
  - intros Hp2 Hi Hq.
    rewrite (run_install_missing tr s r Hf).
    unfold run, bind, try_except, call, get, ret.
    rewrite Hl. rewrite <- ?app_assoc; cbn [app].
    rewrite Hp. rewrite <- ?app_assoc; cbn [app].
    rewrite Hrm. rewrite <- ?app_assoc; cbn [app].
    rewrite Hp2. rewrite <- ?app_assoc; cbn [app].
    rewrite Hi. rewrite <- ?app_assoc; cbn [app].
    rewrite Hq. reflexivity.
  - intros e Hp2.
    rewrite (run_install_missing tr s r Hf).
    unfold run, bind, try_except, call, get, ret.
    rewrite Hl. rewrite <- ?app_assoc; cbn [app].
    rewrite Hp. rewrite <- ?app_assoc; cbn [app].
    rewrite Hrm. rewrite <- ?app_assoc; cbn [app].
    rewrite Hp2. reflexivity.
Qed.

(** Whatever pip does, the [try] of [_install_requirement] returns: its
    handler takes every exception. *)
Lemma guarded_install_returns (r : string) (tr : trace) (s : t) :
  exists failure tr' s',
    run (try_except
           (call (PipFromLine r) (fun env tr => pip_from_line env tr r) ;;
            try_except
              (call (PipPrepareFiles r) (fun env tr => pip_prepare_files env tr r))
              (fun e =>
                 match e with
                 | PreviousBuildDirError =>
                     Some (call (Rmtree r) (fun env tr => rmtree env tr r) ;;
                           call (PipPrepareFiles r)
                                (fun env tr => pip_prepare_files env tr r))
                 | _ => None
                 end) ;;
            s <- get ;;
            call (PipInstall r (local_options s))
                 (fun env tr => pip_install env tr r (local_options s)) ;;
            ret None)
           (fun e => Some (ret (Some e)))) env tr s
    = (Ret failure, tr', s').
Proof.
  unfold run, try_except.
  match goal with
  | |- context [match ?body env tr s with _ => _ end] =>
      destruct (body env tr s) as [[[a | e] tr0] s0]
  end; do 3 eexists; reflexivity.
Qed.

(** X23.  When [working_set.find] answers or fails as [_check_requirement]
    expects and [working_set.require] returns, [update] always returns:
    whatever pip raises while a requirement is parsed, prepared or installed
    is turned into the result [False]. *)
Theorem requirements_update_always_returns :
  (forall h r, lookup_answer (working_set_find env h r)) ->
  (forall h r, working_set_require env h r = Ret tt) ->
  always_returns env update.
Proof.
  intros Hfind Hreq tr s. unfold update.
  rewrite (run_bind_ret (m := get) (a := s) (tr' := tr) (s' := s) eq_refl).
  generalize (requirements_needed s) as needed. intros needed. revert tr s.
  induction needed as [| r needed IH]; intros tr s.
  - do 3 eexists. reflexivity.
  - cbn [update_from].
    assert (Hinst : exists res tr' s',
               run (_install_requirement r) env tr s = (Ret res, tr', s')).
    { unfold _install_requirement.
      rewrite (run_bind_ret (run_normalise_options env tr s)).
      rewrite (run_bind_ret (check_requirement_answer env tr s r (Hfind tr r))).
      destruct (working_set_find env tr r) as [[dist |] | e0].
      - do 3 eexists. reflexivity.
      - destruct (guarded_install_returns r (tr ++ [WorkingSetFind r]) s)
          as (failure & tr1 & s1 & Hg).
        rewrite (run_bind_ret Hg). destruct failure as [err |].
        + do 3 eexists. reflexivity.
        + unfold run, bind, call, ret. rewrite Hreq. do 3 eexists. reflexivity.
      - destruct (guarded_install_returns r (tr ++ [WorkingSetFind r]) s)
          as (failure & tr1 & s1 & Hg).
        rewrite (run_bind_ret Hg). destruct failure as [err |].
        + do 3 eexists. reflexivity.
        + unfold run, bind, call, ret. rewrite Hreq. do 3 eexists. reflexivity. }
    destruct Hinst as ([ok msg] & tr1 & s1 & Hinst).
    rewrite (run_bind_ret Hinst). cbn [fst].
    destruct ok; [apply IH | do 3 eexists; reflexivity].
Qed.

(** X24.  [update] stops at the first requirement that fails: when the
    requirements before it are satisfied and pip cannot prepare it, [update]
    returns [False], and the requirements after it are neither looked up nor
    installed. *)
Theorem requirements_update_stops_at_failure
        (tr : trace) (s : t) (before : list string) (r : string) (after : list string)
        (e : exn) :
  requirements_needed s = before ++ r :: after ->
  all_satisfied env before ->
  working_set_find env (tr ++ map WorkingSetFind before) r = Ret None ->
  pip_from_line env ((tr ++ map WorkingSetFind before) ++ [WorkingSetFind r]) r
  = Ret tt ->
  pip_prepare_files env
    ((tr ++ map WorkingSetFind before) ++ [WorkingSetFind r; PipFromLine r]) r
  = Raise e ->
  e <> PreviousBuildDirError ->
  run update env tr s
  = (Ret false,
     (tr ++ map WorkingSetFind before)
       ++ [WorkingSetFind r; PipFromLine r; PipPrepareFiles r], s).
Proof.
  intros Hneeded Hsat Hf Hl Hp Hne. unfold update.
  rewrite (run_bind_ret (m := get) (a := s) (tr' := tr) (s' := s) eq_refl).
  rewrite Hneeded. clear Hneeded.
  revert tr Hf Hl Hp. induction before as [| b before IH]; intros tr Hf Hl Hp.
  - cbn [app map] in *. rewrite app_nil_r in *. cbn [update_from].
    rewrite (run_bind_ret (a := (false, Some e))
               (tr' := tr ++ [WorkingSetFind r; PipFromLine r; PipPrepareFiles r])
               (s' := s)); [reflexivity |].
    rewrite (run_install_missing tr s r Hf).
    unfold run, bind, try_except, call, get, ret.
    rewrite Hl. rewrite <- ?app_assoc; cbn [app].
    rewrite Hp. destruct e; try reflexivity. contradiction.
  - destruct (Hsat tr b (or_introl eq_refl)) as [dist Hd].
    cbn [app update_from].
    rewrite (run_bind_ret (install_requirement_satisfied env tr s b dist Hd)).
    cbn [fst map] in *.
    rewrite (IH (fun h r' Hin => Hsat h r' (or_intror Hin)) (tr ++ [WorkingSetFind b])).
    + rewrite <- !app_assoc. reflexivity.
    + rewrite <- app_assoc. exact Hf.
    + rewrite <- !app_assoc in *. exact Hl.
    + rewrite <- !app_assoc in *. exact Hp.
Qed.

End InstallRequirement.

(** ** [before_request] *)

Section SetupHook.

Import App.

Variable k : constants.

(** X25.  A redirect of the hook does not loop: when the page of each stage
    is an endpoint of that stage, the request for the page a request was
    redirected to, made in the setup blueprint at the same stage, goes
    through. *)
Theorem redirect_is_admitted (setup_stage : option Z) (request : request)
        (page : string) :
  pages_agree k ->
  before_request k (Ret setup_stage) request = Ret (Some (Redirect page)) ->
  before_request k (Ret setup_stage)
                 {| blueprint := Some "setup"; endpoint := Some page |}
  = Ret None.
Proof.
  intros Hagree. unfold before_request, redirect_to_stage.
  cbn [blueprint endpoint revision_eqb]. rewrite String.eqb_refl.
  destruct setup_stage as [stage |].
  - assert (Hpage : SETUP_STAGE_ENDPOINT k stage = Some page ->
                    match SETUP_ENDPOINT_STAGE k (Some page) with
                    | Some endpoint_stage =>
                        if Z.ltb stage endpoint_stage
                        then match SETUP_STAGE_ENDPOINT k stage with
                             | Some stage_page => Ret (Some (Redirect stage_page))
                             | None => Raise KeyError
                             end
                        else Ret None
                    | None => Raise KeyError
                    end = Ret None).
    { intros Hp. rewrite (Hagree stage page Hp), Z.ltb_irrefl. reflexivity. }
    intros H. apply Hpage. revert H. clear Hpage.
    destruct (revision_eqb (blueprint request) (Some "setup")).
    + destruct (SETUP_ENDPOINT_STAGE k (endpoint request)) as [n |];
        [| intros H; discriminate H].
      destruct (Z.ltb stage n); [| intros H; discriminate H].
      destruct (SETUP_STAGE_ENDPOINT k stage) as [p |]; intros H; [| discriminate H].
      injection H as ->. reflexivity.
    + destruct (negb (existsb _ safe_blueprints)); [| intros H; discriminate H].
      destruct (negb (Z.eqb stage (SETUP_COMPLETE k))); [| intros H; discriminate H].
      destruct (SETUP_STAGE_ENDPOINT k stage) as [p |]; intros H; [| discriminate H].
      injection H as ->. reflexivity.
  - destruct (revision_eqb (blueprint request) (Some "setup")).
    + destruct (negb _ && negb _)%bool; intros H; [| discriminate H].
      injection H as <-. reflexivity.
    + destruct (negb (existsb _ safe_blueprints)); intros H; [| discriminate H].
      injection H as <-. reflexivity.
Qed.

(** X26.  Inside the wizard one may go back but not ahead: a request of
    the setup blueprint that goes through at a stage goes through at every
    later stage, and one for an endpoint of a later stage is redirected to
    the page of the current stage. *)
Theorem setup_pages_stay_open (stage later : Z) (request : request) :
  blueprint request = Some "setup" ->
  (before_request k (Ret (Some stage)) request = Ret None ->
   (stage <= later)%Z ->
   before_request k (Ret (Some later)) request = Ret None) /\
  (forall endpoint_stage,
      SETUP_ENDPOINT_STAGE k (endpoint request) = Some endpoint_stage ->
      (stage < endpoint_stage)%Z ->
      before_request k (Ret (Some stage)) request = redirect_to_stage k stage).
Proof.
  intros Hb. unfold before_request. rewrite Hb.
  cbn [revision_eqb]. rewrite String.eqb_refl. split.
  - destruct (SETUP_ENDPOINT_STAGE k (endpoint request)) as [n |]; [| discriminate].
    destruct (Z.ltb_spec stage n) as [Hlt | Hge].
    + unfold redirect_to_stage. destruct (SETUP_STAGE_ENDPOINT k stage); discriminate.
    + intros _ Hle. destruct (Z.ltb_spec later n) as [Hlt | _]; [lia | reflexivity].
  - intros n -> Hlt. apply Z.ltb_lt in Hlt. rewrite Hlt. reflexivity.
Qed.

(** X27.  Until the setup is complete no request outside the setup
    wizard, the socket and the static files goes through; once it is
    complete every request outside the wizard does.  The socket and the
    static files go through even when the stage cannot be read. *)
Theorem setup_gates_the_application (setup_stage : outcome (option Z))
        (request : request) :
  blueprint request <> Some "setup" ->
  (existsb (revision_eqb (blueprint request)) safe_blueprints = false ->
   (before_request k setup_stage request = Ret None <->
    setup_stage = Ret (Some (SETUP_COMPLETE k)))) /\
  (existsb (revision_eqb (blueprint request)) safe_blueprints = true ->
   before_request k setup_stage request = Ret None).
Proof.
  intros Hb. unfold before_request.
  assert (Hne : revision_eqb (blueprint request) (Some "setup") = false).
  { destruct (revision_eqb (blueprint request) (Some "setup")) eqn:E; [| reflexivity].
    apply revision_eqb_eq in E. contradiction. }
  rewrite Hne. split; intros ->; cbn [negb]; [| reflexivity].
  destruct setup_stage as [[stage |] | e].
  - destruct (Z.eqb_spec stage (SETUP_COMPLETE k)) as [-> | Hs]; cbn [negb].
    + split; reflexivity.
    + unfold redirect_to_stage. split.
      * destruct (SETUP_STAGE_ENDPOINT k stage); discriminate.
      * intros H. injection H as H. contradiction.
  - split; discriminate.
  - split; discriminate.
Qed.

End SetupHook.

(** * The further properties at work *)

Lemma update_by_name_witness :
  (exists s',
      run (Updater.update (Some "webapp")) healthy [] updater2
      = (Ret [(Some "webapp", PASS)],
         [GitMerge "origin/master"; DbConnect; GetCurrentRevision; GetCurrentHead;
          DbClose; WalkRevisions (Some "a1") (Some "b2"); AlembicUpgrade "b2"], s') /\
      Updater.lookup "ser2sock" (Updater._components s') = Some webapp0) /\
  run (Updater.update (Some "alarmdecoder")) healthy [] updater2
  = (Raise KeyError, [], updater2).
Proof.
  destruct (update_by_name healthy [] updater2 "webapp") as [Hfound _].
  destruct (update_by_name healthy [] updater2 "alarmdecoder") as [_ Hmissing].
  split; [| exact (Hmissing eq_refl)].
  destruct (Hfound webapp0 PASS _ webapp0 eq_refl eq_refl) as (s' & Hrun & _ & Hother & _).
  exists s'. split; [exact Hrun |].
  rewrite (Hother "ser2sock"); [reflexivity | discriminate].
Defined.

(** Two components: both are refreshed, the second from the calls of the
    first, and each entry is the status its refresh left. *)
Lemma check_updates_entries_witness :
  exists cs' tr',
    run Updater.check_updates healthy [] updater2
    = (Ret (status_dict cs'), tr', {| Updater._components := cs' |}) /\
    refreshed_in_turn healthy [] (Updater._components updater2) tr' cs' /\
    map fst (status_dict cs') = [Some "webapp"; Some "ser2sock"].
Proof.
  destruct (run Updater.check_updates healthy [] updater2) as [[o tr'] s'] eqn:Hrun.
  assert (Ho : exists status, o = Ret status).
  { vm_compute in Hrun. injection Hrun as <- _ _. eexists. reflexivity. }
  destruct Ho as [status ->].
  assert (Hnd : NoDup (map fst (Updater._components updater2))).
  { cbn. constructor; [intros [H | []]; discriminate H |].
    constructor; [intros [] | constructor]. }
  destruct (proj1 (check_updates_entries healthy [] updater2 status tr' s' Hnd) Hrun)
    as (cs' & Hturn & -> & ->).
  exists cs', tr'. split; [reflexivity |]. split; [exact Hturn |].
  inversion Hturn as [| ? ? ? ? ? ? ? cs1 _ Hrest]; subst.
  inversion Hrest as [| ? ? ? ? ? ? ? cs2 _ Hlast]; subst.
  inversion Hlast; subst. reflexivity.
Defined.

Lemma DBUpdater_refresh_returns_witness :
  exists cur head,
    get_current_revision healthy [DbConnect] = Ret cur /\
    get_current_head healthy [DbConnect; GetCurrentRevision] = Ret head /\
    run DBUpdater.needs_update healthy
        [DbConnect; GetCurrentRevision; GetCurrentHead; DbClose] database0
    = (Ret (negb (revision_eqb cur head)),
       [DbConnect; GetCurrentRevision; GetCurrentHead; DbClose], database0).
Proof.
  destruct (DBUpdater_refresh_returns healthy [] database0 true
              [DbConnect; GetCurrentRevision; GetCurrentHead; DbClose] database0 eq_refl)
    as (_ & _ & cur & head & Hc & Hh & Hs & Hn).
  exists cur, head. split; [exact Hc |]. split; [exact Hh | exact Hn].
Defined.

Lemma DBUpdater_refresh_leaves_connection_open_witness :
  DBUpdater._connection (DBUpdater.set_connection true database0) = true /\
  ~ In DbClose (skipn (List.length (@nil command)) [DbConnect; GetCurrentRevision]).
Proof.
  destruct (DBUpdater_refresh_leaves_connection_open database_gone [] database0
              (OperationalError "no such table: alembic_version")
              [DbConnect; GetCurrentRevision]
              (DBUpdater.set_connection true database0) eq_refl eq_refl)
    as [Hopen Hclose].
  split; [exact Hopen | exact (Hclose eq_refl)].
Defined.

Lemma DBUpdater_update_stops_at_failed_stamp_witness :
  run DBUpdater.update locked_two_pending [] database_behind
  = (Ret false,
     [WalkRevisions (Some "a1") (Some "c3"); AlembicUpgrade "b2"; AlembicStamp "b2"],
     database_behind).
Proof.
  apply (DBUpdater_update_stops_at_failed_stamp locked_two_pending [] database_behind
           (Some "a1") (Some "c3") ["c3"; "b2"; "a1"] "b2" ["c3"]
           "table zones already exists" "database is locked").
  - reflexivity.
  - reflexivity.
  - discriminate.
  - reflexivity.
  - reflexivity.
  - reflexivity.
  - reflexivity.
  - reflexivity.
Defined.

Lemma update_before_refresh_witness :
  exists u,
    run (Updater.__init__ (S := unit)) healthy [] tt = (Ret u, [GitRemote], tt) /\
    run (Updater.update (Some "webapp")) healthy [GitRemote] u
    = (Raise AttributeError, [GitRemote], u).
Proof.
  destruct (run (Updater.__init__ (S := unit)) healthy [] tt) as [[o tr1] []] eqn:Hinit.
  assert (Ho : exists u, o = Ret u /\ tr1 = [GitRemote]).
  { vm_compute in Hinit. injection Hinit as <- <-. eexists. split; reflexivity. }
  destruct Ho as (u & -> & ->).
  exists u. split; [reflexivity |].
  exact (proj2 (update_before_refresh healthy []) u [GitRemote] Hinit).
Defined.

Lemma source_failure_is_compensated_witness :
  run WebappUpdater.update (conflicting (Ret tt)) [] webapp0
  = (Ret FAIL,
     [GitMerge "origin/master"; AlembicDowngrade (Some "a1"); GitReset (Some "5f2c1d7")],
     webapp0).
Proof.
  exact (proj1 (source_failure_is_compensated (conflicting (Ret tt)) [] webapp0
                  (Some "a1")
                  [GitMerge "origin/master"] webapp0
                  [GitMerge "origin/master"; AlembicDowngrade (Some "a1")] webapp0
                  [GitMerge "origin/master"; AlembicDowngrade (Some "a1");
                   GitReset (Some "5f2c1d7")] webapp0
                  eq_refl eq_refl eq_refl eq_refl eq_refl)).
Defined.

(** The source updater is disabled and holds no local revision.  With git
    the database is downgraded and the checkout reset to [None]; without
    git the downgrade is the last call and [update] raises. *)
Lemma update_of_disabled_source_witness :
  run WebappUpdater.update healthy [] webapp_disabled_source
  = (Ret FAIL, [AlembicDowngrade (Some "a1"); GitReset None], webapp_disabled_source) /\
  run WebappUpdater.update healthy [] webapp_without_git
  = (Raise TypeError, [AlembicDowngrade (Some "a1")], webapp_without_git).
Proof.
  split.
  - apply (proj1 (update_of_disabled_source healthy [] webapp_disabled_source
                    (Some "a1") eq_refl eq_refl eq_refl eq_refl)).
    + reflexivity.
    + left. reflexivity.
  - apply (proj2 (update_of_disabled_source healthy [] webapp_without_git
                    (Some "a1") eq_refl eq_refl eq_refl eq_refl)).
    reflexivity.
Defined.

Lemma update_result_inv_witness :
  exists tr1 s1 (b : bool) tr2 s2,
    run (WebappUpdater.source SourceUpdater.update) healthy [] webapp0
    = (Ret true, tr1, s1) /\
    run (WebappUpdater.db DBUpdater.refresh) healthy tr1 s1 = (Ret b, tr2, s2) /\
    run (WebappUpdater.db DBUpdater.update) healthy tr2 s2
    = (Ret true,
       [GitMerge "origin/master"; DbConnect; GetCurrentRevision; GetCurrentHead;
        DbClose; WalkRevisions (Some "a1") (Some "b2"); AlembicUpgrade "b2"],
       webapp0).
Proof.
  exact (proj2 (update_result_inv healthy [] webapp0 PASS
                  [GitMerge "origin/master"; DbConnect; GetCurrentRevision;
                   GetCurrentHead; DbClose; WalkRevisions (Some "a1") (Some "b2");
                   AlembicUpgrade "b2"] webapp0 eq_refl) eq_refl).
Defined.

Lemma webapp_refresh_sets_revisions_witness :
  exists cur head tr1,
    DBUpdater._current_revision (WebappUpdater._db_updater webapp0) = Some cur /\
    DBUpdater._newest_revision (WebappUpdater._db_updater webapp0) = Some head /\
    DBUpdater._connection (WebappUpdater._db_updater webapp0) = false /\
    [GitRemote; GitFetch; GitSymbolicRef; GitRevParseHead; GitRevParseUpstream;
     GitRevList; GitRemote; ReadLines "requirements.txt"; DbConnect;
     GetCurrentRevision; GetCurrentHead; DbClose]
    = tr1 ++ [DbConnect; GetCurrentRevision; GetCurrentHead; DbClose] /\
    WebappUpdater._enabled webapp0 = true.
Proof.
  exact (proj1 (webapp_refresh_sets_revisions healthy [] webapp0)
               [GitRemote; GitFetch; GitSymbolicRef; GitRevParseHead;
                GitRevParseUpstream; GitRevList; GitRemote;
                ReadLines "requirements.txt"; DbConnect; GetCurrentRevision;
                GetCurrentHead; DbClose] webapp0 eq_refl eq_refl).
Defined.

(** The merge is killed by a timeout, which is no [ErrorReturnCode]: the
    exception goes through [update]. *)
Lemma source_update_raises_no_tool_error_witness :
  run SourceUpdater.update (merging (Raise (OtherException "TimeoutException"))) []
      source0
  = (Raise (OtherException "TimeoutException"), [GitMerge "origin/master"], source0) /\
  is_ErrorReturnCode (OtherException "TimeoutException") = false.
Proof.
  split; [reflexivity |].
  exact (source_update_raises_no_tool_error
           (merging (Raise (OtherException "TimeoutException"))) [] source0
           (OtherException "TimeoutException") [GitMerge "origin/master"] source0
           eq_refl).
Defined.

Lemma source_update_outcomes_witness :
  run SourceUpdater.update (merging (Raise (ErrorReturnCode 1))) [] source0
  = (Ret false, [GitMerge "origin/master"], source0) /\
  run SourceUpdater.update healthy [] source0
  = (Ret true, [GitMerge "origin/master"], source0).
Proof.
  split.
  - exact (proj1 (proj2 (source_update_outcomes (merging (Raise (ErrorReturnCode 1)))
                           [] source0)) 1%Z eq_refl eq_refl eq_refl).
  - exact (proj2 (proj2 (source_update_outcomes healthy [] source0))
                 true [GitMerge "origin/master"] source0
                 eq_refl eq_refl eq_refl eq_refl).
Defined.

Lemma init_without_remotes_witness :
  run (SourceUpdater.__init__ "webapp") no_remotes [] tt
  = (Raise ValueError, [GitRemote], tt).
Proof.
  exact (init_without_remotes no_remotes "webapp" [] tt EmptyString
           eq_refl eq_refl eq_refl).
Defined.

Lemma init_when_git_remote_fails_witness :
  exists su,
    run (SourceUpdater.__init__ "webapp") not_a_repository [] tt
    = (Ret su, [GitRemote], tt) /\
    SourceUpdater._enabled su = false /\
    SourceUpdater.status su = "Disabled (SSH origin)" /\
    SourceUpdater.needs_update su = false.
Proof.
  exact (proj1 (init_when_git_remote_fails not_a_repository "webapp" [] tt 128
                  eq_refl eq_refl) eq_refl).
Defined.

Lemma init_over_https_witness :
  exists su,
    run (SourceUpdater.__init__ "webapp") healthy [] tt = (Ret su, [GitRemote], tt) /\
    SourceUpdater._enabled su = true /\ SourceUpdater.status su = EmptyString /\
    SourceUpdater.commit_count su = (Some 0%Z, Some 0%Z) /\
    SourceUpdater.needs_update su = false.
Proof.
  apply (init_over_https healthy "webapp" [] tt https_remotes).
  - reflexivity.
  - reflexivity.
  - discriminate.
  - reflexivity.
  - reflexivity.
Defined.

Lemma init_without_git_witness :
  exists su,
    run (SourceUpdater.__init__ "webapp") (without_git healthy) [] tt
    = (Ret su, [], tt) /\
    SourceUpdater._enabled su = false /\
    SourceUpdater.status su = "Disabled (Git is unavailable)" /\
    SourceUpdater.needs_update su = false /\
    (forall tr', run SourceUpdater.refresh (without_git healthy) tr' su
                 = (Ret tt, tr', su)) /\
    (forall tr', run SourceUpdater.update (without_git healthy) tr' su
                 = (Ret false, tr', su)).
Proof.
  exact (init_without_git (without_git healthy) "webapp" [] tt eq_refl).
Defined.

(** The updater was two commits behind; the branch has lost its upstream.
    After the refresh nothing is to be updated, and the status still tells
    of two commits behind. *)
Lemma refresh_when_rev_list_fails_witness :
  exists tr' s',
    run SourceUpdater.refresh no_upstream [] source0 = (Ret tt, tr', s') /\
    SourceUpdater.commit_count s' = (Some 0%Z, Some 0%Z) /\
    SourceUpdater.needs_update s' = false /\
    SourceUpdater.status s' = "2 commits behind, 1 commit ahead".
Proof.
  destruct (run SourceUpdater.refresh no_upstream [] source0) as [[o tr'] s'] eqn:Hrun.
  assert (Ho : o = Ret tt /\ SourceUpdater._status s' = "2 commits behind, 1 commit ahead").
  { vm_compute in Hrun. injection Hrun as <- _ <-. split; reflexivity. }
  destruct Ho as [-> Hst].
  destruct (refresh_when_rev_list_fails no_upstream [] source0 tr' s' eq_refl
              (fun _ => ex_intro _ 128%Z eq_refl) Hrun) as (Hc & Hn & _).
  exists tr', s'. split; [reflexivity |]. split; [exact Hc |]. split; [exact Hn | exact Hst].
Defined.

Lemma refresh_of_disabled_witness :
  exists x,
    SourceUpdater.set_status "Up to date!" source_disabled
    = SourceUpdater.set_status x source_disabled.
Proof.
  exact (proj2 (refresh_of_disabled healthy [] source_disabled (Ret tt) [GitRemote]
                  (SourceUpdater.set_status "Up to date!" source_disabled)
                  eq_refl eq_refl)).
Defined.

Lemma retrieve_branch_name_witness :
  run SourceUpdater._retrieve_branch (on_branch "feature/zones") [] source0
  = (Ret tt, [GitSymbolicRef], SourceUpdater.set_branch "feature/zones" source0).
Proof.
  exact (proj1 (retrieve_branch_name (on_branch "feature/zones") [] source0 eq_refl)
               "feature/zones" eq_refl eq_refl eq_refl).
Defined.

(** Flask is installed, sh is missing, pyftdi conflicts: Flask alone is
    listed, and the update installs nothing. *)
Lemma refresh_lists_the_satisfied_witness :
  let tr1 := [ReadLines "requirements.txt"; WorkingSetFind "Flask==0.10.1";
              WorkingSetFind "sh"; WorkingSetFind "pyftdi>=0.9"] in
  let s1 := RequirementsUpdater.set_requirements_needed ["Flask==0.10.1"]
              (RequirementsUpdater.set_requirement_list
                 ["Flask==0.10.1"; "sh"; "pyftdi>=0.9"] requirements0) in
  run RequirementsUpdater.refresh mixed [] requirements0 = (Ret true, tr1, s1) /\
  run RequirementsUpdater.update mixed tr1 s1
  = (Ret true, tr1 ++ [WorkingSetFind "Flask==0.10.1"], s1).
Proof.
  apply (refresh_lists_the_satisfied mixed mixed_installed (fun _ _ => eq_refl)
           [] requirements0 mixed_lines eq_refl).
  intros r [<- | [<- | [<- | []]]]; exact I.
Defined.

Lemma install_requirement_installs_witness :
  run (RequirementsUpdater._install_requirement "sh") healthy [] requirements_missing
  = (Ret (true, None),
     [WorkingSetFind "sh"; PipFromLine "sh"; PipPrepareFiles "sh";
      PipInstall "sh" ["--user"]; WorkingSetRequire "sh"], requirements_missing) /\
  RequirementsUpdater.local_options
    (RequirementsUpdater.__init__ healthy "requirements.txt") = ["--user"].
Proof.
  destruct (install_requirement_installs healthy [] requirements_missing "sh"
              eq_refl eq_refl eq_refl eq_refl eq_refl) as [Hrun Hopts].
  split; [exact Hrun | exact (Hopts "requirements.txt")].
Defined.

Lemma install_requirement_retries_witness :
  run (RequirementsUpdater._install_requirement "sh") stale_build [] requirements_missing
  = (Ret (true, None),
     [WorkingSetFind "sh"; PipFromLine "sh"; PipPrepareFiles "sh"; Rmtree "sh";
      PipPrepareFiles "sh"; PipInstall "sh" ["--user"]; WorkingSetRequire "sh"],
     requirements_missing).
Proof.
  exact (proj1 (install_requirement_retries stale_build [] requirements_missing "sh"
                  eq_refl eq_refl eq_refl eq_refl) eq_refl eq_refl eq_refl).
Defined.

Lemma requirements_update_always_returns_witness :
  exists a tr' s',
    run RequirementsUpdater.update offline [] requirements_missing = (Ret a, tr', s').
Proof.
  exact (requirements_update_always_returns offline
           (fun _ _ => I) (fun _ _ => eq_refl) [] requirements_missing).
Defined.

(** The index cannot be reached: sh fails, and pyftdi is not tried. *)
Lemma requirements_update_stops_at_failure_witness :
  run RequirementsUpdater.update offline [] requirements_missing
  = (Ret false, [WorkingSetFind "sh"; PipFromLine "sh"; PipPrepareFiles "sh"],
     requirements_missing).
Proof.
  apply (requirements_update_stops_at_failure offline [] requirements_missing
           [] "sh" ["pyftdi"] (OtherException "DistributionNotFound")).
  - reflexivity.
  - intros h r [].
  - reflexivity.
  - reflexivity.
  - reflexivity.
  - discriminate.
Defined.

(** A request for the log, at the second stage of the wizard, is sent to
    the page of that stage, which lets it in. *)
Lemma redirect_is_admitted_witness :
  App.before_request wizard (Ret (Some 1%Z))
    {| App.blueprint := Some "log"; App.endpoint := Some "log.events" |}
  = Ret (Some (App.Redirect "setup.device")) /\
  App.before_request wizard (Ret (Some 1%Z))
    {| App.blueprint := Some "setup"; App.endpoint := Some "setup.device" |}
  = Ret None.
Proof.
  split; [reflexivity |].
  apply (redirect_is_admitted wizard (Some 1%Z)
           {| App.blueprint := Some "log"; App.endpoint := Some "log.events" |}
           "setup.device").
  - intros stage page. unfold wizard. cbn [App.SETUP_STAGE_ENDPOINT App.SETUP_ENDPOINT_STAGE].
    destruct (Z.eqb_spec stage 0) as [-> | _]; [intros H; injection H as <-; reflexivity |].
    destruct (Z.eqb_spec stage 1) as [-> | _]; [intros H; injection H as <-; reflexivity |].
    destruct (Z.eqb_spec stage 2) as [-> | _]; [intros H; injection H as <-; reflexivity |].
    discriminate.
  - reflexivity.
Defined.

Lemma setup_pages_stay_open_witness :
  App.before_request wizard (Ret (Some 2%Z))
    {| App.blueprint := Some "setup"; App.endpoint := Some "setup.type" |}
  = Ret None /\
  App.before_request wizard (Ret (Some 0%Z))
    {| App.blueprint := Some "setup"; App.endpoint := Some "setup.account" |}
  = App.redirect_to_stage wizard 0.
Proof.
  destruct (setup_pages_stay_open wizard 0 2
              {| App.blueprint := Some "setup"; App.endpoint := Some "setup.type" |}
              eq_refl) as [Hback _].
  destruct (setup_pages_stay_open wizard 0 2
              {| App.blueprint := Some "setup"; App.endpoint := Some "setup.account" |}
              eq_refl) as [_ Hahead].
  split.
  - apply Hback; [reflexivity | lia].
  - apply (Hahead 2%Z); [reflexivity | lia].
Defined.

Lemma setup_gates_the_application_witness :
  (App.before_request wizard (Ret (Some 100%Z))
     {| App.blueprint := Some "log"; App.endpoint := Some "log.events" |} = Ret None <->
   Ret (Some 100%Z) = Ret (Some (App.SETUP_COMPLETE wizard))) /\
  App.before_request wizard (Raise (OperationalError "no such table: settings"))
    {| App.blueprint := None; App.endpoint := Some "static" |} = Ret None.
Proof.
  split.
  - apply (setup_gates_the_application wizard (Ret (Some 100%Z))
             {| App.blueprint := Some "log"; App.endpoint := Some "log.events" |});
      [discriminate | reflexivity].
  - apply (setup_gates_the_application wizard
             (Raise (OperationalError "no such table: settings"))
             {| App.blueprint := None; App.endpoint := Some "static" |});
      [discriminate | reflexivity].
Defined.
